(** * A shallow embedding of the Vision-Transformer forward pass (model.py)

    Tensors are modelled as a shape together with an index function; every
    tensor operation computes the result shape the way the tensor library
    does (broadcasting, floor division in the strided projection, shape
    errors) and the entries by index.  Scalars are kept abstract behind the
    [Scalar] interface, so the structural theorems do not depend on any law
    of the arithmetic; the theorems that need arithmetic are stated on the
    instance of the interface over the real numbers. *)

From Stdlib Require Import Arith Lia List Bool.
From Stdlib Require Import Reals Lra.
From Stdlib Require String Ascii.
Import ListNotations.

Set Implicit Arguments.

(** ** Scalars *)

Class Scalar (T : Type) := {
  fzero : T;
  fone : T;
  neg_1e9 : T;                (* the literal -1e9 *)
  ln_eps : T;                 (* LayerNorm's default eps, 1e-5 *)
  fadd : T -> T -> T;
  fsub : T -> T -> T;
  fmul : T -> T -> T;
  fdiv : T -> T -> T;
  fsqrt : T -> T;
  fexp : T -> T;
  ftanh : T -> T;
  fgelu : T -> T;
  feqb : T -> T -> bool;      (* the == test on scalars *)
  of_nat : nat -> T           (* conversion of a size to a scalar *)
}.

(** ** Errors, results, and the forward-pass monad *)

Inductive error : Type :=
| ShapeError          (* RuntimeError raised by a tensor operation on mismatched shapes *)
| AssertionError
| ZeroDivisionError
| IndexError.

Inductive result (A : Type) : Type :=
| Ok (a : A)
| Err (e : error).
Arguments Ok {A} a.
Arguments Err {A} e.

Definition rbind {A B} (r : result A) (f : A -> result B) : result B :=
  match r with
  | Ok a => f a
  | Err e => Err e
  end.

(** The state threaded through a forward pass: the number of dropout calls
    made so far (which selects the random draw each call consumes), and a
    ghost trace of the causal flag of every attention-core invocation. *)
Record state : Type := St { rng_calls : nat; attn_flags : list bool }.

Definition M (A : Type) : Type := state -> result (A * state).

Definition ret {A} (a : A) : M A := fun st => Ok (a, st).

Definition bind {A B} (m : M A) (f : A -> M B) : M B :=
  fun st => match m st with
            | Ok (a, st') => f a st'
            | Err e => Err e
            end.

Definition lift {A} (r : result A) : M A :=
  fun st => match r with
            | Ok a => Ok (a, st)
            | Err e => Err e
            end.

Declare Scope fwd_scope.
Delimit Scope fwd_scope with fwd.
Notation "x <- m ;; k" := (bind m (fun x => k))
  (at level 61, m at next level, right associativity) : fwd_scope.

(** The module mode and the random draws of dropout.  [bernoulli c b i e]
    is the keep decision of the [c]-th dropout call at element [(b, i, e)]. *)
Record Env : Type := MkEnv {
  training : bool;
  bernoulli : nat -> nat -> nat -> nat -> bool
}.

(** ** Tensors *)

Record tensor1 (A : Type) : Type := T1 { d1_0 : nat; get1 : nat -> A }.
Record tensor2 (A : Type) : Type :=
  T2 { d2_0 : nat; d2_1 : nat; get2 : nat -> nat -> A }.
Record tensor3 (A : Type) : Type :=
  T3 { d3_0 : nat; d3_1 : nat; d3_2 : nat; get3 : nat -> nat -> nat -> A }.
Record tensor4 (A : Type) : Type :=
  T4 { d4_0 : nat; d4_1 : nat; d4_2 : nat; d4_3 : nat;
       get4 : nat -> nat -> nat -> nat -> A }.

Definition shape2 {A} (t : tensor2 A) := (d2_0 t, d2_1 t).
Definition shape3 {A} (t : tensor3 A) := (d3_0 t, d3_1 t, d3_2 t).
Definition shape4 {A} (t : tensor4 A) := (d4_0 t, d4_1 t, d4_2 t, d4_3 t).

(** Broadcasting of one dimension: equal sizes, or one of them is 1. *)
Definition bdim (a b : nat) : option nat :=
  if a =? b then Some a
  else if a =? 1 then Some b
  else if b =? 1 then Some a
  else None.

(** Index into a dimension of size [d] of a broadcast operand. *)
Definition bidx (d i : nat) : nat := if d =? 1 then 0 else i.

Definition map3 {A B} (f : A -> B) (t : tensor3 A) : tensor3 B :=
  T3 (d3_0 t) (d3_1 t) (d3_2 t) (fun b i e => f (get3 t b i e)).

Definition map4 {A B} (f : A -> B) (t : tensor4 A) : tensor4 B :=
  T4 (d4_0 t) (d4_1 t) (d4_2 t) (d4_3 t) (fun b h i j => f (get4 t b h i j)).

(** Elementwise binary operation on rank-3 tensors, with broadcasting. *)
Definition bcast3 {A B C} (f : A -> B -> C) (x : tensor3 A) (y : tensor3 B)
  : result (tensor3 C) :=
  match bdim (d3_0 x) (d3_0 y), bdim (d3_1 x) (d3_1 y), bdim (d3_2 x) (d3_2 y) with
  | Some n0, Some n1, Some n2 =>
      Ok (T3 n0 n1 n2 (fun b i e =>
            f (get3 x (bidx (d3_0 x) b) (bidx (d3_1 x) i) (bidx (d3_2 x) e))
              (get3 y (bidx (d3_0 y) b) (bidx (d3_1 y) i) (bidx (d3_2 y) e))))
  | _, _, _ => Err ShapeError
  end.

(** Elementwise binary operation on rank-4 tensors, with broadcasting. *)
Definition bcast4 {A B C} (f : A -> B -> C) (x : tensor4 A) (y : tensor4 B)
  : result (tensor4 C) :=
  match bdim (d4_0 x) (d4_0 y), bdim (d4_1 x) (d4_1 y),
        bdim (d4_2 x) (d4_2 y), bdim (d4_3 x) (d4_3 y) with
  | Some n0, Some n1, Some n2, Some n3 =>
      Ok (T4 n0 n1 n2 n3 (fun b h i j =>
            f (get4 x (bidx (d4_0 x) b) (bidx (d4_1 x) h)
                      (bidx (d4_2 x) i) (bidx (d4_3 x) j))
              (get4 y (bidx (d4_0 y) b) (bidx (d4_1 y) h)
                      (bidx (d4_2 y) i) (bidx (d4_3 y) j))))
  | _, _, _, _ => Err ShapeError
  end.

(** A rank-3 tensor used where a rank-4 one is expected gets a leading
    dimension of size 1. *)
Definition unsqueeze0 {A} (t : tensor3 A) : tensor4 A :=
  T4 1 (d3_0 t) (d3_1 t) (d3_2 t) (fun _ b i j => get3 t b i j).

(** [x.transpose(-2, -1)] *)
Definition transpose_last {A} (t : tensor4 A) : tensor4 A :=
  T4 (d4_0 t) (d4_1 t) (d4_3 t) (d4_2 t) (fun b h i j => get4 t b h j i).

(** [x.transpose(1, 2)] on rank 4 and on rank 3 *)
Definition transpose12_4 {A} (t : tensor4 A) : tensor4 A :=
  T4 (d4_0 t) (d4_2 t) (d4_1 t) (d4_3 t) (fun b i h j => get4 t b h i j).

Definition transpose12_3 {A} (t : tensor3 A) : tensor3 A :=
  T3 (d3_0 t) (d3_2 t) (d3_1 t) (fun b i e => get3 t b e i).

Section Model.

Context {T : Type} {SC : Scalar T}.
Variable env : Env.

(** Left-to-right accumulation of [f 0 + f 1 + ... + f (n-1)]. *)
Fixpoint sum_upto (n : nat) (f : nat -> T) : T :=
  match n with
  | 0 => fzero
  | S m => fadd (sum_upto m f) (f m)
  end.

(** [torch.matmul] on rank-4 tensors: the two leading dimensions are
    broadcast, the inner dimensions have to agree. *)
Definition matmul4 (a b : tensor4 T) : result (tensor4 T) :=
  if negb (d4_3 a =? d4_2 b) then Err ShapeError
  else
    match bdim (d4_0 a) (d4_0 b), bdim (d4_1 a) (d4_1 b) with
    | Some n0, Some n1 =>
        Ok (T4 n0 n1 (d4_2 a) (d4_3 b) (fun b0 h i j =>
              sum_upto (d4_3 a) (fun c =>
                fmul (get4 a (bidx (d4_0 a) b0) (bidx (d4_1 a) h) i c)
                     (get4 b (bidx (d4_0 b) b0) (bidx (d4_1 b) h) c j))))
    | _, _ => Err ShapeError
    end.

(** [torch.ones([1, n, n])], [torch.tril], [.bool()] *)
Definition ones3 (n0 n1 n2 : nat) : tensor3 T := T3 n0 n1 n2 (fun _ _ _ => fone).

Definition tril (t : tensor3 T) : tensor3 T :=
  T3 (d3_0 t) (d3_1 t) (d3_2 t)
     (fun b i j => if j <=? i then get3 t b i j else fzero).

Definition to_bool3 (t : tensor3 T) : tensor3 bool :=
  map3 (fun x => negb (feqb x fzero)) t.

(** [t.masked_fill(m, v)]: [m] has to be broadcastable to the shape of [t]. *)
Definition expands_to (d_src d_dst : nat) : bool := (d_src =? d_dst) || (d_src =? 1).

Definition masked_fill (t : tensor4 T) (m : tensor4 bool) (v : T)
  : result (tensor4 T) :=
  if expands_to (d4_0 m) (d4_0 t) && expands_to (d4_1 m) (d4_1 t)
     && expands_to (d4_2 m) (d4_2 t) && expands_to (d4_3 m) (d4_3 t)
  then Ok (T4 (d4_0 t) (d4_1 t) (d4_2 t) (d4_3 t) (fun b h i j =>
             if get4 m (bidx (d4_0 m) b) (bidx (d4_1 m) h)
                       (bidx (d4_2 m) i) (bidx (d4_3 m) j)
             then v else get4 t b h i j))
  else Err ShapeError.

(** [torch.softmax(t, dim=-1)]: exp(x_j) / sum_k exp(x_k) along the last axis. *)
Definition softmax_last (t : tensor4 T) : tensor4 T :=
  T4 (d4_0 t) (d4_1 t) (d4_2 t) (d4_3 t) (fun b h i j =>
    fdiv (fexp (get4 t b h i j))
         (sum_upto (d4_3 t) (fun k => fexp (get4 t b h i k)))).

(** ** Self_Attention.forward *)

Definition Self_Attention_forward (q k v : tensor4 T) (is_masked : bool)
  : result (tensor4 T) :=
  let d_k := d4_3 q in
  let padding := fzero in
  rbind (matmul4 q (transpose_last k)) (fun qk =>
  let attention_weights := map4 (fun x => fdiv x (fsqrt (of_nat d_k))) qk in
  let mask := map4 (fun x => negb (feqb x padding)) attention_weights in
  rbind (if is_masked
         then bcast4 andb
                (unsqueeze0 (to_bool3 (tril (ones3 1 (d4_3 attention_weights)
                                                     (d4_3 attention_weights)))))
                mask
         else Ok mask) (fun mask =>
  rbind (masked_fill attention_weights (map4 negb mask) neg_1e9)
        (fun attention_weights =>
  let probabilities := softmax_last attention_weights in
  matmul4 probabilities v))).

(** ** nn.Linear *)

Record Linear : Type := MkLinear {
  in_features : nat;
  out_features : nat;
  weight : nat -> nat -> T;      (* [out_features, in_features] *)
  bias : nat -> T
}.

Definition Linear_row (l : Linear) (x : nat -> T) (o : nat) : T :=
  fadd (sum_upto (in_features l) (fun c => fmul (x c) (weight l o c))) (bias l o).

Definition Linear_forward3 (l : Linear) (x : tensor3 T) : result (tensor3 T) :=
  if d3_2 x =? in_features l
  then Ok (T3 (d3_0 x) (d3_1 x) (out_features l)
              (fun b i o => Linear_row l (get3 x b i) o))
  else Err ShapeError.

Definition Linear_forward2 (l : Linear) (x : tensor2 T) : result (tensor2 T) :=
  if d2_1 x =? in_features l
  then Ok (T2 (d2_0 x) (out_features l) (fun b o => Linear_row l (get2 x b) o))
  else Err ShapeError.

(** ** nn.Conv2d (no padding, no dilation) *)

Record Conv2d : Type := MkConv2d {
  in_channels : nat;
  out_channels : nat;
  kernel_size : nat;
  stride : nat;
  conv_weight : nat -> nat -> nat -> nat -> T;   (* [out, in, kh, kw] *)
  conv_bias : nat -> T
}.

Definition conv_out_size (side ks st : nat) : nat := (side - ks) / st + 1.

Definition conv_entry (c : Conv2d) (x : tensor4 T) (b o r cl : nat) : T :=
  fadd (sum_upto (in_channels c) (fun ch =>
          sum_upto (kernel_size c) (fun u =>
            sum_upto (kernel_size c) (fun w =>
              fmul (conv_weight c o ch u w)
                   (get4 x b ch (r * stride c + u) (cl * stride c + w))))))
       (conv_bias c o).

Definition Conv2d_forward (c : Conv2d) (x : tensor4 T) : result (tensor4 T) :=
  if negb (d4_1 x =? in_channels c) then Err ShapeError
  else if stride c =? 0 then Err ShapeError
  else if (d4_2 x <? kernel_size c) || (d4_3 x <? kernel_size c) then Err ShapeError
  else Ok (T4 (d4_0 x) (out_channels c)
              (conv_out_size (d4_2 x) (kernel_size c) (stride c))
              (conv_out_size (d4_3 x) (kernel_size c) (stride c))
              (conv_entry c x)).

(** ** nn.LayerNorm over the last axis *)

Record LayerNorm : Type := MkLayerNorm {
  normalized_shape : nat;
  ln_weight : nat -> T;
  ln_bias : nat -> T
}.

Definition row_mean (n : nat) (x : nat -> T) : T :=
  fdiv (sum_upto n x) (of_nat n).

Definition row_var (n : nat) (x : nat -> T) : T :=
  fdiv (sum_upto n (fun e => fmul (fsub (x e) (row_mean n x))
                                  (fsub (x e) (row_mean n x))))
       (of_nat n).

Definition LayerNorm_entry (ln : LayerNorm) (x : nat -> T) (e : nat) : T :=
  let n := normalized_shape ln in
  fadd (fmul (fdiv (fsub (x e) (row_mean n x))
                   (fsqrt (fadd (row_var n x) ln_eps)))
             (ln_weight ln e))
       (ln_bias ln e).

Definition LayerNorm_forward (ln : LayerNorm) (x : tensor3 T) : result (tensor3 T) :=
  if d3_2 x =? normalized_shape ln
  then Ok (T3 (d3_0 x) (d3_1 x) (d3_2 x)
              (fun b i e => LayerNorm_entry ln (get3 x b i) e))
  else Err ShapeError.

(** ** nn.Dropout

    In training mode every call draws one keep decision per element and
    multiplies by [keep / (1 - p)]; with [p = 1] the output is [x * 0].  In
    evaluation mode the call is the identity and draws nothing. *)

Record Dropout : Type := MkDropout { p : T }.

Definition dropout_elem (d : Dropout) (call b i e : nat) (x : T) : T :=
  if training env
  then if feqb (p d) fone
       then fmul x fzero
       else fmul x (fdiv (if bernoulli env call b i e then fone else fzero)
                         (fsub fone (p d)))
  else x.

Definition Dropout_forward (d : Dropout) (x : tensor3 T) : M (tensor3 T) :=
  fun st =>
    if training env
    then Ok (T3 (d3_0 x) (d3_1 x) (d3_2 x)
                (fun b i e => dropout_elem d (rng_calls st) b i e (get3 x b i e)),
             St (S (rng_calls st)) (attn_flags st))
    else Ok (x, st).

(** ** Patch_Embedding *)

Record Patch_Embedding : Type := MkPatch_Embedding {
  patch_size : nat;
  embed_dim : nat;
  num_patches : nat;
  conv : Conv2d;
  pos_encoding : tensor3 T;
  class_token : tensor3 T;
  dropout : Dropout
}.

(** The learned values ([conv_w], [conv_b], [pos], [cls]) are arguments: the
    constructor fixes the shapes, the initialiser and the optimiser the values. *)
Definition Patch_Embedding_init (img_side_len patch_size n_channels embed_dim : nat)
    (dropout_rate : T)
    (conv_w : nat -> nat -> nat -> nat -> T) (conv_b : nat -> T)
    (pos cls : nat -> nat -> nat -> T) : result Patch_Embedding :=
  if patch_size =? 0 then Err ZeroDivisionError
  else
    let num_patches := (img_side_len / patch_size) ^ 2 + 1 in
    Ok (MkPatch_Embedding patch_size embed_dim num_patches
          (MkConv2d n_channels embed_dim patch_size patch_size conv_w conv_b)
          (T3 1 num_patches embed_dim pos)
          (T3 1 1 embed_dim cls)
          (MkDropout dropout_rate)).

(** [torch.flatten(x, 2)] *)
Definition flatten2 (x : tensor4 T) : tensor3 T :=
  T3 (d4_0 x) (d4_1 x) (d4_2 x * d4_3 x)
     (fun b e q => get4 x b e (q / d4_3 x) (q mod d4_3 x)).

(** [t.expand(n, -1, -1)] *)
Definition expand0 (t : tensor3 T) (n : nat) : result (tensor3 T) :=
  if expands_to (d3_0 t) n
  then Ok (T3 n (d3_1 t) (d3_2 t) (fun b i e => get3 t (bidx (d3_0 t) b) i e))
  else Err ShapeError.

(** [torch.cat((a, b), dim=1)] *)
Definition cat1 (a b : tensor3 T) : result (tensor3 T) :=
  if (d3_0 a =? d3_0 b) && (d3_2 a =? d3_2 b)
  then Ok (T3 (d3_0 a) (d3_1 a + d3_1 b) (d3_2 a)
              (fun b0 i e => if i <? d3_1 a then get3 a b0 i e
                             else get3 b b0 (i - d3_1 a) e))
  else Err ShapeError.

Definition Patch_Embedding_forward (pe : Patch_Embedding) (x : tensor4 T)
  : M (tensor3 T) :=
  (x <- lift (Conv2d_forward (conv pe) x) ;;
   let x := flatten2 x in
   let x := transpose12_3 x in
   class_token <- lift (expand0 (class_token pe) (d3_0 x)) ;;
   x <- lift (cat1 class_token x) ;;
   x <- lift (bcast3 fadd x (pos_encoding pe)) ;;
   Dropout_forward (dropout pe) x)%fwd.

(** ** Multi_Headed_Attention *)

Record Multi_Headed_Attention : Type := MkMulti_Headed_Attention {
  n_heads : nat;
  d_key : nat;
  Wq : Linear;
  Wk : Linear;
  Wv : Linear
}.

Definition Multi_Headed_Attention_init (n_heads embed_dim : nat)
    (wq wk wv : nat -> nat -> T) (bq bk bv : nat -> T)
  : result Multi_Headed_Attention :=
  if n_heads =? 0 then Err ZeroDivisionError            (* embed_dim % 0 *)
  else if negb (embed_dim mod n_heads =? 0) then Err AssertionError
  else Ok (MkMulti_Headed_Attention n_heads (embed_dim / n_heads)
             (MkLinear embed_dim embed_dim wq bq)
             (MkLinear embed_dim embed_dim wk bk)
             (MkLinear embed_dim embed_dim wv bv)).

(** [x.view(x.size(0), x.size(1), h, d)]: the element counts have to agree;
    entries are matched through the row-major position. *)
Definition view_heads (x : tensor3 T) (h d : nat) : result (tensor4 T) :=
  if d3_0 x * d3_1 x * d3_2 x =? d3_0 x * d3_1 x * h * d
  then Ok (T4 (d3_0 x) (d3_1 x) h d (fun b i hh c =>
             let f := ((b * d3_1 x + i) * h + hh) * d + c in
             get3 x (f / (d3_1 x * d3_2 x)) ((f / d3_2 x) mod d3_1 x) (f mod d3_2 x)))
  else Err ShapeError.

(** [x.view(x.size(0), -1, e)]: the middle size is inferred. *)
Definition view_concat (x : tensor4 T) (e : nat) : result (tensor3 T) :=
  let numel := d4_0 x * d4_1 x * d4_2 x * d4_3 x in
  let known := d4_0 x * e in
  if known =? 0 then Err ShapeError
  else if negb (numel mod known =? 0) then Err ShapeError
  else Ok (T3 (d4_0 x) (numel / known) e (fun b i c =>
             let f := (b * (numel / known) + i) * e + c in
             get4 x (f / (d4_1 x * d4_2 x * d4_3 x))
                    ((f / (d4_2 x * d4_3 x)) mod d4_1 x)
                    ((f / d4_3 x) mod d4_2 x)
                    (f mod d4_3 x))).

(** Ghost step: record the causal flag an attention-core call receives. *)
Definition log_flag (is_masked : bool) : M unit :=
  fun st => Ok (tt, St (rng_calls st) (attn_flags st ++ [is_masked])).

Definition Multi_Headed_Attention_forward (m : Multi_Headed_Attention)
    (x : tensor3 T) (is_masked : bool) : M (tensor3 T) :=
  (q <- lift (Linear_forward3 (Wq m) x) ;;
   k <- lift (Linear_forward3 (Wk m) x) ;;
   v <- lift (Linear_forward3 (Wv m) x) ;;
   q <- lift (view_heads q (n_heads m) (d_key m)) ;;
   k <- lift (view_heads k (n_heads m) (d_key m)) ;;
   v <- lift (view_heads v (n_heads m) (d_key m)) ;;
   let q := transpose12_4 q in
   let k := transpose12_4 k in
   let v := transpose12_4 v in
   _ <- log_flag is_masked ;;
   output <- lift (Self_Attention_forward q k v is_masked) ;;
   let output := transpose12_4 output in
   lift (view_concat output (d_key m * n_heads m)))%fwd.

(** ** Position_wise_ffn and Add_and_Norm *)

Record Position_wise_ffn : Type := MkPosition_wise_ffn {
  linear1 : Linear;
  linear2 : Linear
}.

Definition Position_wise_ffn_forward (f : Position_wise_ffn) (x : tensor3 T)
  : result (tensor3 T) :=
  rbind (Linear_forward3 (linear1 f) x) (fun x =>
  let x := map3 fgelu x in
  Linear_forward3 (linear2 f) x).

Record Add_and_Norm : Type := MkAdd_and_Norm { norm : LayerNorm }.

Definition Add_and_Norm_forward (a : Add_and_Norm) (input output : tensor3 T)
  : result (tensor3 T) :=
  rbind (bcast3 fadd input output) (LayerNorm_forward (norm a)).

(** ** Encoder_Block, Encoder, Transformer *)

Record Encoder_Block : Type := MkEncoder_Block {
  attention : Multi_Headed_Attention;
  dropout1 : Dropout;
  add_and_norm1 : Add_and_Norm;
  ffn : Position_wise_ffn;
  dropout2 : Dropout;
  add_and_norm2 : Add_and_Norm
}.

(** [self.attention(x)] leaves [is_masked] at its default, [False]. *)
Definition Encoder_Block_forward (blk : Encoder_Block) (x : tensor3 T)
  : M (tensor3 T) :=
  (attention_layer <- Multi_Headed_Attention_forward (attention blk) x false ;;
   attention_layer <- Dropout_forward (dropout1 blk) attention_layer ;;
   x <- lift (Add_and_Norm_forward (add_and_norm1 blk) attention_layer x) ;;
   ffn_out <- lift (Position_wise_ffn_forward (ffn blk) x) ;;
   ffn_out <- Dropout_forward (dropout2 blk) ffn_out ;;
   lift (Add_and_Norm_forward (add_and_norm2 blk) x ffn_out))%fwd.

Record Encoder : Type := MkEncoder { encoder_layers : list Encoder_Block }.

Fixpoint Encoder_loop (layers : list Encoder_Block) (x : tensor3 T) : M (tensor3 T) :=
  match layers with
  | [] => ret x
  | encoder_layer :: rest =>
      (x <- Encoder_Block_forward encoder_layer x ;; Encoder_loop rest x)%fwd
  end.

Definition Encoder_forward (e : Encoder) (x : tensor3 T) : M (tensor3 T) :=
  Encoder_loop (encoder_layers e) x.

Record Transformer : Type := MkTransformer {
  positional_encoding : Patch_Embedding;
  mlp_head : Linear;
  encoder : Encoder
}.

(** [x[:, 0, :]] *)
Definition select_row0 (x : tensor3 T) : result (tensor2 T) :=
  if d3_1 x =? 0 then Err IndexError
  else Ok (T2 (d3_0 x) (d3_2 x) (fun b e => get3 x b 0 e)).

Definition map2 (f : T -> T) (t : tensor2 T) : tensor2 T :=
  T2 (d2_0 t) (d2_1 t) (fun b e => f (get2 t b e)).

Definition Transformer_forward {Target : Type} (m : Transformer)
    (x : tensor4 T) (target : Target) : M (tensor2 T) :=
  (encoder_in <- Patch_Embedding_forward (positional_encoding m) x ;;
   encoder_output <- Encoder_forward (encoder m) encoder_in ;;
   class_token_learned <- lift (select_row0 encoder_output) ;;
   let class_token_learned := map2 ftanh class_token_learned in
   lift (Linear_forward2 (mlp_head m) class_token_learned))%fwd.

End Model.

(** ** Construction of the encoder and of the whole model

    The constructors fix every shape; the values of the learned parameters
    (set by the initialiser, then by the optimiser) are arguments. *)

Section Construction.

Context {T : Type} {SC : Scalar T}.

Record Linear_values : Type := MkLinear_values {
  lin_w : nat -> nat -> T;
  lin_b : nat -> T
}.

Record LayerNorm_values : Type := MkLayerNorm_values {
  norm_w : nat -> T;
  norm_b : nat -> T
}.

Record Block_values : Type := MkBlock_values {
  val_Wq : Linear_values;
  val_Wk : Linear_values;
  val_Wv : Linear_values;
  val_norm1 : LayerNorm_values;
  val_linear1 : Linear_values;
  val_linear2 : Linear_values;
  val_norm2 : LayerNorm_values
}.

Record Patch_values : Type := MkPatch_values {
  val_conv_w : nat -> nat -> nat -> nat -> T;
  val_conv_b : nat -> T;
  val_pos : nat -> nat -> nat -> T;
  val_cls : nat -> nat -> nat -> T
}.

Definition nn_Linear (i o : nat) (v : Linear_values) : @Linear T :=
  MkLinear i o (lin_w v) (lin_b v).

Definition nn_LayerNorm (n : nat) (v : LayerNorm_values) : @LayerNorm T :=
  MkLayerNorm n (norm_w v) (norm_b v).

Definition Encoder_Block_init (embed_dim d_ffn n_heads : nat) (dropout_rate : T)
    (v : Block_values) : result (@Encoder_Block T) :=
  rbind (Multi_Headed_Attention_init n_heads embed_dim
           (lin_w (val_Wq v)) (lin_w (val_Wk v)) (lin_w (val_Wv v))
           (lin_b (val_Wq v)) (lin_b (val_Wk v)) (lin_b (val_Wv v)))
        (fun attention =>
  Ok (MkEncoder_Block attention
        (MkDropout dropout_rate)
        (MkAdd_and_Norm (nn_LayerNorm embed_dim (val_norm1 v)))
        (MkPosition_wise_ffn (nn_Linear embed_dim d_ffn (val_linear1 v))
                             (nn_Linear d_ffn embed_dim (val_linear2 v)))
        (MkDropout dropout_rate)
        (MkAdd_and_Norm (nn_LayerNorm embed_dim (val_norm2 v))))).

(** The list comprehension over [range(n_blocks)]: one block per element of
    [vals], built in order. *)
Fixpoint Encoder_layers_init (embed_dim d_ffn n_heads : nat) (dropout_rate : T)
    (vals : list Block_values) : result (list (@Encoder_Block T)) :=
  match vals with
  | [] => Ok []
  | v :: rest =>
      rbind (Encoder_Block_init embed_dim d_ffn n_heads dropout_rate v) (fun blk =>
      rbind (Encoder_layers_init embed_dim d_ffn n_heads dropout_rate rest)
            (fun blks => Ok (blk :: blks)))
  end.

Definition Encoder_init (embed_dim d_ffn n_heads : nat) (dropout_rate : T)
    (vals : list Block_values) : result (@Encoder T) :=
  rbind (Encoder_layers_init embed_dim d_ffn n_heads dropout_rate vals)
        (fun layers => Ok (MkEncoder layers)).

Definition Transformer_init (img_side_len patch_size n_channels num_classes : nat)
    (n_heads embed_dim d_ffn : nat) (dropout_rate : T)
    (pv : Patch_values) (head : Linear_values) (blocks : list Block_values)
  : result (@Transformer T) :=
  rbind (Patch_Embedding_init img_side_len patch_size n_channels embed_dim
           dropout_rate (val_conv_w pv) (val_conv_b pv) (val_pos pv) (val_cls pv))
        (fun positional_encoding =>
  let mlp_head := nn_Linear embed_dim num_classes head in
  rbind (Encoder_init embed_dim d_ffn n_heads dropout_rate blocks) (fun encoder =>
  Ok (MkTransformer positional_encoding mlp_head encoder))).

(** What construction guarantees about the shapes inside one block. *)
Definition block_shapes (E : nat) (blk : @Encoder_Block T) : Prop :=
  n_heads (attention blk) * d_key (attention blk) = E
  /\ in_features (Wq (attention blk)) = E /\ out_features (Wq (attention blk)) = E
  /\ in_features (Wk (attention blk)) = E /\ out_features (Wk (attention blk)) = E
  /\ in_features (Wv (attention blk)) = E /\ out_features (Wv (attention blk)) = E
  /\ normalized_shape (norm (add_and_norm1 blk)) = E
  /\ in_features (linear1 (ffn blk)) = E
  /\ out_features (linear1 (ffn blk)) = in_features (linear2 (ffn blk))
  /\ out_features (linear2 (ffn blk)) = E
  /\ normalized_shape (norm (add_and_norm2 blk)) = E.

End Construction.

(** ** The attention core, position by position

    These definitions follow the description of the algorithm entry by
    entry; they are compared with [Self_Attention_forward] below. *)

Section AttentionSpec.

Context {T : Type} {SC : Scalar T}.

(** Raw score of query row [i] against key row [j]. *)
Definition raw_score (q k : tensor4 T) (b h i j : nat) : T :=
  fdiv (sum_upto (d4_3 q) (fun c => fmul (get4 q b h i c) (get4 k b h j c)))
       (fsqrt (of_nat (d4_3 q))).

(** A position is attendable when its raw score is not zero and, under the
    causal flag, its column does not exceed its row. *)
Definition attendable (q k : tensor4 T) (causal : bool) (b h i j : nat) : bool :=
  negb (feqb (raw_score q k b h i j) fzero) && (if causal then j <=? i else true).

Definition masked_score (q k : tensor4 T) (causal : bool) (b h i j : nat) : T :=
  if attendable q k causal b h i j then raw_score q k b h i j else neg_1e9.

Definition attn_prob (q k : tensor4 T) (causal : bool) (b h i j : nat) : T :=
  fdiv (fexp (masked_score q k causal b h i j))
       (sum_upto (d4_2 k) (fun j' => fexp (masked_score q k causal b h i j'))).

Definition attention_spec (q k v : tensor4 T) (causal : bool) (b h i c : nat) : T :=
  sum_upto (d4_2 k) (fun j => fmul (attn_prob q k causal b h i j) (get4 v b h j c)).

(** Standard scaled-dot-product attention, with no mask at all. *)
Definition sdpa_prob (q k : tensor4 T) (b h i j : nat) : T :=
  fdiv (fexp (raw_score q k b h i j))
       (sum_upto (d4_2 k) (fun j' => fexp (raw_score q k b h i j'))).

Definition sdpa (q k v : tensor4 T) (b h i c : nat) : T :=
  sum_upto (d4_2 k) (fun j => fmul (sdpa_prob q k b h i j) (get4 v b h j c)).

(** The two laws of the scalar comparison the causal mask relies on:
    [tril(ones).bool()] is true on and below the diagonal, false above. *)
Definition mask_laws : Prop :=
  feqb fone fzero = false /\ feqb fzero fzero = true.

End AttentionSpec.

(** ** The scalar interface over the real numbers *)

Definition Req_b (x y : R) : bool := if Req_dec_T x y then true else false.

Definition RScalar (gelu : R -> R) : Scalar R := {|
  fzero := 0%R;
  fone := 1%R;
  neg_1e9 := (-1000000000)%R;
  ln_eps := (1 / 100000)%R;
  fadd := Rplus;
  fsub := Rminus;
  fmul := Rmult;
  fdiv := Rdiv;
  fsqrt := sqrt;
  fexp := exp;
  ftanh := tanh;
  fgelu := gelu;
  feqb := Req_b;
  of_nat := INR
|}.

(** The same interface with the exponential left open.  The code computes
    in floating point, where [exp] is not the real exponential: it is never
    negative, and it returns exactly zero on arguments below about -103.97
    in single precision, the sentinel -1e9 among them.  [RScalar gelu] is
    [RScalar_exp gelu exp]. *)
Definition RScalar_exp (gelu ex : R -> R) : Scalar R := {|
  fzero := 0%R;
  fone := 1%R;
  neg_1e9 := (-1000000000)%R;
  ln_eps := (1 / 100000)%R;
  fadd := Rplus;
  fsub := Rminus;
  fmul := Rmult;
  fdiv := Rdiv;
  fsqrt := sqrt;
  fexp := ex;
  ftanh := tanh;
  fgelu := gelu;
  feqb := Req_b;
  of_nat := INR
|}.


(** ** The patch embedding, described from outside *)

Section PatchEmbeddingSpec.

Context {T : Type} {SC : Scalar T}.

(** The input contract: a square image whose side is a multiple of the
    patch size. *)
Definition shape_contract (ps : nat) (x : tensor4 T) : bool :=
  (d4_2 x =? d4_3 x) && (d4_2 x mod ps =? 0).

(** The inputs the forward pass goes through with: the channel count
    matches, both sides hold at least one patch, and the number of tokens
    equals the length of the positional table (or that length is 1). *)
Definition Patch_Embedding_accepts (img_side_len ps n_channels : nat)
    (x : tensor4 T) : bool :=
  (d4_1 x =? n_channels) && (ps <=? d4_2 x) && (ps <=? d4_3 x)
  && (((img_side_len / ps) ^ 2 + 1 =? d4_2 x / ps * (d4_3 x / ps) + 1)
      || ((img_side_len / ps) ^ 2 + 1 =? 1)).

(** The linear projection of the patch in patch-row [r], patch-column [c]
    onto embedding coordinate [e]. *)
Definition patch_projection (w : nat -> nat -> nat -> nat -> T) (bs : nat -> T)
    (n_channels ps : nat) (x : tensor4 T) (b r c e : nat) : T :=
  fadd (sum_upto n_channels (fun ch =>
          sum_upto ps (fun u =>
            sum_upto ps (fun v =>
              fmul (w e ch u v) (get4 x b ch (r * ps + u) (c * ps + v))))))
       (bs e).

End PatchEmbeddingSpec.

(** ** Concrete inputs used in the examples below *)

Definition const4 (n0 n1 n2 n3 : nat) (x : R) : tensor4 R :=
  T4 n0 n1 n2 n3 (fun _ _ _ _ => x).

(** Two positions, one head, one feature. *)
Definition ex_zeros : tensor4 R := const4 1 1 2 1 0%R.
Definition ex_ones : tensor4 R := const4 1 1 2 1 1%R.

(** A value tensor that is 0 at position 0 and 1 at position 1. *)
Definition ex_step : tensor4 R :=
  T4 1 1 2 1 (fun _ _ j _ => if j =? 1 then 1%R else 0%R).

Definition ex_gelu : R -> R := fun x => x.

(** ** Comparing results

    Two results agree when both are the same error, or both are tensors of
    one shape with equal entries at every index inside the shape. *)

Definition result_eq3 {T : Type} (r1 r2 : result (tensor3 T)) : Prop :=
  match r1, r2 with
  | Ok t1, Ok t2 =>
      shape3 t1 = shape3 t2
      /\ forall b i e, b < d3_0 t1 -> i < d3_1 t1 -> e < d3_2 t1 ->
           get3 t1 b i e = get3 t2 b i e
  | Err e1, Err e2 => e1 = e2
  | _, _ => False
  end.

(** A one-channel image of side [n] with every pixel equal to [x]. *)
Definition ex_image (h w : nat) (x : R) : tensor4 R := const4 1 1 h w x.

Definition ex_env : Env := MkEnv false (fun _ _ _ _ => true).
Definition ex_state : state := St 0 [].

(** A patch embedding built for 8x8 one-channel images, patch size 4 and
    embedding dimension 2, with all parameters zero. *)
Definition ex_patch_values : @Patch_values R :=
  MkPatch_values (fun _ _ _ _ => 0%R) (fun _ => 0%R)
                 (fun _ _ _ => 0%R) (fun _ _ _ => 0%R).

Definition ex_patch_embedding : @Patch_Embedding R :=
  MkPatch_Embedding 4 2 5
    (MkConv2d 1 2 4 4 (val_conv_w ex_patch_values) (val_conv_b ex_patch_values))
    (T3 1 5 2 (val_pos ex_patch_values))
    (T3 1 1 2 (val_cls ex_patch_values))
    (MkDropout 0%R).

Definition ex_linear_values : @Linear_values R :=
  MkLinear_values (fun _ _ => 0%R) (fun _ => 0%R).

Definition ex_norm_values : @LayerNorm_values R :=
  MkLayerNorm_values (fun _ => 1%R) (fun _ => 0%R).

Definition ex_block_values : @Block_values R :=
  MkBlock_values ex_linear_values ex_linear_values ex_linear_values
                 ex_norm_values ex_linear_values ex_linear_values ex_norm_values.

(** One encoder block with one head and a feed-forward width of 4. *)
Definition ex_block : @Encoder_Block R :=
  MkEncoder_Block
    (MkMulti_Headed_Attention 1 2
       (nn_Linear 2 2 ex_linear_values) (nn_Linear 2 2 ex_linear_values)
       (nn_Linear 2 2 ex_linear_values))
    (MkDropout 0%R)
    (MkAdd_and_Norm (nn_LayerNorm 2 ex_norm_values))
    (MkPosition_wise_ffn (nn_Linear 2 4 ex_linear_values)
                         (nn_Linear 4 2 ex_linear_values))
    (MkDropout 0%R)
    (MkAdd_and_Norm (nn_LayerNorm 2 ex_norm_values)).

(** The model [Transformer(8, 4, 1, 3, device, n_heads=1, n_blocks=1,
    embed_dim=2, d_ffn=4, dropout_rate=0)]. *)
Definition ex_model : @Transformer R :=
  MkTransformer ex_patch_embedding (nn_Linear 2 3 ex_linear_values)
                (MkEncoder [ex_block]).

(** Class labels for a batch of one image. *)
Definition ex_target : tensor1 nat := T1 1 (fun _ => 0).

Definition ex_tokens (x : R) : tensor3 R := T3 1 2 2 (fun _ _ _ => x).

Definition ex_add_and_norm : @Add_and_Norm R :=
  MkAdd_and_Norm (nn_LayerNorm 2 ex_norm_values).

(** ** Further descriptions used below *)

Section HeadSpec.

Context {T : Type} {SC : Scalar T}.

(** The slice of a [batch, seq_len, embed_dim] tensor that belongs to each
    head: head [hh] owns the columns [hh * d .. hh * d + d - 1]. *)
Definition split_heads (t : tensor3 T) (h d : nat) : tensor4 T :=
  T4 (d3_0 t) h (d3_1 t) d (fun b hh l c => get3 t b l (hh * d + c)).

End HeadSpec.

(** ** dataset.py: the Mirflickr dataset and the loader factory

    Arrays loaded from disk are modelled by their entries, as lists of real
    numbers; the file system ([os.listdir], [np.load]), the external CIFAR-10
    dataset class, the transforms and the [DataLoader] constructor are
    parameters of the model. *)

Inductive exception : Type :=
| Py_IndexError
| Py_FileNotFoundError
| Py_TypeError
| Py_RuntimeError
| Py_ValueError
| Py_ZeroDivisionError.

Inductive outcome (A : Type) : Type :=
| Return (a : A)
| Raise (e : exception).
Arguments Return {A} a.
Arguments Raise {A} e.

Definition obind {A B} (o : outcome A) (f : A -> outcome B) : outcome B :=
  match o with
  | Return a => f a
  | Raise e => Raise e
  end.

Section DatasetModel.

Import Ascii String.

Definition ndarray : Type := list R.

(** [l[i]] on a Python list: negative indices count from the end. *)
Definition py_index {A} (l : list A) (i : Z) : outcome A :=
  let n := Z.of_nat (List.length l) in
  let j := if (i <? 0)%Z then (i + n)%Z else i in
  if ((j <? 0)%Z || (n <=? j)%Z)%bool then Raise Py_IndexError
  else match nth_error l (Z.to_nat j) with
       | Some a => Return a
       | None => Raise Py_IndexError
       end.

(** [s[:-4]] on a Python string. *)
Definition py_drop_last4 (s : String.string) : String.string :=
  String.substring 0 (String.length s - 4) s.

Definition starts_with_sep (s : String.string) : bool :=
  match String.get 0 s with
  | Some c => Ascii.eqb c "/"%char
  | None => false
  end.

Definition ends_with_sep (s : String.string) : bool :=
  match String.get (String.length s - 1) s with
  | Some c => Ascii.eqb c "/"%char
  | None => false
  end.

(** [os.path.join(a, b)] on a POSIX system. *)
Definition os_path_join (a b : String.string) : String.string :=
  if starts_with_sep b then b
  else if (String.length a =? 0) || ends_with_sep a then String.append a b
  else String.append a (String.append "/"%string b).

(** The two normalisations of [__getitem__], entry by entry. *)
Definition normalize_image_value (x : R) : R :=
  ((x - (- (79 / 10000))) / (9004 / 10000 - (- (79 / 10000))))%R.

Definition normalize_target_value (t : R) : R :=
  (t - (41243 / 1000000000) / (1 - 41243 / 1000000000))%R.

Record Mirflickr : Type := MkMirflickr {
  root_dir : String.string;
  data_dir : String.string;
  target_dir : String.string;
  data_list : list String.string;
  target_list : list String.string;
  in_transform : option (ndarray -> ndarray);
  target_transform : option (ndarray -> ndarray)
}.

Definition apply_transform (t : option (ndarray -> ndarray)) (a : ndarray) : ndarray :=
  match t with
  | Some f => f a
  | None => a
  end.

Variable listdir : String.string -> outcome (list String.string).
Variable np_load : String.string -> outcome ndarray.

Definition Mirflickr_init (root_dir : String.string)
    (data_list target_list : option (list String.string))
    (input_transform target_transform : option (ndarray -> ndarray))
  : outcome Mirflickr :=
  let data_dir := os_path_join root_dir "diffuser_images_npy"%string in
  let target_dir := os_path_join root_dir "ground_truth_lensed_npy"%string in
  obind (match data_list with
         | None => listdir data_dir
         | Some l => Return l
         end) (fun data_list =>
  obind (match target_list with
         | None => listdir target_dir
         | Some l => Return l
         end) (fun target_list =>
  Return (MkMirflickr root_dir data_dir target_dir data_list target_list
            input_transform target_transform))).

Definition Mirflickr_len (self : Mirflickr) : nat := List.length (data_list self).

Definition Mirflickr_getitem (self : Mirflickr) (index : Z)
  : outcome (ndarray * ndarray * String.string) :=
  obind (py_index (data_list self) index) (fun name =>
  obind (np_load (os_path_join (data_dir self) name)) (fun image =>
  obind (py_index (target_list self) index) (fun target_name =>
  obind (np_load (os_path_join (target_dir self) target_name)) (fun target =>
  obind (py_index (data_list self) index) (fun name =>
  let img_name := py_drop_last4 name in
  let image := map normalize_image_value image in
  let target := map normalize_target_value target in
  let image := apply_transform (in_transform self) image in
  let target := apply_transform (target_transform self) target in
  Return (image, target, img_name)))))).

(** [torch.utils.data.Subset]: the whole dataset together with a list of
    indices into it. *)
Record Subset : Type := MkSubset {
  dataset : Mirflickr;
  indices : list nat
}.

(** The random three-way split: which indices land in which part depends on
    the generator and is left open. *)
Variable split_indices : nat -> list nat * list nat * list nat.

Definition random_split (ds : Mirflickr) : Subset * Subset * Subset :=
  let '(i1, i2, i3) := split_indices (Mirflickr_len ds) in
  (MkSubset ds i1, MkSubset ds i2, MkSubset ds i3).

(** External pieces of the CIFAR-10 branch and of both branches' transforms. *)
Variable Transform : Type.
Variable External_set : Type.
Variable cifar_train_transform : nat -> Transform.
Variable cifar_val_transform : Transform.
Variable CIFAR10 : bool -> Transform -> outcome External_set.
Variable to_tensor_center_crop : nat -> ndarray -> ndarray.

Inductive any_dataset : Type :=
| Cifar_set (d : External_set)
| Mirflickr_set (m : Mirflickr)
| No_set.

(** The part of [get_loader] that chooses and builds the three datasets. *)
Definition get_loader_datasets (dataset_name : String.string) (min_side_len : nat)
    (root_dir : String.string)
  : outcome (any_dataset * any_dataset * any_dataset) :=
  if String.eqb dataset_name "CIFAR10"%string then
    let train_transform := cifar_train_transform min_side_len in
    let val_transform := cifar_val_transform in
    obind (CIFAR10 true train_transform) (fun trainset =>
    obind (CIFAR10 false val_transform) (fun valset =>
    Return (Cifar_set trainset, Cifar_set valset, No_set)))
  else if String.eqb dataset_name "Mirflickr"%string then
    let train_transform := to_tensor_center_crop min_side_len in
    let val_transform := to_tensor_center_crop min_side_len in
    obind (Mirflickr_init root_dir None None None None) (fun dataset0 =>
    let '(trainset, valset, testset) := random_split dataset0 in
    obind (Mirflickr_init root_dir
             (Some (data_list (dataset trainset)))
             (Some (target_list (dataset trainset)))
             (Some train_transform) (Some train_transform)) (fun trainset =>
    obind (Mirflickr_init root_dir
             (Some (data_list (dataset valset)))
             (Some (target_list (dataset valset)))
             (Some val_transform) (Some val_transform)) (fun valset =>
    obind (Mirflickr_init root_dir
             (Some (data_list (dataset testset)))
             (Some (target_list (dataset testset)))
             (Some val_transform) (Some val_transform)) (fun testset =>
    Return (Mirflickr_set trainset, Mirflickr_set valset, Mirflickr_set testset)))))
  else Raise Py_TypeError.      (* raise("Unkown dataset.") *)

Variable Loader : Type.
Variable DataLoader : any_dataset -> nat -> bool -> nat -> outcome Loader.

Definition get_loader (dataset_name : String.string)
    (min_side_len batch_size num_workers : nat) (root_dir : String.string)
  : outcome (Loader * Loader * Loader) :=
  obind (get_loader_datasets dataset_name min_side_len root_dir)
        (fun '(trainset, valset, testset) =>
  obind (DataLoader trainset batch_size true num_workers) (fun train_loader =>
  obind (DataLoader valset batch_size false num_workers) (fun val_loader =>
  obind (DataLoader testset batch_size false num_workers) (fun test_loader =>
  Return (train_loader, val_loader, test_loader))))).

End DatasetModel.

(** ** Positional_Encoding, the sinusoidal alternative to the patch embedding

    The functions the scalar interface lacks (sine, cosine, logarithm,
    negation, and the conversion of a pixel value to an integer index) are
    parameters. *)

Section PositionalEncoding.

Context {T : Type} {SC : Scalar T}.
Variable env : Env.
Variables fsin fcos flog fneg : T -> T.
Variable fltb : T -> T -> bool.       (* the < test on scalars *)
Variable to_long : T -> Z.

(** [nn.Embedding] *)
Record Embedding : Type := MkEmbedding {
  num_embeddings : nat;
  embedding_dim : nat;
  embedding_weight : nat -> nat -> T
}.

Record Positional_Encoding : Type := MkPositional_Encoding {
  penc_embed_dim : nat;
  penc_dropout : @Dropout T;
  penc_in_embedding : Embedding;
  penc_class_token : tensor3 T;
  penc_pos_encoding : tensor3 T
}.

(** Entry [i] of [div_term]: exp((2 i) * -(log(10000) / embed_dim)). *)
Definition div_term (embed_dim i : nat) : T :=
  fexp (fmul (of_nat (2 * i))
             (fneg (fdiv (flog (of_nat (100 * 100))) (of_nat embed_dim)))).

(** The table after both slice assignments: even columns hold the sines,
    odd columns the cosines. *)
Definition sinusoid_table (embed_dim pos c : nat) : T :=
  if Nat.even c then fsin (fmul (of_nat pos) (div_term embed_dim (c / 2)))
  else fcos (fmul (of_nat pos) (div_term embed_dim (c / 2))).

(** [nn.Dropout] rejects a rate outside [0, 1].  [div_term] has
    [ceil(embed_dim / 2)] entries; the slice [1::2] has
    [floor(embed_dim / 2)] columns, and the assignment needs the value to
    expand to the slice. *)
Definition Positional_Encoding_init (in_dim embed_dim : nat) (dropout_rate : T)
    (max_len : nat) (emb : nat -> nat -> T) : outcome Positional_Encoding :=
  if fltb dropout_rate fzero || fltb fone dropout_rate then Raise Py_ValueError
  else if embed_dim =? 0 then Raise Py_ZeroDivisionError  (* log(10000) / embed_dim *)
  else if expands_to ((embed_dim + 1) / 2) (embed_dim / 2)
  then Return (MkPositional_Encoding embed_dim (MkDropout dropout_rate)
                 (MkEmbedding in_dim embed_dim emb)
                 (T3 1 1 embed_dim (fun _ _ _ => fzero))
                 (T3 1 max_len embed_dim
                     (fun _ pos c => sinusoid_table embed_dim pos c)))
  else Raise Py_RuntimeError.

(** [nn.Flatten()] on an image batch, then [.to(dtype=torch.long)] *)
Definition flatten_long (x : tensor4 T) : tensor2 Z :=
  T2 (d4_0 x) (d4_1 x * d4_2 x * d4_3 x)
     (fun b f => to_long (get4 x b (f / (d4_2 x * d4_3 x))
                               ((f / d4_3 x) mod d4_2 x) (f mod d4_3 x))).

Fixpoint all_upto (n : nat) (f : nat -> bool) : bool :=
  match n with
  | 0 => true
  | S m => all_upto m f && f m
  end.

Definition in_vocabulary (e : Embedding) (i : Z) : bool :=
  (0 <=? i)%Z && (i <? Z.of_nat (num_embeddings e))%Z.

Definition Embedding_forward (e : Embedding) (x : tensor2 Z) : result (tensor3 T) :=
  if all_upto (d2_0 x) (fun b =>
       all_upto (d2_1 x) (fun n => in_vocabulary e (get2 x b n)))
  then Ok (T3 (d2_0 x) (d2_1 x) (embedding_dim e)
              (fun b n c => embedding_weight e (Z.to_nat (get2 x b n)) c))
  else Err IndexError.

(** [t[:, :n]] *)
Definition slice_rows (t : tensor3 T) (n : nat) : tensor3 T :=
  T3 (d3_0 t) (Nat.min n (d3_1 t)) (d3_2 t) (get3 t).

Definition Positional_Encoding_forward (pe : Positional_Encoding) (x : tensor4 T)
  : M (tensor3 T) :=
  (let x := flatten_long x in
   class_token <- lift (expand0 (penc_class_token pe) (d2_0 x)) ;;
   embedded_img <- lift (Embedding_forward (penc_in_embedding pe) x) ;;
   let embedded_img :=
     map3 (fun v => fmul v (fsqrt (of_nat (penc_embed_dim pe)))) embedded_img in
   x <- lift (cat1 class_token embedded_img) ;;
   x <- lift (bcast3 fadd x (slice_rows (penc_pos_encoding pe) (d3_1 x))) ;;
   Dropout_forward env (penc_dropout pe) x)%fwd.

End PositionalEncoding.

(** ** Further concrete inputs *)

Definition ex_train_env : Env := MkEnv true (fun _ _ _ _ => true).

Definition ex_attention : @Multi_Headed_Attention R := attention ex_block.

Definition ex_empty_tokens : tensor3 R := T3 0 2 2 (fun _ _ _ => 0%R).

(** Two tokens that differ from [ex_tokens 1] at token 1 only. *)
Definition ex_tokens_changed : tensor3 R :=
  T3 1 2 2 (fun _ i _ => if i =? 0 then 1%R else 5%R).

(** A patch embedding built for side length 2 with patch size 4. *)
Definition ex_small_patch_embedding : @Patch_Embedding R :=
  MkPatch_Embedding 4 2 1
    (MkConv2d 1 2 4 4 (val_conv_w ex_patch_values) (val_conv_b ex_patch_values))
    (T3 1 1 2 (val_pos ex_patch_values))
    (T3 1 1 2 (val_cls ex_patch_values))
    (MkDropout 0%R).

Section DatasetExamples.

Import Ascii String.
Local Open Scope string_scope.

Definition ex_np_load : string -> outcome ndarray := fun _ => Return [0%R; 1%R].

Definition ex_listdir : string -> outcome (list string) :=
  fun _ => Return ["a.npy"; "b.npy"].

(** Two data files and a single target file. *)
Definition ex_mirflickr_short : Mirflickr :=
  MkMirflickr "d/" "d/diffuser_images_npy" "d/ground_truth_lensed_npy"
    ["a.npy"; "b.npy"] ["a.npy"] None None.

Definition ex_mirflickr : Mirflickr :=
  MkMirflickr "d/" "d/diffuser_images_npy" "d/ground_truth_lensed_npy"
    ["a.npy"; "b.npy"] ["a.npy"; "b.npy"] None None.

Definition ex_split : nat -> list nat * list nat * list nat :=
  fun _ => ([1], [0], []).

End DatasetExamples.

(** A sinusoidal encoding with a vocabulary of 256, two columns and ten
    rows; pixel values are converted by taking the integer part. *)
Definition ex_positional_encoding : @Positional_Encoding R :=
  MkPositional_Encoding 2 (MkDropout 0%R)
    (MkEmbedding 256 2 (fun _ _ => 0%R))
    (T3 1 1 2 (fun _ _ _ => 0%R))
    (T3 1 10 2 (fun _ pos c =>
       sinusoid_table (SC := RScalar ex_gelu) sin cos ln Ropp 2 pos c)).

Definition ex_to_long : R -> Z := Int_part.

Definition Rlt_b (x y : R) : bool := if Rlt_dec x y then true else false.

(** ** Basic facts about broadcasting and sums *)

Lemma bdim_same n : bdim n n = Some n.
Proof. unfold bdim. now rewrite Nat.eqb_refl. Qed.

Lemma bdim_one_l n : bdim 1 n = Some n.
Proof.
  unfold bdim. destruct (1 =? n) eqn:E; [apply Nat.eqb_eq in E; now subst|reflexivity].
Qed.

Lemma bdim_comm a b : bdim a b = bdim b a.
Proof.
  unfold bdim. rewrite (Nat.eqb_sym b a).
  destruct (a =? b) eqn:E.
  - apply Nat.eqb_eq in E. now subst.
  - destruct (a =? 1) eqn:Ea, (b =? 1) eqn:Eb; try reflexivity.
    apply Nat.eqb_eq in Ea, Eb. apply Nat.eqb_neq in E. lia.
Qed.

Lemma bidx_lt d i : i < d -> bidx d i = i.
Proof.
  unfold bidx. intros H. destruct (d =? 1) eqn:E; [|reflexivity].
  apply Nat.eqb_eq in E. lia.
Qed.

Lemma expands_to_same n : expands_to n n = true.
Proof. unfold expands_to. now rewrite Nat.eqb_refl. Qed.

Section SumFacts.

Context {T : Type} {SC : Scalar T}.

Lemma sum_upto_ext n (f g : nat -> T) :
  (forall k, k < n -> f k = g k) -> sum_upto n f = sum_upto n g.
Proof.
  induction n as [|n IH]; intros H; simpl; [reflexivity|].
  rewrite IH by (intros; apply H; lia). now rewrite H by lia.
Qed.

End SumFacts.

(** ** The attention core computes the position-wise description *)

Section CoreFacts.

Context {T : Type} {SC : Scalar T}.

Lemma causal_fill_select (s : T) (below : bool) :
  mask_laws (T:=T) ->
  (if negb (negb (feqb (if below then fone else fzero) fzero)
            && negb (feqb s fzero))
   then neg_1e9 else s)
  = (if negb (feqb s fzero) && below then s else neg_1e9).
Proof.
  intros [H1 H0]. destruct below; [rewrite H1|rewrite H0];
    destruct (feqb s fzero); reflexivity.
Qed.

Lemma plain_fill_select (s : T) :
  (if negb (negb (feqb s fzero)) then neg_1e9 else s)
  = (if negb (feqb s fzero) && true then s else neg_1e9).
Proof. destruct (feqb s fzero); reflexivity. Qed.

Lemma Self_Attention_forward_entries (q k v : tensor4 T) (causal : bool) :
  shape4 k = shape4 q -> shape4 v = shape4 q ->
  (causal = true -> mask_laws (T:=T)) ->
  exists out, Self_Attention_forward q k v causal = Ok out
    /\ shape4 out = shape4 q
    /\ forall b h i c, b < d4_0 q -> h < d4_1 q -> i < d4_2 q -> c < d4_3 q ->
         get4 out b h i c = attention_spec q k v causal b h i c.
Proof.
  destruct q as [B H n d gq], k as [B' H' n' d' gk], v as [B'' H'' n'' d'' gv].
  unfold shape4; simpl. intros Ek Ev Hlaws.
  inversion Ek; inversion Ev; subst. clear Ek Ev.
  unfold Self_Attention_forward, matmul4, transpose_last; simpl.
  rewrite Nat.eqb_refl, !bdim_same; simpl.
  destruct causal.
  - specialize (Hlaws eq_refl).
    unfold bcast4; simpl. rewrite !bdim_one_l, !bdim_same. simpl.
    unfold masked_fill; simpl. rewrite !expands_to_same; simpl.
    rewrite Nat.eqb_refl, !bdim_same; simpl.
    eexists; split; [reflexivity|]. split; [reflexivity|].
    intros b h i c Hb Hh Hi Hc. simpl.
    unfold attention_spec, attn_prob, masked_score, attendable, raw_score; simpl.
    rewrite !(bidx_lt Hb), !(bidx_lt Hh), !(bidx_lt Hi).
    apply sum_upto_ext; intros j Hj. rewrite ?(bidx_lt Hj), ?(bidx_lt Hc).
    f_equal. f_equal.
    + f_equal. apply causal_fill_select; assumption.
    + apply sum_upto_ext; intros j' Hj'. rewrite ?(bidx_lt Hj').
      f_equal. apply causal_fill_select; assumption.
  - unfold masked_fill; simpl. rewrite !expands_to_same; simpl.
    rewrite Nat.eqb_refl, !bdim_same; simpl.
    eexists; split; [reflexivity|]. split; [reflexivity|].
    intros b h i c Hb Hh Hi Hc. simpl.
    unfold attention_spec, attn_prob, masked_score, attendable, raw_score; simpl.
    rewrite !(bidx_lt Hb), !(bidx_lt Hh), ?(bidx_lt Hi).
    apply sum_upto_ext; intros j Hj. rewrite ?(bidx_lt Hj), ?(bidx_lt Hc).
    f_equal. f_equal.
    + f_equal. apply plain_fill_select.
    + apply sum_upto_ext; intros j' Hj'. rewrite ?(bidx_lt Hj').
      f_equal. apply plain_fill_select.
Qed.

End CoreFacts.

(** ** Sums and softmax over the real numbers *)

Section RealFacts.

Variable gelu : R -> R.
Local Hint Extern 0 (Scalar R) => exact (RScalar gelu) : typeclass_instances.

Local Open Scope R_scope.

Lemma Req_b_true x y : Req_b x y = true <-> x = y.
Proof. unfold Req_b. destruct (Req_dec_T x y); split; intros; congruence. Qed.

Lemma Req_b_false x y : Req_b x y = false <-> x <> y.
Proof. unfold Req_b. destruct (Req_dec_T x y); split; intros; congruence. Qed.

Lemma RScalar_mask_laws : mask_laws (T:=R).
Proof.
  split; simpl.
  - apply Req_b_false. lra.
  - apply Req_b_true. reflexivity.
Qed.

Lemma Rsum_const n c : sum_upto n (fun _ => c) = INR n * c.
Proof.
  induction n as [|n IH]; [simpl; ring|].
  change (sum_upto n (fun _ => c) + c = INR (S n) * c).
  rewrite IH, S_INR. ring.
Qed.

Lemma Rsum_scal n a f : sum_upto n (fun j => a * f j) = a * sum_upto n f.
Proof.
  induction n as [|n IH]; [simpl; ring|].
  change (sum_upto n (fun j => a * f j) + a * f n = a * (sum_upto n f + f n)).
  rewrite IH. ring.
Qed.

Lemma Rsum_minus n f g :
  sum_upto n f - sum_upto n g = sum_upto n (fun j => f j - g j).
Proof.
  induction n as [|n IH]; [simpl; ring|].
  change (sum_upto n f + f n - (sum_upto n g + g n)
          = sum_upto n (fun j => f j - g j) + (f n - g n)).
  rewrite <- IH. ring.
Qed.

Lemma Rsum_le n f g :
  (forall j, (j < n)%nat -> f j <= g j) -> sum_upto n f <= sum_upto n g.
Proof.
  induction n as [|n IH]; intros H; [simpl; lra|].
  change (sum_upto n f + f n <= sum_upto n g + g n).
  specialize (H n (Nat.lt_succ_diag_r n)) as Hn.
  assert (sum_upto n f <= sum_upto n g) by (apply IH; intros; apply H; lia).
  lra.
Qed.

Lemma Rsum_nonneg n f :
  (forall j, (j < n)%nat -> 0 <= f j) -> 0 <= sum_upto n f.
Proof.
  induction n as [|n IH]; intros H; [simpl; lra|].
  change (0 <= sum_upto n f + f n).
  specialize (H n (Nat.lt_succ_diag_r n)) as Hn.
  assert (0 <= sum_upto n f) by (apply IH; intros; apply H; lia).
  lra.
Qed.

Lemma Rsum_term_le n f j0 :
  (forall j, (j < n)%nat -> 0 <= f j) -> (j0 < n)%nat -> f j0 <= sum_upto n f.
Proof.
  induction n as [|n IH]; intros H Hj; [lia|].
  change (f j0 <= sum_upto n f + f n).
  specialize (H n (Nat.lt_succ_diag_r n)) as Hn.
  assert (Hs : 0 <= sum_upto n f) by (apply Rsum_nonneg; intros; apply H; lia).
  destruct (Nat.eq_dec j0 n) as [->|Hne]; [lra|].
  assert (f j0 <= sum_upto n f) by (apply IH; [intros; apply H|]; lia).
  lra.
Qed.


Lemma Rsum_exp_pos n f : (0 < n)%nat -> 0 < sum_upto n (fun j => exp (f j)).
Proof.
  intros Hn.
  assert (H : exp (f 0%nat) <= sum_upto n (fun j => exp (f j))).
  { apply (Rsum_term_le (fun j => exp (f j))); [|assumption].
    intros; left; apply exp_pos. }
  pose proof (exp_pos (f 0%nat)). lra.
Qed.

End RealFacts.

Section RealAttention.

Variable gelu : R -> R.
Local Hint Extern 0 (Scalar R) => exact (RScalar gelu) : typeclass_instances.

Local Open Scope R_scope.

Lemma fully_masked_score (q k : tensor4 R) causal b h i j :
  raw_score q k b h i j = 0 -> masked_score q k causal b h i j = neg_1e9.
Proof.
  intros H. unfold masked_score, attendable. rewrite H.
  change (feqb 0 fzero) with (Req_b 0 0).
  now rewrite (proj2 (Req_b_true 0 0) eq_refl).
Qed.

Lemma fully_masked_prob (q k : tensor4 R) causal b h i :
  (forall j, (j < d4_2 k)%nat -> raw_score q k b h i j = 0) ->
  forall j, (j < d4_2 k)%nat -> attn_prob q k causal b h i j = 1 / INR (d4_2 k).
Proof.
  intros H j Hj. unfold attn_prob.
  rewrite (sum_upto_ext _ (fun _ => exp neg_1e9)).
  2:{ intros j' Hj'. simpl. now rewrite fully_masked_score by auto. }
  rewrite fully_masked_score by auto.
  rewrite (Rsum_const gelu). simpl.
  assert (INR (d4_2 k) <> 0) by (apply not_0_INR; lia).
  pose proof (exp_pos (-1000000000)).
  field. split; lra.
Qed.

Lemma fully_masked_mean (q k v : tensor4 R) causal b h i c :
  (forall j, (j < d4_2 k)%nat -> raw_score q k b h i j = 0) ->
  attention_spec q k v causal b h i c
  = sum_upto (d4_2 k) (fun j => get4 v b h j c) / INR (d4_2 k).
Proof.
  intros H. unfold attention_spec.
  rewrite (sum_upto_ext _ (fun j => 1 / INR (d4_2 k) * get4 v b h j c)).
  2:{ intros j Hj. rewrite (fully_masked_prob causal H Hj). reflexivity. }
  rewrite (Rsum_scal gelu). simpl. unfold Rdiv. ring.
Qed.

End RealAttention.

(** ** Claims about the attention core *)

Section CoreClaims.

Context {T : Type} {SC : Scalar T}.

(** C1: for query, key and value tensors of one shape
    [batch, heads, seq_len, d_key] and either value of the causal flag, the
    attention core returns a tensor of that shape whose entry at row [i] is
    the product of the softmax probabilities of row [i] with [V], where the
    probabilities are the softmax along the last axis of the scores
    Q.K^T / sqrt(d_key) in which every position that is not attendable
    (score equal to zero, or column above the row under the causal flag) has
    been replaced by the sentinel -1e9. *)
Theorem Self_Attention_forward_correct (q k v : tensor4 T) (causal : bool) :
  mask_laws (T:=T) ->
  shape4 k = shape4 q -> shape4 v = shape4 q ->
  exists out,
    Self_Attention_forward q k v causal = Ok out
    /\ shape4 out = shape4 q
    /\ forall b h i c, b < d4_0 q -> h < d4_1 q -> i < d4_2 q -> c < d4_3 q ->
         get4 out b h i c = attention_spec q k v causal b h i c.
Proof.
  intros Hlaws Hk Hv. apply Self_Attention_forward_entries; auto.
Qed.

(** C10: when every raw score is nonzero and the causal flag is false, the
    mask is true everywhere, the sentinel fill changes nothing, and the
    attention core returns standard scaled-dot-product attention
    softmax(Q.K^T / sqrt(d_key)).V. *)
Theorem Self_Attention_forward_unmasked (q k v : tensor4 T) :
  shape4 k = shape4 q -> shape4 v = shape4 q ->
  (forall b h i j, b < d4_0 q -> h < d4_1 q -> i < d4_2 q -> j < d4_2 q ->
     feqb (raw_score q k b h i j) fzero = false) ->
  exists out,
    Self_Attention_forward q k v false = Ok out
    /\ shape4 out = shape4 q
    /\ (forall b h i j, b < d4_0 q -> h < d4_1 q -> i < d4_2 q -> j < d4_2 q ->
          attendable q k false b h i j = true
          /\ masked_score q k false b h i j = raw_score q k b h i j)
    /\ forall b h i c, b < d4_0 q -> h < d4_1 q -> i < d4_2 q -> c < d4_3 q ->
         get4 out b h i c = sdpa q k v b h i c.
Proof.
  intros Hk Hv Hnz.
  assert (Hn : d4_2 k = d4_2 q) by (unfold shape4 in Hk; congruence).
  assert (Hms : forall b h i j, b < d4_0 q -> h < d4_1 q -> i < d4_2 q ->
            j < d4_2 q ->
            attendable q k false b h i j = true
            /\ masked_score q k false b h i j = raw_score q k b h i j).
  { intros b h i j Hb Hh Hi Hj. unfold masked_score, attendable.
    rewrite (Hnz b h i j) by assumption. split; reflexivity. }
  destruct (@Self_Attention_forward_entries T SC q k v false Hk Hv)
    as (out & Hout & Hshape & Hent); [discriminate|].
  exists out. repeat split; try assumption; try (apply Hms; assumption).
  intros b h i c Hb Hh Hi Hc. rewrite Hent by assumption.
  unfold attention_spec, sdpa. apply sum_upto_ext. intros j Hj.
  rewrite Hn in Hj. f_equal. unfold attn_prob, sdpa_prob.
  f_equal.
  - f_equal. apply Hms; assumption.
  - apply sum_upto_ext. intros j' Hj'. rewrite Hn in Hj'.
    f_equal. apply Hms; assumption.
Qed.

End CoreClaims.

Section RealCoreClaims.

Variable gelu : R -> R.
Local Hint Extern 0 (Scalar R) => exact (RScalar gelu) : typeclass_instances.

Local Open Scope R_scope.

(** C7: a row of the score matrix whose raw scores are all zero is masked
    out entirely; the attention core still returns a result, the softmax of
    that row is uniform (every probability is 1/seq_len), and the output row
    is the arithmetic mean of the rows of V. *)
Theorem fully_masked_row_uniform (q k v : tensor4 R) (causal : bool) (b h i : nat) :
  shape4 k = shape4 q -> shape4 v = shape4 q ->
  (b < d4_0 q)%nat -> (h < d4_1 q)%nat -> (i < d4_2 q)%nat ->
  (forall j, (j < d4_2 q)%nat -> raw_score q k b h i j = 0) ->
  exists out,
    Self_Attention_forward q k v causal = Ok out
    /\ (forall j, (j < d4_2 q)%nat ->
          attendable q k causal b h i j = false
          /\ attn_prob q k causal b h i j = 1 / INR (d4_2 q))
    /\ forall c, (c < d4_3 q)%nat ->
         get4 out b h i c
         = sum_upto (d4_2 q) (fun j => get4 v b h j c) / INR (d4_2 q).
Proof.
  intros Hk Hv Hb Hh Hi Hz.
  assert (Hn : d4_2 k = d4_2 q) by (unfold shape4 in Hk; congruence).
  destruct (@Self_Attention_forward_entries R (RScalar gelu) q k v causal Hk Hv)
    as (out & Hout & Hshape & Hent); [intros _; apply RScalar_mask_laws|].
  rewrite <- Hn in Hz |- *.
  exists out. split; [assumption|]. split.
  - intros j Hj. split.
    + unfold attendable. rewrite (Hz j Hj).
      change (feqb 0 fzero) with (Req_b 0 0).
      now rewrite (proj2 (Req_b_true 0 0) eq_refl).
    + now apply fully_masked_prob.
  - intros c Hc. rewrite Hent by assumption. now apply fully_masked_mean.
Qed.

End RealCoreClaims.

Section RealCausalFacts.

Variable gelu : R -> R.
Local Hint Extern 0 (Scalar R) => exact (RScalar gelu) : typeclass_instances.

Local Open Scope R_scope.

Lemma attn_prob_nonneg (q k : tensor4 R) causal b h i j :
  (0 < d4_2 k)%nat -> 0 <= attn_prob q k causal b h i j.
Proof.
  intros Hn. unfold attn_prob. simpl.
  pose proof (exp_pos (masked_score q k causal b h i j)).
  pose proof (Rsum_exp_pos gelu (fun j' => masked_score q k causal b h i j') Hn).
  apply Rlt_le, Rdiv_lt_0_compat; assumption.
Qed.

End RealCausalFacts.

Section RealCausalClaims.

Variables gelu ex : R -> R.
Local Hint Extern 0 (Scalar R) => exact (RScalar_exp gelu ex) : typeclass_instances.

Local Open Scope R_scope.

Lemma RScalar_exp_exact : RScalar_exp gelu exp = RScalar gelu.
Proof. reflexivity. Qed.





End RealCausalClaims.


(** ** Construction of the attention module, the unused target, and
       the symmetry of the residual sub-layer *)

Section ModuleClaims.

Context {T : Type} {SC : Scalar T}.
Variable env : Env.

(** C4: constructing a multi-head attention module whose [embed_dim] is not
    evenly divisible by [n_heads] raises at construction time (the failed
    assertion, or the division by zero of [embed_dim % 0]); no module exists
    on which a forward pass could run. *)
Theorem Multi_Headed_Attention_init_rejects (n_heads embed_dim : nat)
    (wq wk wv : nat -> nat -> T) (bq bk bv : nat -> T) :
  ~ Nat.divide n_heads embed_dim ->
  Multi_Headed_Attention_init n_heads embed_dim wq wk wv bq bk bv
  = Err (if n_heads =? 0 then ZeroDivisionError else AssertionError).
Proof.
  intros Hnd. unfold Multi_Headed_Attention_init.
  destruct (n_heads =? 0) eqn:E0; [reflexivity|].
  destruct (embed_dim mod n_heads =? 0) eqn:Em; [|reflexivity].
  exfalso. apply Hnd. apply Nat.Lcm0.mod_divide. now apply Nat.eqb_eq.
Qed.

(** C8: the target labels passed to the forward entry point have no effect:
    with the same parameters, the same input, the same mode and random
    draws, and the same starting state, any two targets give the same
    result. *)
Theorem Transformer_forward_ignores_target (Target : Type) (m : @Transformer T)
    (x : tensor4 T) (t1 t2 : Target) (st : state) :
  Transformer_forward env m x t1 st = Transformer_forward env m x t2 st.
Proof. reflexivity. Qed.

Lemma LayerNorm_entry_ext (ln : @LayerNorm T) (x y : nat -> T) (e : nat) :
  (forall c, x c = y c) -> LayerNorm_entry ln x e = LayerNorm_entry ln y e.
Proof.
  intros H.
  assert (Hm : row_mean (normalized_shape ln) x = row_mean (normalized_shape ln) y).
  { unfold row_mean. f_equal. apply sum_upto_ext. intros; apply H. }
  assert (Hv : row_var (normalized_shape ln) x = row_var (normalized_shape ln) y).
  { unfold row_var. f_equal. apply sum_upto_ext. intros c _. now rewrite Hm, H. }
  unfold LayerNorm_entry. cbv zeta. now rewrite Hm, Hv, H.
Qed.

(** C9: the residual+normalize sub-layer is symmetric in its two arguments.
    Given that scalar addition is commutative, [Add_and_Norm(A, B)] and
    [Add_and_Norm(B, A)] are the same result: the same error, or tensors of
    one shape with equal entries. *)
Theorem Add_and_Norm_forward_comm (a : @Add_and_Norm T) (A B : tensor3 T) :
  (forall x y : T, fadd x y = fadd y x) ->
  result_eq3 (Add_and_Norm_forward a A B) (Add_and_Norm_forward a B A).
Proof.
  intros Hcomm. unfold Add_and_Norm_forward, bcast3.
  rewrite (bdim_comm (d3_0 B)), (bdim_comm (d3_1 B)), (bdim_comm (d3_2 B)).
  destruct (bdim (d3_0 A) (d3_0 B)) as [n0|]; [|reflexivity].
  destruct (bdim (d3_1 A) (d3_1 B)) as [n1|]; [|reflexivity].
  destruct (bdim (d3_2 A) (d3_2 B)) as [n2|]; [|reflexivity].
  unfold rbind, LayerNorm_forward; simpl.
  destruct (n2 =? normalized_shape (norm a)); [|reflexivity].
  simpl. split; [reflexivity|].
  intros b i e _ _ _. apply LayerNorm_entry_ext. intros c. apply Hcomm.
Qed.

End ModuleClaims.

(** ** Patch embedding *)

Lemma bdim_one_r n : bdim n 1 = Some n.
Proof. rewrite bdim_comm. apply bdim_one_l. Qed.

Lemma conv_out_size_div side ps :
  ps <> 0 -> ps <= side -> conv_out_size side ps ps = side / ps.
Proof.
  intros Hps Hle. unfold conv_out_size.
  replace side with ((side - ps) + 1 * ps) at 2 by lia.
  now rewrite Nat.div_add.
Qed.

Lemma expands_to_one_l n : expands_to 1 n = true.
Proof. unfold expands_to. simpl. apply orb_true_r. Qed.

Section PatchEmbeddingFacts.

Context {T : Type} {SC : Scalar T}.
Variable env : Env.

(** The state after one dropout call. *)
Lemma Dropout_forward_run (d : @Dropout T) (x : tensor3 T) (st : state) :
  exists out,
    Dropout_forward env d x st
    = Ok (out, if training env then St (S (rng_calls st)) (attn_flags st) else st)
    /\ shape3 out = shape3 x
    /\ forall b i e,
         get3 out b i e = dropout_elem env d (rng_calls st) b i e (get3 x b i e).
Proof.
  unfold Dropout_forward, dropout_elem. destruct (training env).
  - eexists. split; [reflexivity|]. split; reflexivity.
  - exists x. split; [reflexivity|]. split; reflexivity.
Qed.

Lemma Patch_Embedding_forward_run
    (ps nc E P : nat) (rate : T) (w : nat -> nat -> nat -> nat -> T)
    (bs : nat -> T) (pos cls : nat -> nat -> nat -> T)
    (x : tensor4 T) (st : state) :
  let pe := MkPatch_Embedding ps E P (MkConv2d nc E ps ps w bs)
              (T3 1 P E pos) (T3 1 1 E cls) (MkDropout rate) in
  let cols := d4_3 x / ps in
  let L := d4_2 x / ps * cols + 1 in
  ps <> 0 -> d4_1 x = nc -> ps <= d4_2 x -> ps <= d4_3 x ->
  P = L \/ P = 1 ->
  exists out,
    Patch_Embedding_forward env pe x st
    = Ok (out, if training env then St (S (rng_calls st)) (attn_flags st) else st)
    /\ shape3 out = (d4_0 x, L, E)
    /\ forall b i e, b < d4_0 x -> i < L -> e < E ->
         get3 out b i e
         = dropout_elem env (dropout pe) (rng_calls st) b i e
             (fadd (if i =? 0 then cls 0 0 e
                    else conv_entry (conv pe) x b e ((i - 1) / cols) ((i - 1) mod cols))
                   (pos 0 (bidx P i) e)).
Proof.
  intros pe cols L Hps Hnc HH HW HP.
  assert (Hps' : (ps =? 0) = false) by now apply Nat.eqb_neq.
  unfold Patch_Embedding_forward, bind, lift, Conv2d_forward; simpl.
  rewrite (proj2 (Nat.eqb_eq _ _) Hnc), Hps'; simpl.
  rewrite (proj2 (Nat.ltb_ge _ _) HH), (proj2 (Nat.ltb_ge _ _) HW); simpl.
  unfold expand0; simpl. rewrite expands_to_one_l.
  unfold cat1; simpl. rewrite !Nat.eqb_refl; simpl.
  unfold bcast3; simpl. rewrite bdim_one_r, bdim_same.
  rewrite !conv_out_size_div by assumption. fold cols.
  assert (HL : S (d4_2 x / ps * cols) = L) by (unfold L; lia).
  rewrite HL.
  assert (Hb : bdim L P = Some L).
  { destruct HP as [->| ->]; [apply bdim_same|apply bdim_one_r]. }
  rewrite Hb.
  match goal with
  | |- context [Dropout_forward env ?d ?t st] =>
      destruct (Dropout_forward_run d t st) as (out & Hrun & Hshape & Hent)
  end.
  rewrite Hrun. exists out. split; [reflexivity|]. split; [exact Hshape|].
  intros b i e Hb0 Hi He. rewrite Hent. simpl.
  rewrite !(bidx_lt Hb0), !(bidx_lt Hi), !(bidx_lt He).
  f_equal. f_equal.
  destruct i as [|i]; [reflexivity|]. reflexivity.
Qed.

Lemma Patch_Embedding_forward_reject
    (ps nc E P : nat) (rate : T) (w : nat -> nat -> nat -> nat -> T)
    (bs : nat -> T) (pos cls : nat -> nat -> nat -> T)
    (x : tensor4 T) (st : state) :
  let pe := MkPatch_Embedding ps E P (MkConv2d nc E ps ps w bs)
              (T3 1 P E pos) (T3 1 1 E cls) (MkDropout rate) in
  let L := d4_2 x / ps * (d4_3 x / ps) + 1 in
  ps <> 0 ->
  d4_1 x <> nc \/ d4_2 x < ps \/ d4_3 x < ps \/ (P <> L /\ P <> 1) ->
  Patch_Embedding_forward env pe x st = Err ShapeError.
Proof.
  intros pe L Hps Hbad.
  assert (Hps' : (ps =? 0) = false) by now apply Nat.eqb_neq.
  unfold Patch_Embedding_forward, bind, lift, Conv2d_forward; simpl.
  destruct (d4_1 x =? nc) eqn:Enc; simpl; [|reflexivity].
  rewrite Hps'.
  destruct (d4_2 x <? ps) eqn:EH; simpl; [reflexivity|].
  destruct (d4_3 x <? ps) eqn:EW; simpl; [reflexivity|].
  apply Nat.eqb_eq in Enc. apply Nat.ltb_ge in EH, EW.
  destruct Hbad as [Hb|[Hb|[Hb|[HP1 HP2]]]]; try lia.
  unfold expand0; simpl. rewrite expands_to_one_l.
  unfold cat1; simpl. rewrite !Nat.eqb_refl; simpl.
  unfold bcast3; simpl. rewrite bdim_one_r, bdim_same.
  rewrite !conv_out_size_div by assumption.
  assert (HL : S (d4_2 x / ps * (d4_3 x / ps)) = L) by (unfold L; lia).
  rewrite HL.
  assert (HL2 : 2 <= L).
  { assert (0 < d4_2 x / ps) by (apply Nat.div_str_pos; lia).
    assert (0 < d4_3 x / ps) by (apply Nat.div_str_pos; lia).
    unfold L. nia. }
  unfold bdim.
  destruct (L =? P) eqn:E1; [apply Nat.eqb_eq in E1; lia|].
  destruct (L =? 1) eqn:E2; [apply Nat.eqb_eq in E2; lia|].
  destruct (P =? 1) eqn:E3; [apply Nat.eqb_eq in E3; lia|].
  reflexivity.
Qed.

Lemma conv_entry_ext (c : @Conv2d T) (x x' : tensor4 T) (b o r cl : nat) :
  (forall ch u w, u < kernel_size c -> w < kernel_size c ->
     get4 x b ch (r * stride c + u) (cl * stride c + w)
     = get4 x' b ch (r * stride c + u) (cl * stride c + w)) ->
  conv_entry c x b o r cl = conv_entry c x' b o r cl.
Proof.
  intros H. unfold conv_entry. f_equal.
  apply sum_upto_ext; intros ch _.
  apply sum_upto_ext; intros u Hu.
  apply sum_upto_ext; intros w Hw.
  now rewrite H.
Qed.

End PatchEmbeddingFacts.

Section PatchEmbeddingClaims.

Context {T : Type} {SC : Scalar T}.
Variable env : Env.

Lemma Patch_Embedding_init_inv
    (img ps nc E : nat) (rate : T) (w : nat -> nat -> nat -> nat -> T)
    (bs : nat -> T) (pos cls : nat -> nat -> nat -> T) (pe : @Patch_Embedding T) :
  Patch_Embedding_init img ps nc E rate w bs pos cls = Ok pe ->
  ps <> 0
  /\ pe = MkPatch_Embedding ps E ((img / ps) ^ 2 + 1) (MkConv2d nc E ps ps w bs)
            (T3 1 ((img / ps) ^ 2 + 1) E pos) (T3 1 1 E cls) (MkDropout rate).
Proof.
  unfold Patch_Embedding_init. destruct (ps =? 0) eqn:Eps; [discriminate|].
  intros Hpe. injection Hpe as <-. split; [now apply Nat.eqb_neq|reflexivity].
Qed.

(** C5: a module built for side length [H] and patch size [ps], given an
    [H]x[H] image batch with [H] a positive multiple of [ps] and
    [k = H / ps], returns [k^2 + 1] tokens per batch element.  Token 0 is
    the class token and token [1 + r*k + c] is the projection of the patch
    in patch-row [r] and patch-column [c] (row-major order); the positional
    table is added entry by entry, and dropout is applied last. *)
Theorem Patch_Embedding_forward_tokens
    (H ps nc E B : nat) (rate : T) (w : nat -> nat -> nat -> nat -> T)
    (bs : nat -> T) (pos cls : nat -> nat -> nat -> T)
    (pe : @Patch_Embedding T) (x : tensor4 T) (st : state) :
  Patch_Embedding_init H ps nc E rate w bs pos cls = Ok pe ->
  shape4 x = (B, nc, H, H) -> 0 < H -> H mod ps = 0 ->
  exists out st',
    Patch_Embedding_forward env pe x st = Ok (out, st')
    /\ shape3 out = (B, (H / ps) ^ 2 + 1, E)
    /\ forall b e, b < B -> e < E ->
         get3 out b 0 e
         = dropout_elem env (dropout pe) (rng_calls st) b 0 e
             (fadd (get3 (class_token pe) 0 0 e) (get3 (pos_encoding pe) 0 0 e))
         /\ forall r c, r < H / ps -> c < H / ps ->
              get3 out b (1 + (r * (H / ps) + c)) e
              = dropout_elem env (dropout pe) (rng_calls st)
                  b (1 + (r * (H / ps) + c)) e
                  (fadd (patch_projection (conv_weight (conv pe)) (conv_bias (conv pe))
                           nc ps x b r c e)
                        (get3 (pos_encoding pe) 0 (1 + (r * (H / ps) + c)) e)).
Proof.
  intros Hinit Hx Hpos Hmod.
  destruct (Patch_Embedding_init_inv _ _ _ _ _ _ _ _ _ Hinit) as [Hps ->].
  unfold shape4 in Hx. injection Hx as HB Hnc HH HW.
  set (k := H / ps).
  assert (Hk : H = ps * k) by (apply Nat.Div0.div_exact; assumption).
  assert (Hle : ps <= H) by (destruct k; nia).
  assert (HL : d4_2 x / ps * (d4_3 x / ps) + 1 = k ^ 2 + 1)
    by (rewrite HH, HW, Nat.pow_2_r; reflexivity).
  destruct (@Patch_Embedding_forward_run T SC env ps nc E (k ^ 2 + 1)
              rate w bs pos cls x st Hps)
    as (out & Hrun & Hshape & Hent); try lia.
  exists out. eexists. split; [exact Hrun|].
  rewrite HL, HB in Hshape. split; [exact Hshape|].
  intros b e Hb He. rewrite HB, HL in Hent. split.
  - rewrite Hent by lia. simpl. rewrite bidx_lt by lia. reflexivity.
  - intros r c Hr Hc.
    assert (Hi : 1 + (r * k + c) < k ^ 2 + 1) by (rewrite Nat.pow_2_r; nia).
    rewrite Hent by assumption. simpl.
    rewrite bidx_lt by (simpl in Hi; exact Hi).
    rewrite HW. fold k. rewrite Nat.sub_0_r.
    assert (Hk0 : k <> 0) by lia.
    rewrite Nat.div_add_l, Nat.div_small, Nat.add_0_r by assumption.
    rewrite Nat.add_comm, Nat.Div0.mod_add, Nat.mod_small by assumption.
    reflexivity.
Qed.

(** C3, as amended: the forward pass checks neither squareness nor
    divisibility.  It goes through exactly on the accepted inputs (matching
    channel count, each side at least one patch long, token count equal to
    the length of the positional table unless that length is 1) and raises a
    shape error on every other input; on an accepted input the pixels
    outside the whole patches are never read. *)
Theorem Patch_Embedding_forward_shape_check
    (img ps nc E : nat) (rate : T) (w : nat -> nat -> nat -> nat -> T)
    (bs : nat -> T) (pos cls : nat -> nat -> nat -> T)
    (pe : @Patch_Embedding T) (x : tensor4 T) (st : state) :
  Patch_Embedding_init img ps nc E rate w bs pos cls = Ok pe ->
  (Patch_Embedding_accepts img ps nc x = false ->
     Patch_Embedding_forward env pe x st = Err ShapeError)
  /\ (Patch_Embedding_accepts img ps nc x = true ->
      exists out st',
        Patch_Embedding_forward env pe x st = Ok (out, st')
        /\ shape3 out = (d4_0 x, d4_2 x / ps * (d4_3 x / ps) + 1, E)
        /\ forall x' : tensor4 T,
             shape4 x' = shape4 x ->
             (forall b ch r c, r < d4_2 x / ps * ps -> c < d4_3 x / ps * ps ->
                get4 x' b ch r c = get4 x b ch r c) ->
             exists out',
               Patch_Embedding_forward env pe x' st = Ok (out', st')
               /\ shape3 out' = shape3 out
               /\ forall b i e, b < d3_0 out -> i < d3_1 out -> e < d3_2 out ->
                    get3 out' b i e = get3 out b i e).
Proof.
  intros Hinit.
  destruct (Patch_Embedding_init_inv _ _ _ _ _ _ _ _ _ Hinit) as [Hps ->].
  unfold Patch_Embedding_accepts. split.
  - intros Hacc. apply Patch_Embedding_forward_reject; [assumption|].
    destruct (d4_1 x =? nc) eqn:E1; [|apply Nat.eqb_neq in E1; tauto].
    destruct (ps <=? d4_2 x) eqn:E2; [|apply Nat.leb_gt in E2; tauto].
    destruct (ps <=? d4_3 x) eqn:E3; [|apply Nat.leb_gt in E3; tauto].
    simpl in Hacc. apply orb_false_iff in Hacc. destruct Hacc as [H1 H2].
    apply Nat.eqb_neq in H1, H2. tauto.
  - intros Hacc. apply andb_true_iff in Hacc. destruct Hacc as [Hacc HP].
    apply andb_true_iff in Hacc. destruct Hacc as [Hacc HW].
    apply andb_true_iff in Hacc. destruct Hacc as [Hnc HH].
    apply Nat.eqb_eq in Hnc. apply Nat.leb_le in HH, HW.
    apply orb_true_iff in HP. rewrite !Nat.eqb_eq in HP.
    destruct (@Patch_Embedding_forward_run T SC env ps nc E ((img / ps) ^ 2 + 1)
                rate w bs pos cls x st Hps Hnc HH HW HP)
      as (out & Hrun & Hshape & Hent).
    exists out. eexists. split; [exact Hrun|]. split; [exact Hshape|].
    intros x' Hx' Hsame. unfold shape4 in Hx'. injection Hx' as H0 H1 H2 H3.
    destruct (@Patch_Embedding_forward_run T SC env ps nc E ((img / ps) ^ 2 + 1)
                rate w bs pos cls x' st Hps)
      as (out' & Hrun' & Hshape' & Hent'); try lia.
    { rewrite H2, H3. exact HP. }
    exists out'. split; [exact Hrun'|].
    rewrite H0, H2, H3 in Hshape', Hent'.
    split; [congruence|].
    unfold shape3 in Hshape. injection Hshape as Hd0 Hd1 Hd2.
    intros b i e Hb Hi He. rewrite Hd0 in Hb. rewrite Hd1 in Hi. rewrite Hd2 in He.
    rewrite Hent, Hent' by assumption. f_equal. f_equal.
    destruct (i =? 0) eqn:Ei; [reflexivity|].
    apply Nat.eqb_neq in Ei.
    assert (Hcols : 0 < d4_3 x / ps) by (apply Nat.div_str_pos; lia).
    assert (Hr : (i - 1) / (d4_3 x / ps) < d4_2 x / ps).
    { apply Nat.Div0.div_lt_upper_bound. nia. }
    assert (Hc : (i - 1) mod (d4_3 x / ps) < d4_3 x / ps)
      by (apply Nat.mod_upper_bound; lia).
    apply conv_entry_ext. simpl. intros ch u v Hu Hv.
    apply Hsame; nia.
Qed.

End PatchEmbeddingClaims.

(** ** Shapes through the encoder *)

Section EncoderFacts.

Context {T : Type} {SC : Scalar T}.
Variable env : Env.

Lemma Linear_forward3_run (l : @Linear T) (x : tensor3 T) :
  d3_2 x = in_features l ->
  exists out, Linear_forward3 l x = Ok out
    /\ shape3 out = (d3_0 x, d3_1 x, out_features l).
Proof.
  intros H. unfold Linear_forward3. rewrite (proj2 (Nat.eqb_eq _ _) H).
  eexists; split; reflexivity.
Qed.

Lemma view_heads_run (x : tensor3 T) (h d : nat) :
  d3_2 x = h * d ->
  exists out, view_heads x h d = Ok out
    /\ shape4 out = (d3_0 x, d3_1 x, h, d).
Proof.
  intros H. unfold view_heads.
  replace (d3_0 x * d3_1 x * d3_2 x =? d3_0 x * d3_1 x * h * d) with true
    by (symmetry; apply Nat.eqb_eq; rewrite H; lia).
  eexists; split; reflexivity.
Qed.

Lemma view_concat_run (x : tensor4 T) (e : nat) :
  d4_2 x * d4_3 x = e -> d4_0 x <> 0 -> e <> 0 ->
  exists out, view_concat x e = Ok out
    /\ shape3 out = (d4_0 x, d4_1 x, e).
Proof.
  intros He HB Hne. unfold view_concat.
  assert (Hk : d4_0 x * e <> 0) by nia.
  assert (Hn : d4_0 x * d4_1 x * d4_2 x * d4_3 x = d4_1 x * (d4_0 x * e))
    by (rewrite <- He; lia).
  rewrite Hn.
  rewrite (proj2 (Nat.eqb_neq _ _) Hk).
  rewrite Nat.Div0.mod_mul, Nat.eqb_refl. simpl.
  rewrite Nat.div_mul by assumption.
  eexists; split; reflexivity.
Qed.

Lemma Multi_Headed_Attention_forward_run (m : @Multi_Headed_Attention T)
    (x : tensor3 T) (is_masked : bool) (B L E : nat) (st : state) :
  (is_masked = true -> mask_laws (T:=T)) ->
  n_heads m * d_key m = E ->
  in_features (Wq m) = E -> out_features (Wq m) = E ->
  in_features (Wk m) = E -> out_features (Wk m) = E ->
  in_features (Wv m) = E -> out_features (Wv m) = E ->
  shape3 x = (B, L, E) -> B <> 0 -> E <> 0 ->
  exists out,
    Multi_Headed_Attention_forward m x is_masked st
    = Ok (out, St (rng_calls st) (attn_flags st ++ [is_masked]))
    /\ shape3 out = (B, L, E).
Proof.
  intros Hlaws Hhd Hqi Hqo Hki Hko Hvi Hvo Hx HB HE.
  unfold shape3 in Hx. injection Hx as H0 H1 H2.
  destruct (@Linear_forward3_run (Wq m) x) as (q & Hq & Sq); [congruence|].
  destruct (@Linear_forward3_run (Wk m) x) as (k & Hk & Sk); [congruence|].
  destruct (@Linear_forward3_run (Wv m) x) as (v & Hv & Sv); [congruence|].
  unfold shape3 in Sq, Sk, Sv.
  injection Sq as Q0 Q1 Q2. injection Sk as K0 K1 K2. injection Sv as V0 V1 V2.
  destruct (@view_heads_run q (n_heads m) (d_key m)) as (q4 & Hq4 & Sq4); [congruence|].
  destruct (@view_heads_run k (n_heads m) (d_key m)) as (k4 & Hk4 & Sk4); [congruence|].
  destruct (@view_heads_run v (n_heads m) (d_key m)) as (v4 & Hv4 & Sv4); [congruence|].
  unfold shape4 in Sq4, Sk4, Sv4.
  injection Sq4 as Q40 Q41 Q42 Q43. injection Sk4 as K40 K41 K42 K43.
  injection Sv4 as V40 V41 V42 V43.
  destruct (@Self_Attention_forward_entries T SC
              (transpose12_4 q4) (transpose12_4 k4) (transpose12_4 v4) is_masked)
    as (o & Ho & So & _).
  { unfold shape4, transpose12_4; simpl. congruence. }
  { unfold shape4, transpose12_4; simpl. congruence. }
  { exact Hlaws. }
  unfold shape4, transpose12_4 in So; simpl in So. injection So as O0 O1 O2 O3.
  destruct (@view_concat_run (transpose12_4 o) (d_key m * n_heads m))
    as (out & Hout & Sout).
  { simpl. rewrite O1, O3, Q42, Q43. apply Nat.mul_comm. }
  { simpl. congruence. }
  { rewrite Nat.mul_comm. congruence. }
  exists out. split.
  - unfold Multi_Headed_Attention_forward, bind, lift, log_flag.
    rewrite Hq, Hk, Hv, Hq4, Hk4, Hv4, Ho, Hout. reflexivity.
  - rewrite Sout. simpl. unfold shape3. f_equal; [f_equal|]; try congruence.
    rewrite Nat.mul_comm. exact Hhd.
Qed.

Lemma LayerNorm_forward_run (ln : @LayerNorm T) (x : tensor3 T) :
  d3_2 x = normalized_shape ln ->
  exists out, LayerNorm_forward ln x = Ok out /\ shape3 out = shape3 x.
Proof.
  intros H. unfold LayerNorm_forward. rewrite (proj2 (Nat.eqb_eq _ _) H).
  eexists; split; reflexivity.
Qed.

Lemma Add_and_Norm_forward_run (a : @Add_and_Norm T) (x y : tensor3 T) (s : nat * nat * nat) :
  shape3 x = s -> shape3 y = s -> normalized_shape (norm a) = snd s ->
  exists out, Add_and_Norm_forward a x y = Ok out /\ shape3 out = s.
Proof.
  destruct s as [[B L] E]. unfold shape3. intros Hx Hy Hn. simpl in Hn.
  injection Hx as X0 X1 X2. injection Hy as Y0 Y1 Y2.
  unfold Add_and_Norm_forward, bcast3.
  rewrite X0, X1, X2, Y0, Y1, Y2, !bdim_same. simpl.
  match goal with
  | |- context [LayerNorm_forward ?l ?t] =>
      destruct (@LayerNorm_forward_run l t) as (out & Hout & Sout);
        [simpl; congruence|]
  end.
  exists out. split; [exact Hout|]. unfold shape3 in Sout. rewrite Sout. reflexivity.
Qed.

Lemma Position_wise_ffn_forward_run (f : @Position_wise_ffn T) (x : tensor3 T) :
  d3_2 x = in_features (linear1 f) ->
  out_features (linear1 f) = in_features (linear2 f) ->
  exists out, Position_wise_ffn_forward f x = Ok out
    /\ shape3 out = (d3_0 x, d3_1 x, out_features (linear2 f)).
Proof.
  intros H1 H2. unfold Position_wise_ffn_forward.
  destruct (@Linear_forward3_run (linear1 f) x H1) as (y & Hy & Sy).
  rewrite Hy. simpl. unfold shape3 in Sy. injection Sy as Y0 Y1 Y2.
  destruct (@Linear_forward3_run (linear2 f) (map3 fgelu y)) as (z & Hz & Sz);
    [simpl; congruence|].
  exists z. split; [exact Hz|]. rewrite Sz. simpl. congruence.
Qed.

Lemma Encoder_Block_forward_run (blk : @Encoder_Block T) (x : tensor3 T)
    (B L E : nat) (st : state) :
  block_shapes E blk -> shape3 x = (B, L, E) -> B <> 0 -> E <> 0 ->
  exists out st',
    Encoder_Block_forward env blk x st = Ok (out, st')
    /\ shape3 out = (B, L, E)
    /\ attn_flags st' = attn_flags st ++ [false].
Proof.
  intros (Hhd & Hqi & Hqo & Hki & Hko & Hvi & Hvo & Hn1 & Hl1 & Hl12 & Hl2 & Hn2)
         Hx HB HE.
  destruct (@Multi_Headed_Attention_forward_run (attention blk) x false B L E st)
    as (a & Ha & Sa); try assumption; [discriminate|].
  set (st1 := St (rng_calls st) (attn_flags st ++ [false])) in *.
  destruct (Dropout_forward_run env (dropout1 blk) a st1) as (a' & Ha' & Sa' & _).
  set (st2 := if training env then St (S (rng_calls st1)) (attn_flags st1) else st1) in *.
  assert (Hf2 : attn_flags st2 = attn_flags st ++ [false])
    by (unfold st2; destruct (training env); reflexivity).
  destruct (@Add_and_Norm_forward_run (add_and_norm1 blk) a' x (B, L, E))
    as (x1 & Hx1 & Sx1); [congruence|assumption|assumption|].
  destruct (@Position_wise_ffn_forward_run (ffn blk) x1) as (f & Hf & Sf).
  { unfold shape3 in Sx1. congruence. }
  { assumption. }
  destruct (Dropout_forward_run env (dropout2 blk) f st2) as (f' & Hf' & Sf' & _).
  set (st3 := if training env then St (S (rng_calls st2)) (attn_flags st2) else st2) in *.
  destruct (@Add_and_Norm_forward_run (add_and_norm2 blk) x1 f' (B, L, E))
    as (out & Hout & Sout); [assumption| |assumption|].
  { rewrite Sf', Sf. unfold shape3 in Sx1. injection Sx1 as -> -> _.
    now rewrite Hl2. }
  exists out, st3. split; [|split].
  - unfold Encoder_Block_forward, bind, lift.
    rewrite Ha, Ha', Hx1, Hf, Hf', Hout. reflexivity.
  - exact Sout.
  - unfold st3. destruct (training env); exact Hf2.
Qed.

Lemma Encoder_loop_run (layers : list (@Encoder_Block T)) (x : tensor3 T)
    (B L E : nat) (st : state) :
  Forall (block_shapes E) layers -> shape3 x = (B, L, E) -> B <> 0 -> E <> 0 ->
  exists out st',
    Encoder_loop env layers x st = Ok (out, st')
    /\ shape3 out = (B, L, E)
    /\ attn_flags st' = attn_flags st ++ repeat false (length layers).
Proof.
  intros Hall. revert x st.
  induction Hall as [|blk rest Hblk Hrest IH]; intros x st Hx HB HE.
  - exists x, st. split; [reflexivity|]. split; [assumption|].
    simpl. now rewrite app_nil_r.
  - destruct (@Encoder_Block_forward_run blk x B L E st Hblk Hx HB HE)
      as (y & st1 & Hy & Sy & Fy).
    destruct (IH y st1 Sy HB HE) as (out & st' & Hout & Sout & Fout).
    exists out, st'. split; [|split].
    + simpl. unfold bind. rewrite Hy. exact Hout.
    + exact Sout.
    + rewrite Fout, Fy, <- app_assoc. reflexivity.
Qed.

Lemma Multi_Headed_Attention_init_shapes (n_heads0 embed_dim0 : nat)
    (wq wk wv : nat -> nat -> T) (bq bk bv : nat -> T)
    (m : @Multi_Headed_Attention T) :
  Multi_Headed_Attention_init n_heads0 embed_dim0 wq wk wv bq bk bv = Ok m ->
  n_heads m * d_key m = embed_dim0
  /\ in_features (Wq m) = embed_dim0 /\ out_features (Wq m) = embed_dim0
  /\ in_features (Wk m) = embed_dim0 /\ out_features (Wk m) = embed_dim0
  /\ in_features (Wv m) = embed_dim0 /\ out_features (Wv m) = embed_dim0.
Proof.
  unfold Multi_Headed_Attention_init.
  destruct (n_heads0 =? 0) eqn:E0; [discriminate|].
  destruct (embed_dim0 mod n_heads0 =? 0) eqn:Em; [|discriminate].
  simpl. intros Hm. injection Hm as <-. simpl.
  apply Nat.eqb_eq in Em. apply Nat.Div0.div_exact in Em.
  repeat split. symmetry. exact Em.
Qed.

Lemma Encoder_Block_init_shapes (E d_ffn nh : nat) (rate : T)
    (v : @Block_values T) (blk : @Encoder_Block T) :
  Encoder_Block_init E d_ffn nh rate v = Ok blk -> block_shapes E blk.
Proof.
  unfold Encoder_Block_init.
  destruct (Multi_Headed_Attention_init _ _ _ _ _ _ _ _) as [att|] eqn:Hatt;
    [|discriminate].
  simpl. intros Hb. injection Hb as <-.
  destruct (Multi_Headed_Attention_init_shapes _ _ _ _ _ _ _ _ Hatt)
    as (H1 & H2 & H3 & H4 & H5 & H6 & H7).
  unfold block_shapes. simpl. repeat split; assumption.
Qed.

Lemma Encoder_layers_init_shapes (E d_ffn nh : nat) (rate : T)
    (vals : list (@Block_values T)) (layers : list (@Encoder_Block T)) :
  Encoder_layers_init E d_ffn nh rate vals = Ok layers ->
  Forall (block_shapes E) layers /\ length layers = length vals.
Proof.
  revert layers. induction vals as [|v rest IH]; intros layers; simpl.
  - intros Hl. injection Hl as <-. split; [constructor|reflexivity].
  - destruct (Encoder_Block_init E d_ffn nh rate v) as [blk|] eqn:Hblk;
      [|discriminate].
    simpl.
    destruct (Encoder_layers_init E d_ffn nh rate rest) as [blks|] eqn:Hrest;
      [|discriminate].
    simpl. intros Hl. injection Hl as <-.
    destruct (IH blks eq_refl) as [Hall Hlen].
    split; [constructor; [eapply Encoder_Block_init_shapes; eassumption|exact Hall]|].
    simpl. now rewrite Hlen.
Qed.

End EncoderFacts.

(** ** The whole forward pass *)

Lemma tanh_bounded (x : R) : (-1 < tanh x < 1)%R.
Proof.
  unfold tanh, sinh, cosh.
  pose proof (exp_pos x) as Ha. pose proof (exp_pos (- x)) as Hb.
  set (a := exp x) in *. set (b := exp (- x)) in *.
  replace ((a - b) / 2 / ((a + b) / 2))%R with ((a - b) / (a + b))%R
    by (field; lra).
  split; apply Rmult_lt_reg_r with (a + b)%R; try lra;
    unfold Rdiv; rewrite Rmult_assoc, Rinv_l by lra; lra.
Qed.

Section ForwardFacts.

Context {T : Type} {SC : Scalar T}.
Variable env : Env.

Lemma Transformer_forward_run
    (img ps nc num_classes nh E d_ffn B : nat) (rate : T)
    (pv : @Patch_values T) (head : @Linear_values T)
    (blocks : list (@Block_values T)) (m : @Transformer T)
    (x : tensor4 T) (Target : Type) (target : Target) (st : state) :
  Transformer_init img ps nc num_classes nh E d_ffn rate pv head blocks = Ok m ->
  shape4 x = (B, nc, img, img) -> 0 < img -> img mod ps = 0 -> 0 < B -> 0 < E ->
  exists encoder_in st1 encoder_output st2 logits,
    Patch_Embedding_forward env (positional_encoding m) x st = Ok (encoder_in, st1)
    /\ Encoder_forward env (encoder m) encoder_in st1 = Ok (encoder_output, st2)
    /\ Transformer_forward env m x target st = Ok (logits, st2)
    /\ shape2 logits = (B, num_classes)
    /\ (forall b c,
          get2 logits b c
          = Linear_row (mlp_head m) (fun e => ftanh (get3 encoder_output b 0 e)) c)
    /\ attn_flags st2 = attn_flags st ++ repeat false (length blocks).
Proof.
  intros Hinit Hx Himg Hmod HB HE.
  unfold Transformer_init in Hinit.
  destruct (Patch_Embedding_init _ _ _ _ _ _ _ _ _) as [pe|] eqn:Hpe;
    [|discriminate].
  simpl in Hinit. unfold Encoder_init in Hinit.
  destruct (Encoder_layers_init _ _ _ _ _) as [layers|] eqn:Hlayers;
    [|discriminate].
  simpl in Hinit. injection Hinit as <-.
  cbn [positional_encoding encoder mlp_head encoder_layers].
  destruct (Encoder_layers_init_shapes _ _ _ _ _ Hlayers) as [Hall Hlen].
  destruct (Patch_Embedding_init_inv _ _ _ _ _ _ _ _ _ Hpe) as [Hps ->].
  unfold shape4 in Hx. injection Hx as X0 X1 X2 X3.
  set (k := img / ps).
  assert (Hk : img = ps * k) by (apply Nat.Div0.div_exact; assumption).
  assert (Hle : ps <= img) by (destruct k; nia).
  destruct (@Patch_Embedding_forward_run T SC env ps nc E (k ^ 2 + 1)
              rate (val_conv_w pv) (val_conv_b pv) (val_pos pv) (val_cls pv)
              x st Hps)
    as (ein & Hein & Sein & _); try lia.
  { left. rewrite X2, X3, Nat.pow_2_r. reflexivity. }
  rewrite X0, X2, X3 in Sein. fold k in Sein.
  match type of Hein with _ = Ok (_, ?s) => set (st1 := s) in * end.
  assert (F1 : attn_flags st1 = attn_flags st)
    by (unfold st1; destruct (training env); reflexivity).
  destruct (@Encoder_loop_run T SC env layers ein B (k * k + 1) E st1)
    as (eout & st2 & Heout & Seout & F2); try assumption; try lia.
  unfold shape3 in Seout. injection Seout as O0 O1 O2.
  exists ein, st1, eout, st2. eexists.
  split; [exact Hein|]. split; [exact Heout|].
  split; [|split; [|split]].
  - unfold Transformer_forward, bind, lift.
    cbn [positional_encoding encoder mlp_head]. rewrite Hein.
    unfold Encoder_forward. cbn [encoder_layers]. rewrite Heout.
    unfold select_row0. rewrite O1.
    replace (k * k + 1 =? 0) with false by (symmetry; apply Nat.eqb_neq; lia).
    unfold Linear_forward2, nn_Linear.
    cbn [d2_1 map2 in_features]. rewrite O2, Nat.eqb_refl. reflexivity.
  - unfold shape2, nn_Linear. cbn [d2_0 d2_1 map2 out_features]. now rewrite O0.
  - intros b c. reflexivity.
  - rewrite F2, F1, Hlen. reflexivity.
Qed.

(** The constructor makes the head an [nn.Linear(embed_dim, num_classes)]. *)
Lemma Transformer_init_head
    (img ps nc num_classes nh E d_ffn : nat) (rate : T)
    (pv : @Patch_values T) (head : @Linear_values T)
    (blocks : list (@Block_values T)) (m : @Transformer T) :
  Transformer_init img ps nc num_classes nh E d_ffn rate pv head blocks = Ok m ->
  mlp_head m = nn_Linear E num_classes head.
Proof.
  intros Hinit. unfold Transformer_init in Hinit.
  destruct (Patch_Embedding_init _ _ _ _ _ _ _ _ _) as [pe|]; [|discriminate].
  simpl in Hinit.
  destruct (Encoder_init _ _ _ _ _) as [enc|]; [|discriminate].
  simpl in Hinit. injection Hinit as <-. reflexivity.
Qed.

End ForwardFacts.

Section ForwardClaims.

Variable gelu : R -> R.
Local Hint Extern 0 (Scalar R) => exact (RScalar gelu) : typeclass_instances.
Variable env : Env.

(** C6: for a model built by the constructor and an image batch of the
    configured size, the forward pass runs the patch embedding and the
    encoder stack, takes row 0 (the class token) of the encoder output,
    applies tanh, whose values lie strictly between -1 and 1, and applies the
    final linear map: the logit of class [c] for image [b] is the sum over
    the embedding coordinates [e] of tanh(encoder_output[b,0,e]) times the
    head's weight [c,e], plus the head's bias [c].  The logits have shape
    [batch, num_classes], and every attention-core call made on the way
    receives the causal flag false. *)
Theorem Transformer_forward_classifies
    (img ps nc num_classes nh E d_ffn B : nat) (rate : R)
    (pv : @Patch_values R) (head : @Linear_values R)
    (blocks : list (@Block_values R)) (m : @Transformer R)
    (x : tensor4 R) (Target : Type) (target : Target) (st : state) :
  Transformer_init img ps nc num_classes nh E d_ffn rate pv head blocks = Ok m ->
  shape4 x = (B, nc, img, img) -> 0 < img -> img mod ps = 0 -> 0 < B -> 0 < E ->
  exists encoder_in st1 encoder_output st2 logits,
    Patch_Embedding_forward env (positional_encoding m) x st = Ok (encoder_in, st1)
    /\ Encoder_forward env (encoder m) encoder_in st1 = Ok (encoder_output, st2)
    /\ Transformer_forward env m x target st = Ok (logits, st2)
    /\ shape2 logits = (B, num_classes)
    /\ (forall b c,
          get2 logits b c
          = (sum_upto E (fun e => tanh (get3 encoder_output b 0 e)
                                  * weight (mlp_head m) c e)
             + bias (mlp_head m) c)%R)
    /\ (forall y : R, (-1 < ftanh y < 1)%R)
    /\ attn_flags st2 = attn_flags st ++ repeat false (length blocks)
    /\ Forall (fun flag => flag = false) (skipn (length (attn_flags st)) (attn_flags st2)).
Proof.
  intros Hinit Hx Himg Hmod HB HE.
  destruct (@Transformer_forward_run R (RScalar gelu) env img ps nc num_classes nh
              E d_ffn B rate pv head blocks m x Target target st
              Hinit Hx Himg Hmod HB HE)
    as (ein & st1 & eout & st2 & logits & H1 & H2 & H3 & H4 & H5 & H6).
  exists ein, st1, eout, st2, logits.
  repeat (split; [assumption|]).
  split.
  { intros b c. rewrite H5. unfold Linear_row.
    rewrite (Transformer_init_head _ _ _ _ _ _ _ _ _ _ _ Hinit).
    reflexivity. }
  split; [intros y; apply tanh_bounded|].
  split; [assumption|].
  rewrite H6, skipn_app, Nat.sub_diag, skipn_all. simpl.
  apply Forall_forall. intros flag Hin. now apply repeat_spec in Hin.
Qed.

End ForwardClaims.

(** ** The claims on concrete inputs *)

Example conv_out_size_9_4 : conv_out_size 9 4 4 = 2.
Proof. reflexivity. Qed.

Example bdim_5_5 : bdim 5 5 = Some 5.
Proof. reflexivity. Qed.

Example bdim_17_5 : bdim 17 5 = None.
Proof. reflexivity. Qed.

Example init_zero_heads :
  Multi_Headed_Attention_init (T := R) 0 8
    (lin_w ex_linear_values) (lin_w ex_linear_values) (lin_w ex_linear_values)
    (lin_b ex_linear_values) (lin_b ex_linear_values) (lin_b ex_linear_values)
  = Err ZeroDivisionError.
Proof. reflexivity. Qed.

Example accepts_9_9 :
  Patch_Embedding_accepts 8 4 1 (ex_image 9 9 0%R) = true.
Proof. reflexivity. Qed.

Example accepts_16_16 :
  Patch_Embedding_accepts 8 4 1 (ex_image 16 16 0%R) = false.
Proof. reflexivity. Qed.

Lemma ex_ones_score b h i j :
  raw_score (SC := RScalar ex_gelu) ex_ones ex_ones b h i j = 1%R.
Proof. unfold raw_score. simpl. rewrite sqrt_1. lra. Qed.

Lemma ex_zeros_score b h i j :
  raw_score (SC := RScalar ex_gelu) ex_zeros ex_ones b h i j = 0%R.
Proof. unfold raw_score. simpl. unfold Rdiv. ring. Qed.

(** C1 on a two-position input with the causal flag set. *)
Lemma Self_Attention_forward_correct_witness :
  exists out,
    Self_Attention_forward (SC := RScalar ex_gelu) ex_ones ex_ones ex_step true = Ok out
    /\ shape4 out = shape4 ex_ones
    /\ forall b h i c, b < 1 -> h < 1 -> i < 2 -> c < 1 ->
         get4 out b h i c
         = attention_spec (SC := RScalar ex_gelu) ex_ones ex_ones ex_step true b h i c.
Proof.
  apply (@Self_Attention_forward_correct R (RScalar ex_gelu)
           ex_ones ex_ones ex_step true).
  - apply RScalar_mask_laws.
  - reflexivity.
  - reflexivity.
Defined.

(** C10 on all-ones queries and keys: every raw score is 1. *)
Lemma Self_Attention_forward_unmasked_witness :
  exists out,
    Self_Attention_forward (SC := RScalar ex_gelu) ex_ones ex_ones ex_step false = Ok out
    /\ shape4 out = shape4 ex_ones
    /\ (forall b h i j, b < 1 -> h < 1 -> i < 2 -> j < 2 ->
          attendable (SC := RScalar ex_gelu) ex_ones ex_ones false b h i j = true
          /\ masked_score (SC := RScalar ex_gelu) ex_ones ex_ones false b h i j
             = raw_score (SC := RScalar ex_gelu) ex_ones ex_ones b h i j)
    /\ forall b h i c, b < 1 -> h < 1 -> i < 2 -> c < 1 ->
         get4 out b h i c = sdpa (SC := RScalar ex_gelu) ex_ones ex_ones ex_step b h i c.
Proof.
  apply (@Self_Attention_forward_unmasked R (RScalar ex_gelu) ex_ones ex_ones ex_step).
  - reflexivity.
  - reflexivity.
  - intros b h i j _ _ _ _. rewrite ex_ones_score.
    change (Req_b 1 0 = false). apply Req_b_false. lra.
Defined.

(** C7 on all-zero queries: every raw score is 0. *)
Lemma fully_masked_row_uniform_witness :
  exists out,
    Self_Attention_forward (SC := RScalar ex_gelu) ex_zeros ex_ones ex_step true = Ok out
    /\ (forall j, j < 2 ->
          attendable (SC := RScalar ex_gelu) ex_zeros ex_ones true 0 0 0 j = false
          /\ attn_prob (SC := RScalar ex_gelu) ex_zeros ex_ones true 0 0 0 j
             = (1 / INR 2)%R)
    /\ forall c, c < 1 ->
         get4 out 0 0 0 c
         = (sum_upto (SC := RScalar ex_gelu) 2 (fun j => get4 ex_step 0 0 j c) / INR 2)%R.
Proof.
  apply (@fully_masked_row_uniform ex_gelu ex_zeros ex_ones ex_step true 0 0 0).
  - reflexivity.
  - reflexivity.
  - simpl; lia.
  - simpl; lia.
  - simpl; lia.
  - intros j _. apply ex_zeros_score.
Defined.


(** C4 with [embed_dim = 8] and [n_heads = 3]. *)
Lemma Multi_Headed_Attention_init_rejects_witness :
  Multi_Headed_Attention_init (T := R) 3 8
    (lin_w ex_linear_values) (lin_w ex_linear_values) (lin_w ex_linear_values)
    (lin_b ex_linear_values) (lin_b ex_linear_values) (lin_b ex_linear_values)
  = Err AssertionError.
Proof.
  apply (@Multi_Headed_Attention_init_rejects R 3 8).
  intros [z Hz]. destruct z as [|[|[|z]]]; simpl in Hz; lia.
Defined.

(** C9 over the real numbers, where addition is commutative. *)
Lemma Add_and_Norm_forward_comm_witness :
  result_eq3
    (Add_and_Norm_forward (SC := RScalar ex_gelu) ex_add_and_norm (ex_tokens 1) (ex_tokens 2))
    (Add_and_Norm_forward (SC := RScalar ex_gelu) ex_add_and_norm (ex_tokens 2) (ex_tokens 1)).
Proof.
  apply (@Add_and_Norm_forward_comm R (RScalar ex_gelu)
           ex_add_and_norm (ex_tokens 1) (ex_tokens 2)).
  intros x y. apply Rplus_comm.
Defined.

Lemma ex_patch_embedding_init :
  Patch_Embedding_init (T := R) 8 4 1 2 0%R
    (val_conv_w ex_patch_values) (val_conv_b ex_patch_values)
    (val_pos ex_patch_values) (val_cls ex_patch_values)
  = Ok ex_patch_embedding.
Proof. reflexivity. Qed.

Lemma ex_model_init :
  Transformer_init (T := R) 8 4 1 3 1 2 4 0%R
    ex_patch_values ex_linear_values [ex_block_values]
  = Ok ex_model.
Proof. reflexivity. Qed.

(** C5 on an 8x8 image with patch size 4: five tokens. *)
Lemma Patch_Embedding_forward_tokens_witness :
  exists out st',
    Patch_Embedding_forward (SC := RScalar ex_gelu) ex_env ex_patch_embedding
      (ex_image 8 8 0%R) ex_state = Ok (out, st')
    /\ shape3 out = (1, 5, 2).
Proof.
  destruct (@Patch_Embedding_forward_tokens R (RScalar ex_gelu) ex_env
              8 4 1 2 1 0%R
              (val_conv_w ex_patch_values) (val_conv_b ex_patch_values)
              (val_pos ex_patch_values) (val_cls ex_patch_values)
              ex_patch_embedding (ex_image 8 8 0%R) ex_state)
    as (out & st' & Hrun & Hshape & _).
  - apply ex_patch_embedding_init.
  - reflexivity.
  - lia.
  - reflexivity.
  - exists out, st'. split; [exact Hrun|exact Hshape].
Defined.

(** The amended C3 on a 9x9 image: accepted, five tokens. *)
Lemma Patch_Embedding_forward_shape_check_witness :
  exists out st',
    Patch_Embedding_forward (SC := RScalar ex_gelu) ex_env ex_patch_embedding
      (ex_image 9 9 0%R) ex_state = Ok (out, st')
    /\ shape3 out = (1, 5, 2).
Proof.
  destruct (@Patch_Embedding_forward_shape_check R (RScalar ex_gelu) ex_env
              8 4 1 2 0%R
              (val_conv_w ex_patch_values) (val_conv_b ex_patch_values)
              (val_pos ex_patch_values) (val_cls ex_patch_values)
              ex_patch_embedding (ex_image 9 9 0%R) ex_state
              ex_patch_embedding_init)
    as [_ Hacc].
  destruct (Hacc eq_refl) as (out & st' & Hrun & Hshape & _).
  exists out, st'. split; [exact Hrun|exact Hshape].
Defined.

(** C6 on the one-block example model: three logits, one attention call,
    its causal flag false. *)
Lemma Transformer_forward_classifies_witness :
  exists logits st',
    Transformer_forward (SC := RScalar ex_gelu) ex_env ex_model
      (ex_image 8 8 0%R) ex_target ex_state = Ok (logits, st')
    /\ shape2 logits = (1, 3)
    /\ attn_flags st' = [false].
Proof.
  destruct (@Transformer_forward_classifies ex_gelu ex_env 8 4 1 3 1 2 4 1 0%R
              ex_patch_values ex_linear_values [ex_block_values] ex_model
              (ex_image 8 8 0%R) (tensor1 nat) ex_target ex_state)
    as (ein & st1 & eout & st2 & logits & _ & _ & Hrun & Hshape & _ & _ & Hflags & _).
  - apply ex_model_init.
  - reflexivity.
  - lia.
  - reflexivity.
  - lia.
  - lia.
  - exists logits, st2. split; [exact Hrun|]. split; [exact Hshape|exact Hflags].
Defined.

(** C3 fails as stated: a module built for 8x8 images with patch size 4
    accepts a 9x9 image (side not divisible by 4) and a 4x16 image (not
    square); both yield five tokens, and no error is raised. *)
Lemma shape_contract_counterexample :
  Patch_Embedding_init (T := R) 8 4 1 2 0%R
    (val_conv_w ex_patch_values) (val_conv_b ex_patch_values)
    (val_pos ex_patch_values) (val_cls ex_patch_values)
  = Ok ex_patch_embedding
  /\ shape_contract 4 (ex_image 9 9 0%R) = false
  /\ shape_contract 4 (ex_image 4 16 0%R) = false
  /\ (exists out st',
        Patch_Embedding_forward (SC := RScalar ex_gelu) ex_env ex_patch_embedding
          (ex_image 9 9 0%R) ex_state = Ok (out, st')
        /\ shape3 out = (1, 5, 2))
  /\ (exists out st',
        Patch_Embedding_forward (SC := RScalar ex_gelu) ex_env ex_patch_embedding
          (ex_image 4 16 0%R) ex_state = Ok (out, st')
        /\ shape3 out = (1, 5, 2)).
Proof.
  split; [reflexivity|]. split; [reflexivity|]. split; [reflexivity|]. split.
  - destruct (@Patch_Embedding_forward_run R (RScalar ex_gelu) ex_env 4 1 2 5 0%R
                (val_conv_w ex_patch_values) (val_conv_b ex_patch_values)
                (val_pos ex_patch_values) (val_cls ex_patch_values)
                (ex_image 9 9 0%R) ex_state)
      as (out & Hrun & Hshape & _);
      [lia|reflexivity|simpl; lia|simpl; lia|left; reflexivity|].
    exists out. eexists. split; [exact Hrun|exact Hshape].
  - destruct (@Patch_Embedding_forward_run R (RScalar ex_gelu) ex_env 4 1 2 5 0%R
                (val_conv_w ex_patch_values) (val_conv_b ex_patch_values)
                (val_pos ex_patch_values) (val_cls ex_patch_values)
                (ex_image 4 16 0%R) ex_state)
      as (out & Hrun & Hshape & _);
      [lia|reflexivity|simpl; lia|simpl; lia|left; reflexivity|].
    exists out. eexists. split; [exact Hrun|exact Hshape].
Qed.

(** ** Multi-head attention: head layout and the empty batch *)

Section HeadFacts.

Context {T : Type} {SC : Scalar T}.

Lemma view_heads_entry (x : tensor3 T) (h d : nat) (out : tensor4 T)
    (b l hh c : nat) :
  d3_2 x = h * d -> view_heads x h d = Ok out ->
  b < d3_0 x -> l < d3_1 x -> hh < h -> c < d ->
  get4 out b l hh c = get3 x b l (hh * d + c).
Proof.
  intros HE Hv Hb Hl Hh Hc. unfold view_heads in Hv.
  destruct (_ =? _) in Hv; [|discriminate]. injection Hv as <-. simpl.
  set (L := d3_1 x) in *. rewrite HE.
  assert (Hr : hh * d + c < h * d) by nia.
  assert (HE0 : h * d <> 0) by lia.
  assert (HL0 : L <> 0) by lia.
  replace (((b * L + l) * h + hh) * d + c)
    with ((hh * d + c) + (b * L + l) * (h * d)) by lia.
  assert (H1 : ((hh * d + c) + (b * L + l) * (h * d)) / (h * d) = b * L + l).
  { rewrite Nat.div_add by assumption. rewrite Nat.div_small by assumption. lia. }
  assert (H2 : ((hh * d + c) + (b * L + l) * (h * d)) mod (h * d) = hh * d + c).
  { rewrite Nat.Div0.mod_add. now apply Nat.mod_small. }
  rewrite H2.
  rewrite (Nat.mul_comm L (h * d)), <- Nat.Div0.div_div, H1.
  replace (b * L + l) with (l + b * L) by lia.
  rewrite Nat.div_add, Nat.Div0.mod_add, Nat.div_small, Nat.mod_small by assumption.
  reflexivity.
Qed.

Lemma view_concat_entry (x : tensor4 T) (out : tensor3 T) (b l hh c : nat) :
  d4_0 x <> 0 -> view_concat x (d4_3 x * d4_2 x) = Ok out ->
  b < d4_0 x -> l < d4_1 x -> hh < d4_2 x -> c < d4_3 x ->
  get3 out b l (hh * d4_3 x + c) = get4 x b l hh c.
Proof.
  intros HB Hv Hb Hl Hh Hc. unfold view_concat in Hv.
  set (B := d4_0 x) in *. set (L := d4_1 x) in *.
  set (h := d4_2 x) in *. set (d := d4_3 x) in *.
  destruct (B * (d * h) =? 0) eqn:Ek; [discriminate|].
  destruct (negb _) in Hv; [discriminate|]. injection Hv as <-. simpl.
  apply Nat.eqb_neq in Ek.
  assert (Hq : B * L * h * d / (B * (d * h)) = L).
  { replace (B * L * h * d) with (L * (B * (d * h))) by lia.
    now apply Nat.div_mul. }
  rewrite Hq.
  assert (Hd : d <> 0) by lia. assert (Hh0 : h <> 0) by lia.
  assert (HL : L <> 0) by lia.
  set (f := (b * L + l) * (d * h) + (hh * d + c)).
  assert (F1 : f / d = (b * L + l) * h + hh).
  { unfold f. replace ((b * L + l) * (d * h) + (hh * d + c))
      with (c + ((b * L + l) * h + hh) * d) by lia.
    rewrite Nat.div_add by assumption. rewrite Nat.div_small by assumption. lia. }
  assert (F2 : f mod d = c).
  { unfold f. replace ((b * L + l) * (d * h) + (hh * d + c))
      with (c + ((b * L + l) * h + hh) * d) by lia.
    rewrite Nat.Div0.mod_add. now apply Nat.mod_small. }
  assert (F3 : f / (h * d) = b * L + l).
  { rewrite (Nat.mul_comm h d), <- Nat.Div0.div_div, F1.
    replace ((b * L + l) * h + hh) with (hh + (b * L + l) * h) by lia.
    rewrite Nat.div_add by assumption. rewrite Nat.div_small by assumption. lia. }
  assert (F4 : f / (L * h * d) = b).
  { replace (L * h * d) with (h * d * L) by lia.
    rewrite <- Nat.Div0.div_div, F3.
    replace (b * L + l) with (l + b * L) by lia.
    rewrite Nat.div_add by assumption. rewrite Nat.div_small by assumption. lia. }
  rewrite F4, F3, F1, F2.
  replace (b * L + l) with (l + b * L) by lia.
  rewrite Nat.Div0.mod_add, (Nat.mod_small l L) by assumption.
  replace ((l + b * L) * h + hh) with (hh + (l + b * L) * h) by lia.
  rewrite Nat.Div0.mod_add, (Nat.mod_small hh h) by assumption.
  reflexivity.
Qed.

End HeadFacts.

Section HeadClaims.

Context {T : Type} {SC : Scalar T}.

Lemma raw_score_ext (q k q' k' : tensor4 T) (b h i j : nat) :
  d4_3 q = d4_3 q' ->
  (forall c, c < d4_3 q -> get4 q b h i c = get4 q' b h i c) ->
  (forall c, c < d4_3 q -> get4 k b h j c = get4 k' b h j c) ->
  raw_score q k b h i j = raw_score q' k' b h i j.
Proof.
  intros Hd Hq Hk. unfold raw_score. rewrite <- Hd. f_equal.
  apply sum_upto_ext. intros c Hc. now rewrite Hq, Hk.
Qed.

Lemma attention_spec_ext (q k v q' k' v' : tensor4 T) (flag : bool)
    (b h i c : nat) :
  d4_3 q = d4_3 q' -> d4_2 k = d4_2 k' ->
  (forall c', c' < d4_3 q -> get4 q b h i c' = get4 q' b h i c') ->
  (forall j c', j < d4_2 k -> c' < d4_3 q -> get4 k b h j c' = get4 k' b h j c') ->
  (forall j, j < d4_2 k -> get4 v b h j c = get4 v' b h j c) ->
  attention_spec q k v flag b h i c = attention_spec q' k' v' flag b h i c.
Proof.
  intros Hd Hn Hq Hk Hv.
  assert (Hs : forall j, j < d4_2 k ->
            masked_score q k flag b h i j = masked_score q' k' flag b h i j).
  { intros j Hj. unfold masked_score, attendable.
    rewrite (@raw_score_ext q k q' k' b h i j) by auto. reflexivity. }
  unfold attention_spec, attn_prob. rewrite <- Hn.
  apply sum_upto_ext. intros j Hj. rewrite Hv by assumption.
  f_equal. f_equal.
  - now rewrite Hs.
  - apply sum_upto_ext. intros j' Hj'. now rewrite Hs.
Qed.

(** Multi-head attention keeps the shape of its input and lays the heads
    out side by side: for a module built by the constructor and a non-empty
    batch, column [hh * d_key + c] of the output at token [l] is the
    attention-core result of head [hh], computed from the columns
    [hh * d_key ..] of the three projections only. *)
Theorem Multi_Headed_Attention_forward_heads
    (nh E B L : nat) (wq wk wv : nat -> nat -> T) (bq bk bv : nat -> T)
    (m : @Multi_Headed_Attention T) (x : tensor3 T) (is_masked : bool)
    (st : state) :
  Multi_Headed_Attention_init nh E wq wk wv bq bk bv = Ok m ->
  (is_masked = true -> mask_laws (T:=T)) ->
  shape3 x = (B, L, E) -> B <> 0 -> E <> 0 ->
  exists q k v out,
    Linear_forward3 (Wq m) x = Ok q
    /\ Linear_forward3 (Wk m) x = Ok k
    /\ Linear_forward3 (Wv m) x = Ok v
    /\ Multi_Headed_Attention_forward m x is_masked st
       = Ok (out, St (rng_calls st) (attn_flags st ++ [is_masked]))
    /\ shape3 out = (B, L, E)
    /\ forall b l hh c, b < B -> l < L -> hh < n_heads m -> c < d_key m ->
         get3 out b l (hh * d_key m + c)
         = attention_spec (split_heads q (n_heads m) (d_key m))
                          (split_heads k (n_heads m) (d_key m))
                          (split_heads v (n_heads m) (d_key m))
                          is_masked b hh l c.
Proof.
  intros Hinit Hlaws Hx HB HE.
  destruct (Multi_Headed_Attention_init_shapes _ _ _ _ _ _ _ _ Hinit)
    as (Hhd & Hqi & Hqo & Hki & Hko & Hvi & Hvo).
  set (h := n_heads m) in *. set (d := d_key m) in *.
  unfold shape3 in Hx. injection Hx as H0 H1 H2.
  destruct (@Linear_forward3_run T SC (Wq m) x) as (q & Hq & Sq); [congruence|].
  destruct (@Linear_forward3_run T SC (Wk m) x) as (k & Hk & Sk); [congruence|].
  destruct (@Linear_forward3_run T SC (Wv m) x) as (v & Hv & Sv); [congruence|].
  unfold shape3 in Sq, Sk, Sv.
  injection Sq as Q0 Q1 Q2. injection Sk as K0 K1 K2. injection Sv as V0 V1 V2.
  assert (Q2' : d3_2 q = h * d) by congruence.
  assert (K2' : d3_2 k = h * d) by congruence.
  assert (V2' : d3_2 v = h * d) by congruence.
  destruct (@view_heads_run T q h d Q2') as (q4 & Hq4 & Sq4).
  destruct (@view_heads_run T k h d K2') as (k4 & Hk4 & Sk4).
  destruct (@view_heads_run T v h d V2') as (v4 & Hv4 & Sv4).
  unfold shape4 in Sq4, Sk4, Sv4.
  injection Sq4 as Q40 Q41 Q42 Q43. injection Sk4 as K40 K41 K42 K43.
  injection Sv4 as V40 V41 V42 V43.
  destruct (@Self_Attention_forward_entries T SC
              (transpose12_4 q4) (transpose12_4 k4) (transpose12_4 v4) is_masked)
    as (o & Ho & So & Hent).
  { unfold shape4, transpose12_4; simpl. congruence. }
  { unfold shape4, transpose12_4; simpl. congruence. }
  { exact Hlaws. }
  unfold shape4, transpose12_4 in So; simpl in So. injection So as O0 O1 O2 O3.
  destruct (@view_concat_run T (transpose12_4 o) (d * h)) as (out & Hout & Sout).
  { simpl. rewrite O1, O3, Q42, Q43. apply Nat.mul_comm. }
  { simpl. congruence. }
  { rewrite Nat.mul_comm. congruence. }
  exists q, k, v, out.
  split; [exact Hq|]. split; [exact Hk|]. split; [exact Hv|]. split; [|split].
  - unfold Multi_Headed_Attention_forward, bind, lift, log_flag. fold h d.
    rewrite Hq, Hk, Hv, Hq4, Hk4, Hv4, Ho, Hout. reflexivity.
  - rewrite Sout. simpl. unfold shape3. f_equal; [f_equal|]; try congruence.
    rewrite Nat.mul_comm. exact Hhd.
  - intros b l hh c Hb Hl Hh Hc.
    assert (Hod : d4_3 (transpose12_4 o) = d) by (simpl; congruence).
    assert (Hoh : d4_2 (transpose12_4 o) = h) by (simpl; congruence).
    rewrite <- Hod at 1.
    rewrite (@view_concat_entry T (transpose12_4 o) out b l hh c);
      try (simpl; congruence); try (simpl; lia).
    simpl. rewrite Hent by (simpl; lia).
    apply attention_spec_ext; simpl; try congruence.
    + intros c' Hc'. apply (@view_heads_entry T q h d q4); try assumption; lia.
    + intros j c' Hj Hc'. apply (@view_heads_entry T k h d k4); try assumption; lia.
    + intros j Hj. apply (@view_heads_entry T v h d v4); try assumption; lia.
Qed.

(** An empty batch, or an embedding dimension of zero, makes multi-head
    attention fail: every step up to the attention core goes through, and
    the final [view] with an inferred middle dimension raises. *)
Theorem Multi_Headed_Attention_forward_empty
    (nh E B L : nat) (wq wk wv : nat -> nat -> T) (bq bk bv : nat -> T)
    (m : @Multi_Headed_Attention T) (x : tensor3 T) (st : state) :
  Multi_Headed_Attention_init nh E wq wk wv bq bk bv = Ok m ->
  shape3 x = (B, L, E) -> B = 0 \/ E = 0 ->
  Multi_Headed_Attention_forward m x false st = Err ShapeError.
Proof.
  intros Hinit Hx Hz.
  destruct (Multi_Headed_Attention_init_shapes _ _ _ _ _ _ _ _ Hinit)
    as (Hhd & Hqi & Hqo & Hki & Hko & Hvi & Hvo).
  set (h := n_heads m) in *. set (d := d_key m) in *.
  unfold shape3 in Hx. injection Hx as H0 H1 H2.
  destruct (@Linear_forward3_run T SC (Wq m) x) as (q & Hq & Sq); [congruence|].
  destruct (@Linear_forward3_run T SC (Wk m) x) as (k & Hk & Sk); [congruence|].
  destruct (@Linear_forward3_run T SC (Wv m) x) as (v & Hv & Sv); [congruence|].
  unfold shape3 in Sq, Sk, Sv.
  injection Sq as Q0 Q1 Q2. injection Sk as K0 K1 K2. injection Sv as V0 V1 V2.
  assert (Q2' : d3_2 q = h * d) by congruence.
  assert (K2' : d3_2 k = h * d) by congruence.
  assert (V2' : d3_2 v = h * d) by congruence.
  destruct (@view_heads_run T q h d Q2') as (q4 & Hq4 & Sq4).
  destruct (@view_heads_run T k h d K2') as (k4 & Hk4 & Sk4).
  destruct (@view_heads_run T v h d V2') as (v4 & Hv4 & Sv4).
  unfold shape4 in Sq4, Sk4, Sv4.
  injection Sq4 as Q40 Q41 Q42 Q43. injection Sk4 as K40 K41 K42 K43.
  injection Sv4 as V40 V41 V42 V43.
  destruct (@Self_Attention_forward_entries T SC
              (transpose12_4 q4) (transpose12_4 k4) (transpose12_4 v4) false)
    as (o & Ho & So & _).
  { unfold shape4, transpose12_4; simpl. congruence. }
  { unfold shape4, transpose12_4; simpl. congruence. }
  { discriminate. }
  unfold shape4, transpose12_4 in So; simpl in So. injection So as O0 O1 O2 O3.
  unfold Multi_Headed_Attention_forward, bind, lift, log_flag. fold h d.
  rewrite Hq, Hk, Hv, Hq4, Hk4, Hv4, Ho.
  unfold view_concat. simpl.
  replace (d4_0 o * (d * h) =? 0) with true; [reflexivity|].
  symmetry. apply Nat.eqb_eq.
  assert (d4_0 o = B) by congruence. nia.
Qed.

End HeadClaims.

(** ** More on the attention core *)

Section RealWeights.

Variable gelu : R -> R.
Local Hint Extern 0 (Scalar R) => exact (RScalar gelu) : typeclass_instances.

Local Open Scope R_scope.

Lemma attn_prob_sum (q k : tensor4 R) causal b h i :
  (0 < d4_2 k)%nat ->
  sum_upto (d4_2 k) (fun j => attn_prob q k causal b h i j) = 1.
Proof.
  intros Hn. unfold attn_prob.
  set (Z := sum_upto (d4_2 k) (fun j' => fexp (masked_score q k causal b h i j'))).
  assert (HZ : 0 < Z)
    by (apply (Rsum_exp_pos gelu (fun j' => masked_score q k causal b h i j') Hn)).
  rewrite (sum_upto_ext _ (fun j => / Z * exp (masked_score q k causal b h i j))).
  2:{ intros j _. simpl. unfold Rdiv. ring. }
  rewrite (Rsum_scal gelu). change (/ Z * Z = 1). field. lra.
Qed.

(** The attention weights of every row are a probability distribution, so
    each output entry is a weighted average of the corresponding column of
    V: it lies between any two bounds that enclose that column. *)
Theorem Self_Attention_forward_convex (q k v : tensor4 R) (causal : bool)
    (b h i c : nat) (lo hi : R) :
  shape4 k = shape4 q -> shape4 v = shape4 q ->
  (b < d4_0 q)%nat -> (h < d4_1 q)%nat -> (i < d4_2 q)%nat -> (c < d4_3 q)%nat ->
  (forall j, (j < d4_2 q)%nat -> lo <= get4 v b h j c <= hi) ->
  exists out,
    Self_Attention_forward q k v causal = Ok out
    /\ (forall j, (j < d4_2 q)%nat -> 0 <= attn_prob q k causal b h i j)
    /\ sum_upto (d4_2 q) (fun j => attn_prob q k causal b h i j) = 1
    /\ lo <= get4 out b h i c <= hi.
Proof.
  intros Hk Hv Hb Hh Hi Hc Hbound.
  assert (Hn : d4_2 k = d4_2 q) by (unfold shape4 in Hk; congruence).
  destruct (@Self_Attention_forward_entries R (RScalar gelu) q k v causal Hk Hv)
    as (out & Hout & _ & Hent); [intros _; apply RScalar_mask_laws|].
  assert (Hpos : (0 < d4_2 k)%nat) by lia.
  assert (Hp : forall j, 0 <= attn_prob q k causal b h i j)
    by (intros j; now apply attn_prob_nonneg).
  pose proof (attn_prob_sum q k causal b h i Hpos) as Hsum.
  exists out. split; [exact Hout|]. split; [intros j _; apply Hp|].
  rewrite <- Hn. split; [exact Hsum|].
  rewrite Hent by assumption. unfold attention_spec.
  split.
  - replace lo with (lo * 1) by ring. rewrite <- Hsum, <- (Rsum_scal gelu).
    apply (Rsum_le gelu). intros j Hj. simpl.
    rewrite Rmult_comm. apply Rmult_le_compat_l; [apply Hp|].
    apply Hbound. lia.
  - replace hi with (hi * 1) by ring. rewrite <- Hsum, <- (Rsum_scal gelu).
    apply (Rsum_le gelu). intros j Hj. simpl.
    rewrite (Rmult_comm hi). apply Rmult_le_compat_l; [apply Hp|].
    apply Hbound. lia.
Qed.

End RealWeights.

Section CrossAttention.

Context {T : Type} {SC : Scalar T}.

(** Queries and keys of different lengths: without the causal flag the
    core returns one output row per query; with the causal flag the square
    lower-triangular mask cannot be combined with the score mask and the
    call raises. *)
Theorem Self_Attention_forward_lengths (q k v : tensor4 T)
    (B H Lq Lk d dv : nat) :
  shape4 q = (B, H, Lq, d) -> shape4 k = (B, H, Lk, d) ->
  shape4 v = (B, H, Lk, dv) ->
  Lq <> Lk -> Lq <> 1 -> Lk <> 1 ->
  Self_Attention_forward q k v true = Err ShapeError
  /\ exists out,
       Self_Attention_forward q k v false = Ok out
       /\ shape4 out = (B, H, Lq, dv).
Proof.
  destruct q as [q0 q1 q2 q3 gq], k as [k0 k1 k2 k3 gk], v as [v0 v1 v2 v3 gv].
  unfold shape4; simpl. intros Hq Hk Hv Hne Hq1 Hk1.
  injection Hq as -> -> -> ->. injection Hk as -> -> -> ->.
  injection Hv as -> -> -> ->.
  unfold Self_Attention_forward, matmul4, transpose_last; simpl.
  rewrite Nat.eqb_refl, !bdim_same; simpl.
  split.
  - unfold bcast4; simpl. rewrite !bdim_one_l.
    assert (Hb : bdim Lk Lq = None).
    { unfold bdim.
      rewrite (proj2 (Nat.eqb_neq Lk Lq)) by congruence.
      rewrite (proj2 (Nat.eqb_neq Lk 1)), (proj2 (Nat.eqb_neq Lq 1)) by assumption.
      reflexivity. }
    rewrite Hb. reflexivity.
  - unfold masked_fill; simpl. rewrite !expands_to_same; simpl.
    rewrite Nat.eqb_refl, !bdim_same; simpl.
    eexists. split; reflexivity.
Qed.

End CrossAttention.

(** ** The feed-forward and the normalisation sub-layers *)

Section SublayerFacts.

Context {T : Type} {SC : Scalar T}.

Lemma Linear_row_ext (l : @Linear T) (x x' : nat -> T) (o : nat) :
  (forall c, c < in_features l -> x c = x' c) ->
  Linear_row l x o = Linear_row l x' o.
Proof.
  intros H. unfold Linear_row. f_equal.
  apply sum_upto_ext. intros c Hc. now rewrite H.
Qed.

(** The feed-forward sub-layer works token by token: two inputs of one
    shape that agree on the token at [(b, i)] give outputs that agree on
    that token, whatever the other tokens are. *)
Theorem Position_wise_ffn_forward_local (f : @Position_wise_ffn T)
    (x x' : tensor3 T) (b i : nat) :
  shape3 x = shape3 x' ->
  d3_2 x = in_features (linear1 f) ->
  out_features (linear1 f) = in_features (linear2 f) ->
  (forall e, e < d3_2 x -> get3 x b i e = get3 x' b i e) ->
  exists y y',
    Position_wise_ffn_forward f x = Ok y
    /\ Position_wise_ffn_forward f x' = Ok y'
    /\ shape3 y = shape3 y'
    /\ forall o, get3 y b i o = get3 y' b i o.
Proof.
  intros Hs H1 H12 Hag. unfold shape3 in Hs. injection Hs as S0 S1 S2.
  unfold Position_wise_ffn_forward, Linear_forward3.
  rewrite <- S2, H1, Nat.eqb_refl. simpl.
  rewrite H12, Nat.eqb_refl.
  eexists. eexists. split; [reflexivity|]. split; [reflexivity|].
  split; [simpl; unfold shape3; simpl; congruence|].
  intros o. simpl. apply Linear_row_ext. intros c Hc. f_equal.
  apply Linear_row_ext. intros c' Hc'. apply Hag. congruence.
Qed.

End SublayerFacts.

Section RealNorm.

Variable gelu : R -> R.
Local Hint Extern 0 (Scalar R) => exact (RScalar gelu) : typeclass_instances.

Local Open Scope R_scope.

Lemma row_var_nonneg (n : nat) (x : nat -> R) : 0 <= row_var n x.
Proof.
  unfold row_var. simpl.
  assert (Hs : 0 <= sum_upto n (fun e =>
             (x e - row_mean n x) * (x e - row_mean n x))).
  { apply (Rsum_nonneg gelu). intros j _.
    apply Rle_0_sqr. }
  destruct n as [|n].
  - simpl. unfold Rdiv. rewrite Rinv_0. lra.
  - apply Rmult_le_pos; [exact Hs|].
    left. apply Rinv_0_lt_compat. apply lt_0_INR. lia.
Qed.

Lemma LayerNorm_entry_standardized (n : nat) (s : nat -> R) :
  (0 < n)%nat ->
  sum_upto n (fun e => LayerNorm_entry (MkLayerNorm n (fun _ => 1) (fun _ => 0)) s e)
  = 0
  /\ sum_upto n (fun e =>
        LayerNorm_entry (MkLayerNorm n (fun _ => 1) (fun _ => 0)) s e
        * LayerNorm_entry (MkLayerNorm n (fun _ => 1) (fun _ => 0)) s e)
     < INR n.
Proof.
  intros Hn. unfold LayerNorm_entry.
  cbn [normalized_shape ln_weight ln_bias].
  set (mu := row_mean n s). set (va := row_var n s).
  assert (Hva : 0 <= va) by apply row_var_nonneg.
  assert (Hsig : 0 < sqrt (va + 1 / 100000)) by (apply sqrt_lt_R0; lra).
  assert (HnR : 0 < INR n) by (apply lt_0_INR; lia).
  assert (Hmu : sum_upto n s = INR n * mu).
  { unfold mu, row_mean. cbn [fdiv of_nat RScalar]. field. lra. }
  assert (Hsq : sum_upto n (fun e => (s e - mu) * (s e - mu)) = INR n * va).
  { unfold va, row_var. fold mu. cbn [fdiv fsub fmul of_nat RScalar]. field. lra. }
  cbn [fadd fsub fmul fdiv fsqrt ln_eps RScalar].
  set (sg := sqrt (va + 1 / 100000)) in *.
  split.
  - rewrite (sum_upto_ext _ (fun e => / sg * (s e - mu))).
    2:{ intros e _. field. lra. }
    rewrite (Rsum_scal gelu), <- (Rsum_minus gelu), (Rsum_const gelu), Hmu.
    ring.
  - rewrite (sum_upto_ext _
               (fun e => / (sg * sg) * ((s e - mu) * (s e - mu)))).
    2:{ intros e _. field. lra. }
    rewrite (Rsum_scal gelu), Hsq.
    unfold sg. rewrite sqrt_sqrt by lra.
    apply Rmult_lt_reg_l with (va + 1 / 100000); [lra|].
    rewrite <- Rmult_assoc, Rinv_r by lra.
    nra.
Qed.

(** With the affine parameters at their initial values (scale 1, shift 0),
    every token of the residual+normalize output has entries that sum to
    zero and whose squares sum to less than the embedding dimension: zero
    mean, and variance var / (var + eps) below one. *)
Theorem Add_and_Norm_forward_standardized (x y : tensor3 R) (n : nat) :
  shape3 x = shape3 y -> d3_2 x = n -> (0 < n)%nat ->
  exists out,
    Add_and_Norm_forward
      (MkAdd_and_Norm (MkLayerNorm n (fun _ => 1) (fun _ => 0))) x y = Ok out
    /\ shape3 out = shape3 x
    /\ forall b i,
         sum_upto n (fun e => get3 out b i e) = 0
         /\ sum_upto n (fun e => get3 out b i e * get3 out b i e) < INR n.
Proof.
  intros Hs Hd Hn. unfold shape3 in Hs. injection Hs as S0 S1 S2.
  unfold Add_and_Norm_forward, bcast3.
  rewrite <- S0, <- S1, <- S2, !bdim_same.
  cbn [rbind norm]. unfold LayerNorm_forward.
  cbn [d3_0 d3_1 d3_2 normalized_shape]. rewrite Hd, Nat.eqb_refl.
  eexists. split; [reflexivity|]. split; [unfold shape3; simpl; congruence|].
  intros b i. cbn [get3].
  apply LayerNorm_entry_standardized. exact Hn.
Qed.

End RealNorm.

(** ** Dropout draws, evaluation mode, and stacking *)

Section DrawFacts.

Context {T : Type} {SC : Scalar T}.

Lemma lift_state {A} (r : result A) (a : A) (st st' : state) :
  lift r st = Ok (a, st') -> r = Ok a /\ st' = st.
Proof.
  unfold lift. destruct r; [|discriminate]. intros H. injection H as -> ->.
  split; reflexivity.
Qed.

Lemma bind_Ok {A B} (m : M A) (f : A -> M B) (b : B) (st st' : state) :
  bind m f st = Ok (b, st') ->
  exists a st1, m st = Ok (a, st1) /\ f a st1 = Ok (b, st').
Proof.
  unfold bind. destruct (m st) as [[a st1]|]; [|discriminate].
  intros H. exists a, st1. split; [reflexivity|exact H].
Qed.

Lemma Multi_Headed_Attention_forward_draws (m : @Multi_Headed_Attention T)
    (x out : tensor3 T) (flag : bool) (st st' : state) :
  Multi_Headed_Attention_forward m x flag st = Ok (out, st') ->
  rng_calls st' = rng_calls st.
Proof.
  unfold Multi_Headed_Attention_forward. intros H.
  apply bind_Ok in H. destruct H as (q & s1 & H1 & H).
  apply bind_Ok in H. destruct H as (k & s2 & H2 & H).
  apply bind_Ok in H. destruct H as (v & s3 & H3 & H).
  apply bind_Ok in H. destruct H as (q4 & s4 & H4 & H).
  apply bind_Ok in H. destruct H as (k4 & s5 & H5 & H).
  apply bind_Ok in H. destruct H as (v4 & s6 & H6 & H).
  apply bind_Ok in H. destruct H as (u & s7 & H7 & H).
  apply bind_Ok in H. destruct H as (o & s8 & H8 & H).
  apply lift_state in H1, H2, H3, H4, H5, H6, H8, H.
  destruct H1 as [_ ->], H2 as [_ ->], H3 as [_ ->], H4 as [_ ->],
           H5 as [_ ->], H6 as [_ ->], H8 as [_ ->], H as [_ ->].
  unfold log_flag in H7. injection H7 as _ <-. reflexivity.
Qed.

Lemma Dropout_forward_draws (env : Env) (d : @Dropout T) (x out : tensor3 T)
    (st st' : state) :
  Dropout_forward env d x st = Ok (out, st') ->
  rng_calls st' = rng_calls st + (if training env then 1 else 0).
Proof.
  unfold Dropout_forward. destruct (training env); intros H;
    injection H as _ <-; simpl; lia.
Qed.

Lemma Encoder_Block_forward_draws (env : Env) (blk : @Encoder_Block T)
    (x out : tensor3 T) (st st' : state) :
  Encoder_Block_forward env blk x st = Ok (out, st') ->
  rng_calls st' = rng_calls st + (if training env then 2 else 0).
Proof.
  unfold Encoder_Block_forward. intros H.
  apply bind_Ok in H. destruct H as (a & s1 & H1 & H).
  apply bind_Ok in H. destruct H as (a' & s2 & H2 & H).
  apply bind_Ok in H. destruct H as (x1 & s3 & H3 & H).
  apply bind_Ok in H. destruct H as (f & s4 & H4 & H).
  apply bind_Ok in H. destruct H as (f' & s5 & H5 & H).
  apply Multi_Headed_Attention_forward_draws in H1.
  apply Dropout_forward_draws in H2, H5.
  apply lift_state in H3, H4, H. destruct H3 as [_ ->], H4 as [_ ->], H as [_ ->].
  rewrite H5, H2, H1. destruct (training env); lia.
Qed.

Lemma Encoder_loop_draws (env : Env) (layers : list (@Encoder_Block T))
    (x out : tensor3 T) (st st' : state) :
  Encoder_loop env layers x st = Ok (out, st') ->
  rng_calls st' = rng_calls st + (if training env then 2 * length layers else 0).
Proof.
  revert x st. induction layers as [|blk rest IH]; intros x st H.
  - injection H as _ <-. destruct (training env); simpl; lia.
  - simpl in H. apply bind_Ok in H. destruct H as (y & s1 & H1 & H).
    apply Encoder_Block_forward_draws in H1. apply IH in H.
    rewrite H, H1. destruct (training env); simpl; lia.
Qed.

Lemma Patch_Embedding_forward_draws (env : Env) (pe : @Patch_Embedding T)
    (x : tensor4 T) (out : tensor3 T) (st st' : state) :
  Patch_Embedding_forward env pe x st = Ok (out, st') ->
  rng_calls st' = rng_calls st + (if training env then 1 else 0).
Proof.
  unfold Patch_Embedding_forward. intros H.
  apply bind_Ok in H. destruct H as (a & s1 & H1 & H).
  apply bind_Ok in H. destruct H as (c & s2 & H2 & H).
  apply bind_Ok in H. destruct H as (y & s3 & H3 & H).
  apply bind_Ok in H. destruct H as (z & s4 & H4 & H).
  apply lift_state in H1, H2, H3, H4.
  destruct H1 as [_ ->], H2 as [_ ->], H3 as [_ ->], H4 as [_ ->].
  now apply Dropout_forward_draws in H.
Qed.

(** A forward pass in training mode makes one dropout call in the patch
    embedding and two in every encoder block; in evaluation mode it makes
    none.  For a model built by the constructor and a batch of the
    configured size the pass succeeds and the call counter moves by exactly
    that number. *)
Theorem Transformer_forward_draws (env : Env)
    (img ps nc num_classes nh E d_ffn B : nat) (rate : T)
    (pv : @Patch_values T) (head : @Linear_values T)
    (blocks : list (@Block_values T)) (m : @Transformer T)
    (x : tensor4 T) (Target : Type) (target : Target) (st : state) :
  Transformer_init img ps nc num_classes nh E d_ffn rate pv head blocks = Ok m ->
  shape4 x = (B, nc, img, img) -> 0 < img -> img mod ps = 0 -> 0 < B -> 0 < E ->
  exists logits st',
    Transformer_forward env m x target st = Ok (logits, st')
    /\ rng_calls st'
       = rng_calls st + (if training env then 1 + 2 * length blocks else 0).
Proof.
  intros Hinit Hx Himg Hmod HB HE.
  destruct (@Transformer_forward_run T SC env img ps nc num_classes nh E d_ffn B
              rate pv head blocks m x Target target st Hinit Hx Himg Hmod HB HE)
    as (ein & st1 & eout & st2 & logits & H1 & H2 & H3 & _ & _ & _).
  exists logits, st2. split; [exact H3|].
  apply Patch_Embedding_forward_draws in H1.
  unfold Encoder_forward in H2. apply Encoder_loop_draws in H2.
  assert (Hlen : length (encoder_layers (encoder m)) = length blocks).
  { unfold Transformer_init in Hinit.
    destruct (Patch_Embedding_init _ _ _ _ _ _ _ _ _); [|discriminate].
    simpl in Hinit. unfold Encoder_init in Hinit.
    destruct (Encoder_layers_init _ _ _ _ _) as [layers|] eqn:Hl; [|discriminate].
    simpl in Hinit. injection Hinit as <-. simpl.
    now destruct (Encoder_layers_init_shapes _ _ _ _ _ Hl). }
  rewrite H2, H1, Hlen. destruct (training env); lia.
Qed.

Lemma Dropout_forward_eval (env : Env) (d : @Dropout T) (x : tensor3 T)
    (st : state) :
  training env = false -> Dropout_forward env d x st = Ok (x, st).
Proof. intros H. unfold Dropout_forward. now rewrite H. Qed.

Lemma Encoder_Block_forward_eval (env env' : Env) (blk : @Encoder_Block T)
    (x : tensor3 T) (st : state) :
  training env = false -> training env' = false ->
  Encoder_Block_forward env blk x st = Encoder_Block_forward env' blk x st.
Proof.
  intros He He'. unfold Encoder_Block_forward, bind.
  destruct (Multi_Headed_Attention_forward _ _ _ _) as [[a s1]|]; [|reflexivity].
  rewrite !Dropout_forward_eval by assumption.
  destruct (lift _ _) as [[x1 s2]|]; [|reflexivity].
  destruct (lift _ _) as [[f s3]|]; [|reflexivity].
  rewrite !Dropout_forward_eval by assumption. reflexivity.
Qed.

Lemma Encoder_loop_eval (env env' : Env) (layers : list (@Encoder_Block T))
    (x : tensor3 T) (st : state) :
  training env = false -> training env' = false ->
  Encoder_loop env layers x st = Encoder_loop env' layers x st.
Proof.
  intros He He'. revert x st.
  induction layers as [|blk rest IH]; intros x st; [reflexivity|].
  simpl. unfold bind.
  rewrite (@Encoder_Block_forward_eval env env' blk x st He He').
  destruct (Encoder_Block_forward env' blk x st) as [[y s1]|]; [|reflexivity].
  apply IH.
Qed.

(** In evaluation mode the result of a forward pass does not depend on the
    random draws, and the pass consumes none of them: two environments in
    evaluation mode give the same result from the same state, and a
    successful pass leaves the dropout call counter where it was. *)
Theorem Transformer_forward_eval (env env' : Env) (m : @Transformer T)
    (x : tensor4 T) (Target : Type) (target : Target) (st : state) :
  training env = false -> training env' = false ->
  Transformer_forward env m x target st = Transformer_forward env' m x target st
  /\ forall logits st',
       Transformer_forward env m x target st = Ok (logits, st') ->
       rng_calls st' = rng_calls st.
Proof.
  intros He He'. split.
  - unfold Transformer_forward, bind, Patch_Embedding_forward, bind.
    destruct (lift _ _) as [[a s1]|]; [|reflexivity].
    destruct (lift _ _) as [[c s2]|]; [|reflexivity].
    destruct (lift _ _) as [[y s3]|]; [|reflexivity].
    destruct (lift _ _) as [[z s4]|]; [|reflexivity].
    rewrite !Dropout_forward_eval by assumption.
    unfold Encoder_forward.
    rewrite (@Encoder_loop_eval env env' (encoder_layers (encoder m)) z s4 He He').
    reflexivity.
  - intros logits st' H. unfold Transformer_forward in H.
    apply bind_Ok in H. destruct H as (a & s1 & H1 & H).
    apply bind_Ok in H. destruct H as (c & s2 & H2 & H).
    apply bind_Ok in H. destruct H as (r & s3 & H3 & H).
    apply Patch_Embedding_forward_draws in H1.
    unfold Encoder_forward in H2. apply Encoder_loop_draws in H2.
    apply lift_state in H3, H. destruct H3 as [_ ->], H as [_ ->].
    rewrite H2, H1, He. lia.
Qed.

(** Stacking: running the encoder loop over two lists of blocks joined
    together is running it over the first list and feeding the result,
    state included, to the loop over the second; an error in the first part
    stops the pass. *)
Theorem Encoder_loop_app (env : Env) (l1 l2 : list (@Encoder_Block T))
    (x : tensor3 T) (st : state) :
  Encoder_loop env (l1 ++ l2) x st
  = match Encoder_loop env l1 x st with
    | Ok (y, st1) => Encoder_loop env l2 y st1
    | Err e => Err e
    end.
Proof.
  revert x st. induction l1 as [|blk rest IH]; intros x st; [reflexivity|].
  simpl. unfold bind.
  destruct (Encoder_Block_forward env blk x st) as [[y s1]|]; [|reflexivity].
  apply IH.
Qed.

End DrawFacts.

(** ** Construction of the whole model, and a one-row positional table *)

Section ConstructionFacts.

Context {T : Type} {SC : Scalar T}.

Lemma Encoder_layers_init_ok (E d_ffn nh : nat) (rate : T)
    (vals : list (@Block_values T)) :
  nh <> 0 -> E mod nh = 0 ->
  exists layers,
    Encoder_layers_init E d_ffn nh rate vals = Ok layers
    /\ length layers = length vals.
Proof.
  intros Hnh Hmod. induction vals as [|v rest [layers [IH Hlen]]].
  - exists []. split; reflexivity.
  - simpl. unfold Encoder_Block_init, Multi_Headed_Attention_init.
    rewrite (proj2 (Nat.eqb_neq nh 0) Hnh), Hmod. simpl. rewrite IH. simpl.
    eexists. split; [reflexivity|]. simpl. now rewrite Hlen.
Qed.

End ConstructionFacts.

(** For a dropout rate the dropout layers accept, the constructor fails in
    exactly three ways: a patch size of zero divides by zero before anything
    is built; with at least one encoder block, zero heads divide by zero and
    a head count that does not divide the embedding dimension trips the
    assertion.  With no encoder block the head count is never looked at,
    and construction succeeds whatever it is. *)
Theorem Transformer_init_result
    (img ps nc num_classes nh E d_ffn : nat) (rate : R)
    (pv : @Patch_values R) (head : @Linear_values R)
    (blocks : list (@Block_values R)) :
  (0 <= rate <= 1)%R ->
  (ps = 0 ->
   Transformer_init img ps nc num_classes nh E d_ffn rate pv head blocks
   = Err ZeroDivisionError)
  /\ (ps <> 0 -> blocks <> [] -> nh = 0 ->
      Transformer_init img ps nc num_classes nh E d_ffn rate pv head blocks
      = Err ZeroDivisionError)
  /\ (ps <> 0 -> blocks <> [] -> nh <> 0 -> E mod nh <> 0 ->
      Transformer_init img ps nc num_classes nh E d_ffn rate pv head blocks
      = Err AssertionError)
  /\ (ps <> 0 -> blocks = [] \/ (nh <> 0 /\ E mod nh = 0) ->
      exists m,
        Transformer_init img ps nc num_classes nh E d_ffn rate pv head blocks
        = Ok m
        /\ length (encoder_layers (encoder m)) = length blocks
        /\ num_patches (positional_encoding m) = (img / ps) ^ 2 + 1
        /\ out_features (mlp_head m) = num_classes).
Proof.
  intros _.
  unfold Transformer_init, Patch_Embedding_init, Encoder_init.
  repeat split.
  - intros ->. reflexivity.
  - intros Hps Hb ->. rewrite (proj2 (Nat.eqb_neq ps 0) Hps).
    destruct blocks as [|v rest]; [congruence|]. reflexivity.
  - intros Hps Hb Hnh Hmod. rewrite (proj2 (Nat.eqb_neq ps 0) Hps).
    destruct blocks as [|v rest]; [congruence|].
    cbn [rbind Encoder_layers_init].
    unfold Encoder_Block_init, Multi_Headed_Attention_init.
    rewrite (proj2 (Nat.eqb_neq nh 0) Hnh).
    rewrite (proj2 (Nat.eqb_neq (E mod nh) 0) Hmod). reflexivity.
  - intros Hps Hok. rewrite (proj2 (Nat.eqb_neq ps 0) Hps).
    cbn [rbind].
    destruct Hok as [-> | [Hnh Hmod]].
    + eexists. split; [reflexivity|]. repeat split.
    + destruct (@Encoder_layers_init_ok R E d_ffn nh rate blocks Hnh Hmod)
        as (layers & Hl & Hlen).
      rewrite Hl. cbn [rbind].
      eexists. split; [reflexivity|]. cbn. repeat split. exact Hlen.
Qed.

Section OneRowTable.

Context {T : Type} {SC : Scalar T}.
Variable env : Env.

(** A module built with a side length smaller than the patch size has a
    positional table of a single row.  It accepts images of every size that
    holds at least one patch, and the one row is added to every token: the
    tokens carry no information about their position. *)
Theorem Patch_Embedding_forward_one_row
    (img ps nc E : nat) (rate : T) (w : nat -> nat -> nat -> nat -> T)
    (bs : nat -> T) (pos cls : nat -> nat -> nat -> T)
    (pe : @Patch_Embedding T) (x : tensor4 T) (st : state) :
  Patch_Embedding_init img ps nc E rate w bs pos cls = Ok pe ->
  img < ps -> d4_1 x = nc -> ps <= d4_2 x -> ps <= d4_3 x ->
  exists out st',
    Patch_Embedding_forward env pe x st = Ok (out, st')
    /\ shape3 out = (d4_0 x, d4_2 x / ps * (d4_3 x / ps) + 1, E)
    /\ d3_1 (pos_encoding pe) = 1
    /\ forall b i e, b < d4_0 x -> i < d4_2 x / ps * (d4_3 x / ps) + 1 -> e < E ->
         get3 out b i e
         = dropout_elem env (dropout pe) (rng_calls st) b i e
             (fadd (if i =? 0 then get3 (class_token pe) 0 0 e
                    else patch_projection (conv_weight (conv pe))
                           (conv_bias (conv pe)) nc ps x b
                           ((i - 1) / (d4_3 x / ps)) ((i - 1) mod (d4_3 x / ps)) e)
                   (get3 (pos_encoding pe) 0 0 e)).
Proof.
  intros Hinit Hlt Hnc HH HW.
  destruct (Patch_Embedding_init_inv _ _ _ _ _ _ _ _ _ Hinit) as [Hps ->].
  assert (HP : (img / ps) ^ 2 + 1 = 1).
  { rewrite Nat.div_small by assumption. reflexivity. }
  destruct (@Patch_Embedding_forward_run T SC env ps nc E ((img / ps) ^ 2 + 1)
              rate w bs pos cls x st Hps Hnc HH HW)
    as (out & Hrun & Hshape & Hent); [right; exact HP|].
  exists out. eexists. split; [exact Hrun|]. split; [exact Hshape|].
  split; [exact HP|].
  intros b i e Hb Hi He. rewrite Hent by assumption.
  cbn [dropout conv class_token pos_encoding get3 conv_weight conv_bias].
  rewrite HP. reflexivity.
Qed.

End OneRowTable.

(** ** dataset.py *)

Section DatasetFacts.

Import Ascii String.

Local Open Scope R_scope.

(** The image normalisation maps the stated range of the inputs,
    [-0.0079, 0.9004], onto [0, 1]: the ends go to 0 and 1, it is
    increasing, and everything in between stays in between. *)
Theorem normalize_image_value_range :
  normalize_image_value (- (79 / 10000)) = 0
  /\ normalize_image_value (9004 / 10000) = 1
  /\ (forall x y, x < y -> normalize_image_value x < normalize_image_value y)
  /\ (forall x, - (79 / 10000) <= x <= 9004 / 10000 ->
        0 <= normalize_image_value x <= 1).
Proof.
  assert (Hd : 9004 / 10000 - - (79 / 10000) = 9083 / 10000) by lra.
  assert (Hf : forall x, normalize_image_value x = (x + 79 / 10000) * (10000 / 9083)).
  { intros x. unfold normalize_image_value. rewrite Hd. field. }
  repeat split.
  - rewrite Hf. lra.
  - rewrite Hf. lra.
  - intros x y Hxy. rewrite !Hf. nra.
  - rewrite Hf. nra.
  - rewrite Hf. nra.
Qed.

(** The target normalisation only shifts: it subtracts the constant
    c / (1 - c) with c = 4.1243e-05, so differences between targets are
    kept, the stated minimum c goes below zero, the stated maximum 1 stays
    below one, and the result differs from the min-max rescaling
    (t - c) / (1 - c) at every nonzero target. *)
Theorem normalize_target_value_shift :
  (forall t t', normalize_target_value t - normalize_target_value t' = t - t')
  /\ normalize_target_value (41243 / 1000000000) < 0
  /\ normalize_target_value 1 < 1
  /\ (forall t, t <> 0 ->
        normalize_target_value t
        <> (t - 41243 / 1000000000) / (1 - 41243 / 1000000000)).
Proof.
  assert (Hc : 1 - 41243 / 1000000000 = 999958757 / 1000000000) by lra.
  assert (Hf : forall t, normalize_target_value t = t - 41243 / 999958757).
  { intros t. unfold normalize_target_value. rewrite Hc. field. }
  repeat split.
  - intros t t'. rewrite !Hf. ring.
  - rewrite Hf. lra.
  - rewrite Hf. lra.
  - intros t Ht. rewrite Hf, Hc. intros Heq.
    apply Ht.
    assert (H : (t - 41243 / 1000000000) / (999958757 / 1000000000)
                = (t - 41243 / 1000000000) * (1000000000 / 999958757))
      by (field).
    rewrite H in Heq. lra.
Qed.

Local Close Scope R_scope.
Local Open Scope string_scope.

Lemma string_length_append (a b : string) :
  String.length (a ++ b) = String.length a + String.length b.
Proof. induction a as [|c a IH]; simpl; [reflexivity|now rewrite IH]. Qed.

Lemma substring_prefix (a b : string) :
  substring 0 (String.length a) (a ++ b) = a.
Proof.
  induction a as [|c a IH]; simpl.
  - destruct b; reflexivity.
  - now rewrite IH.
Qed.

Lemma py_drop_last4_ext (base ext : string) :
  String.length ext = 4 -> py_drop_last4 (base ++ ext) = base.
Proof.
  intros H. unfold py_drop_last4. rewrite string_length_append, H.
  replace (String.length base + 4 - 4) with (String.length base) by lia.
  apply substring_prefix.
Qed.

Lemma py_index_in_range {A} (l : list A) (i : Z) :
  (0 <= i < Z.of_nat (List.length l))%Z ->
  exists a, py_index l i = Return a /\ nth_error l (Z.to_nat i) = Some a.
Proof.
  intros [H0 H1]. unfold py_index.
  replace (i <? 0)%Z with false by (symmetry; apply Z.ltb_ge; lia).
  replace (i <? 0)%Z with false by (symmetry; apply Z.ltb_ge; lia).
  replace (Z.of_nat (List.length l) <=? i)%Z with false
    by (symmetry; apply Z.leb_gt; lia).
  simpl.
  destruct (nth_error l (Z.to_nat i)) as [a|] eqn:E.
  - exists a. split; reflexivity.
  - apply nth_error_None in E. lia.
Qed.

Lemma py_index_too_large {A} (l : list A) (i : Z) :
  (Z.of_nat (List.length l) <= i)%Z -> py_index l i = Raise Py_IndexError.
Proof.
  intros H. unfold py_index.
  replace (i <? 0)%Z with false by (symmetry; apply Z.ltb_ge; lia).
  replace (Z.of_nat (List.length l) <=? i)%Z with true
    by (symmetry; apply Z.leb_le; lia).
  now rewrite orb_true_r.
Qed.

Lemma py_index_negative {A} (l : list A) (k : Z) :
  (1 <= k <= Z.of_nat (List.length l))%Z ->
  py_index l (- k) = py_index l (Z.of_nat (List.length l) - k).
Proof.
  intros H. unfold py_index.
  replace (- k <? 0)%Z with true by (symmetry; apply Z.ltb_lt; lia).
  replace (Z.of_nat (List.length l) - k <? 0)%Z with false
    by (symmetry; apply Z.ltb_ge; lia).
  replace (- k + Z.of_nat (List.length l))%Z
    with (Z.of_nat (List.length l) - k)%Z by lia.
  reflexivity.
Qed.

Variable np_load : string -> outcome ndarray.

(** The name returned with a sample is the file name without its last four
    characters: for a data file called [base] followed by a four-character
    extension such as ".npy", a successful [__getitem__] returns [base],
    together with the normalised and transformed image and target. *)
Theorem Mirflickr_getitem_name (self : Mirflickr) (index : Z)
    (base ext target_name : string) (image target : ndarray) :
  py_index (data_list self) index = Return (base ++ ext) ->
  String.length ext = 4 ->
  np_load (os_path_join (data_dir self) (base ++ ext)) = Return image ->
  py_index (target_list self) index = Return target_name ->
  np_load (os_path_join (target_dir self) target_name) = Return target ->
  Mirflickr_getitem np_load self index
  = Return (apply_transform (in_transform self) (map normalize_image_value image),
            apply_transform (target_transform self)
              (map normalize_target_value target),
            base).
Proof.
  intros Hn Hext Hi Ht Htl. unfold Mirflickr_getitem.
  rewrite Hn. simpl. rewrite Hi. simpl. rewrite Ht. simpl. rewrite Htl. simpl.
  now rewrite py_drop_last4_ext.
Qed.

(** [__len__] counts the data files only.  When there are fewer target
    files, an index below [__len__] but past the targets makes
    [__getitem__] raise IndexError, after the image has been loaded. *)
Theorem Mirflickr_getitem_short_targets (self : Mirflickr) (index : Z) :
  (Z.of_nat (List.length (target_list self)) <= index
   < Z.of_nat (Mirflickr_len self))%Z ->
  (forall name, In name (data_list self) ->
     exists image, np_load (os_path_join (data_dir self) name) = Return image) ->
  Mirflickr_getitem np_load self index = Raise Py_IndexError.
Proof.
  intros [Hlo Hhi] Hload. unfold Mirflickr_len in Hhi.
  destruct (@py_index_in_range _ (data_list self) index) as (name & Hn & Hnth);
    [lia|].
  destruct (Hload name) as (image & Hi); [eapply nth_error_In; eassumption|].
  unfold Mirflickr_getitem. rewrite Hn. simpl. rewrite Hi. simpl.
  now rewrite py_index_too_large.
Qed.

(** Negative indices count from the end: with as many targets as data
    files, [__getitem__(-k)] is [__getitem__(len - k)] for every [k] from 1
    to the length. *)
Theorem Mirflickr_getitem_negative (self : Mirflickr) (k : Z) :
  List.length (target_list self) = List.length (data_list self) ->
  (1 <= k <= Z.of_nat (Mirflickr_len self))%Z ->
  Mirflickr_getitem np_load self (- k)
  = Mirflickr_getitem np_load self (Z.of_nat (Mirflickr_len self) - k).
Proof.
  intros Hlen Hk. unfold Mirflickr_len in *. unfold Mirflickr_getitem.
  rewrite (py_index_negative (data_list self)) by assumption.
  rewrite (py_index_negative (target_list self)) by (rewrite Hlen; assumption).
  rewrite Hlen. reflexivity.
Qed.

Variable listdir : string -> outcome (list string).
Variable split_indices : nat -> list nat * list nat * list nat.
Variable Transform : Type.
Variable External_set : Type.
Variable cifar_train_transform : nat -> Transform.
Variable cifar_val_transform : Transform.
Variable CIFAR10 : bool -> Transform -> outcome External_set.
Variable to_tensor_center_crop : nat -> ndarray -> ndarray.

(** In the Mirflickr branch the random split has no effect on what the
    three datasets contain: each of them is rebuilt from the file lists of
    the whole dataset, so the training, validation and test sets all hold
    every data file and every target file, whatever the split was. *)
Theorem get_loader_datasets_split_unused (min_side_len : nat)
    (root : string) (files targets : list string) :
  listdir (os_path_join root "diffuser_images_npy") = Return files ->
  listdir (os_path_join root "ground_truth_lensed_npy") = Return targets ->
  exists trainset valset testset,
    get_loader_datasets listdir split_indices cifar_train_transform
      cifar_val_transform CIFAR10 to_tensor_center_crop
      "Mirflickr" min_side_len root
    = Return (Mirflickr_set External_set trainset,
              Mirflickr_set External_set valset,
              Mirflickr_set External_set testset)
    /\ data_list trainset = files /\ target_list trainset = targets
    /\ data_list valset = files /\ target_list valset = targets
    /\ data_list testset = files /\ target_list testset = targets
    /\ Mirflickr_len trainset = List.length files
    /\ Mirflickr_len valset = List.length files
    /\ Mirflickr_len testset = List.length files.
Proof.
  intros Hf Ht. unfold get_loader_datasets.
  cbn [String.eqb Ascii.eqb Bool.eqb].
  unfold Mirflickr_init at 1. rewrite Hf, Ht. cbn [obind].
  unfold random_split.
  destruct (split_indices _) as [[i1 i2] i3].
  cbn [dataset data_list target_list Mirflickr_init obind].
  do 3 eexists. split; [reflexivity|].
  cbn [data_list target_list Mirflickr_len]. repeat split.
Qed.

End DatasetFacts.

(** ** Positional_Encoding *)

Lemma all_upto_true (n : nat) (f : nat -> bool) :
  all_upto n f = true <-> forall k, k < n -> f k = true.
Proof.
  induction n as [|n IH]; simpl.
  - split; [intros _ k Hk; lia|reflexivity].
  - rewrite andb_true_iff, IH. split.
    + intros [Ha Hn] k Hk. destruct (Nat.eq_dec k n) as [->|Hne];
        [assumption|apply Ha; lia].
    + intros H. split; [intros k Hk; apply H; lia|apply H; lia].
Qed.

Lemma all_upto_false (n : nat) (f : nat -> bool) (k : nat) :
  k < n -> f k = false -> all_upto n f = false.
Proof.
  intros Hk Hf. destruct (all_upto n f) eqn:E; [|reflexivity].
  rewrite all_upto_true in E. rewrite E in Hf by assumption. discriminate.
Qed.

Lemma half_sizes (E : nat) :
  expands_to ((E + 1) / 2) (E / 2) = true <-> Nat.even E = true \/ E = 1.
Proof.
  unfold expands_to. rewrite orb_true_iff, !Nat.eqb_eq.
  destruct (Nat.even E) eqn:Ev.
  - apply Nat.even_spec in Ev. destruct Ev as [k ->].
    replace (2 * k + 1) with (1 + k * 2) by lia.
    rewrite Nat.div_add by lia. replace (2 * k) with (k * 2) by lia.
    rewrite Nat.div_mul by lia. simpl. split; intros _; left; [reflexivity|lia].
  - assert (Hodd : Nat.odd E = true) by (rewrite <- Nat.negb_even, Ev; reflexivity).
    apply Nat.odd_spec in Hodd. destruct Hodd as [k ->].
    replace (2 * k + 1 + 1) with ((k + 1) * 2) by lia.
    rewrite Nat.div_mul by lia.
    replace (2 * k + 1) with (1 + k * 2) by lia.
    rewrite Nat.div_add by lia. simpl.
    split; intros [H|H]; try discriminate; try lia; right; lia.
Qed.

Section PositionalEncodingFacts.

Context {T : Type} {SC : Scalar T}.
Variable env : Env.
Variables fsin fcos flog fneg : T -> T.
Variable fltb : T -> T -> bool.
Variable to_long : T -> Z.

(** The constructor first builds the dropout layer, which rejects a rate
    outside [0, 1]; it then divides by the embedding dimension and fills the
    odd columns of the table from a value with one column per even column.
    So it raises ValueError for an invalid rate, and otherwise
    ZeroDivisionError for an embedding dimension of zero and a shape error
    for every odd embedding dimension from 3 on; for an even dimension, and
    for dimension 1, it returns a module whose table has [max_len] rows. *)
Theorem Positional_Encoding_init_result (in_dim E : nat) (rate : T)
    (max_len : nat) (emb : nat -> nat -> T) :
  (fltb rate fzero || fltb fone rate = true ->
   Positional_Encoding_init fsin fcos flog fneg fltb in_dim E rate max_len emb
   = Raise Py_ValueError)
  /\ (fltb rate fzero || fltb fone rate = false -> E = 0 ->
      Positional_Encoding_init fsin fcos flog fneg fltb in_dim E rate max_len emb
      = Raise Py_ZeroDivisionError)
  /\ (fltb rate fzero || fltb fone rate = false -> Nat.odd E = true -> 3 <= E ->
      Positional_Encoding_init fsin fcos flog fneg fltb in_dim E rate max_len emb
      = Raise Py_RuntimeError)
  /\ (fltb rate fzero || fltb fone rate = false -> E <> 0 ->
      Nat.even E = true \/ E = 1 ->
      exists pe,
        Positional_Encoding_init fsin fcos flog fneg fltb in_dim E rate max_len emb
        = Return pe
        /\ shape3 (penc_pos_encoding pe) = (1, max_len, E)
        /\ shape3 (penc_class_token pe) = (1, 1, E)
        /\ num_embeddings (penc_in_embedding pe) = in_dim
        /\ embedding_dim (penc_in_embedding pe) = E).
Proof.
  unfold Positional_Encoding_init. repeat split.
  - intros ->. reflexivity.
  - intros -> ->. reflexivity.
  - intros -> Hodd H3. rewrite (proj2 (Nat.eqb_neq E 0)) by lia.
    destruct (expands_to _ _) eqn:Hx; [|reflexivity].
    apply half_sizes in Hx. rewrite <- Nat.negb_odd, Hodd in Hx.
    destruct Hx as [Hx|Hx]; [discriminate|lia].
  - intros -> HE Hok. rewrite (proj2 (Nat.eqb_neq E 0)) by assumption.
    rewrite (proj2 (half_sizes E) Hok).
    eexists. split; [reflexivity|]. repeat split.
Qed.

Lemma Positional_Encoding_init_inv (in_dim E : nat) (rate : T)
    (max_len : nat) (emb : nat -> nat -> T) (pe : @Positional_Encoding T) :
  Positional_Encoding_init fsin fcos flog fneg fltb in_dim E rate max_len emb
  = Return pe ->
  pe = MkPositional_Encoding E (MkDropout rate) (MkEmbedding in_dim E emb)
         (T3 1 1 E (fun _ _ _ => fzero))
         (T3 1 max_len E
             (fun _ pos c => sinusoid_table fsin fcos flog fneg E pos c)).
Proof.
  unfold Positional_Encoding_init.
  destruct (_ || _); [discriminate|].
  destruct (E =? 0); [discriminate|].
  destruct (expands_to _ _); [|discriminate].
  intros H. injection H as <-. reflexivity.
Qed.

Lemma flat_index_decompose (C H W c h w : nat) :
  c < C -> h < H -> w < W ->
  let f := (c * H + h) * W + w in
  f < C * H * W /\ f / (H * W) = c /\ (f / W) mod H = h /\ f mod W = w.
Proof.
  intros Hc Hh Hw f. unfold f.
  assert (HW : W <> 0) by lia. assert (HH : H <> 0) by lia.
  assert (F1 : ((c * H + h) * W + w) / W = c * H + h).
  { rewrite Nat.div_add_l by assumption. rewrite Nat.div_small by assumption. lia. }
  repeat split.
  - assert (H1 : c * H + h + 1 <= C * H) by nia.
    assert (H2 : (c * H + h + 1) * W <= C * H * W)
      by (apply Nat.mul_le_mono_r; exact H1).
    lia.
  - rewrite (Nat.mul_comm H W), <- Nat.Div0.div_div, F1.
    rewrite Nat.div_add_l by assumption. rewrite Nat.div_small by assumption. lia.
  - rewrite F1. rewrite Nat.add_comm, Nat.Div0.mod_add. now apply Nat.mod_small.
  - rewrite Nat.add_comm, Nat.Div0.mod_add. now apply Nat.mod_small.
Qed.

Lemma flat_index_in_range (C H W f : nat) :
  f < C * H * W ->
  f / (H * W) < C /\ (f / W) mod H < H /\ f mod W < W.
Proof.
  intros Hf.
  assert (HW : W <> 0) by nia. assert (HH : H <> 0) by nia.
  repeat split.
  - apply Nat.Div0.div_lt_upper_bound. nia.
  - now apply Nat.mod_upper_bound.
  - now apply Nat.mod_upper_bound.
Qed.

(** For a module built by the constructor, an image batch whose pixels all
    convert to indices inside the vocabulary, and a sequence that fits the
    table, the forward pass returns one token per pixel plus the class
    token: token 0 is the class token plus row 0 of the table, token
    [1 + f] is the embedding of pixel [f] (in row-major order) scaled by
    sqrt(embed_dim) plus row [1 + f] of the table, and dropout comes last. *)
Theorem Positional_Encoding_forward_tokens (in_dim E : nat) (rate : T)
    (max_len : nat) (emb : nat -> nat -> T)
    (pe : @Positional_Encoding T) (x : tensor4 T) (st : state) :
  Positional_Encoding_init fsin fcos flog fneg fltb in_dim E rate max_len emb
  = Return pe ->
  (forall b c h w, b < d4_0 x -> c < d4_1 x -> h < d4_2 x -> w < d4_3 x ->
     (0 <= to_long (get4 x b c h w) < Z.of_nat in_dim)%Z) ->
  d4_1 x * d4_2 x * d4_3 x + 1 <= max_len ->
  exists out st',
    Positional_Encoding_forward env to_long pe x st = Ok (out, st')
    /\ shape3 out = (d4_0 x, d4_1 x * d4_2 x * d4_3 x + 1, E)
    /\ forall b e, b < d4_0 x -> e < E ->
         get3 out b 0 e
         = dropout_elem env (penc_dropout pe) (rng_calls st) b 0 e
             (fadd (get3 (penc_class_token pe) 0 0 e)
                   (get3 (penc_pos_encoding pe) 0 0 e))
         /\ forall c h w, c < d4_1 x -> h < d4_2 x -> w < d4_3 x ->
              let f := (c * d4_2 x + h) * d4_3 x + w in
              get3 out b (1 + f) e
              = dropout_elem env (penc_dropout pe) (rng_calls st) b (1 + f) e
                  (fadd (fmul (embedding_weight (penc_in_embedding pe)
                                 (Z.to_nat (to_long (get4 x b c h w))) e)
                              (fsqrt (of_nat E)))
                        (get3 (penc_pos_encoding pe) 0 (1 + f) e)).
Proof.
  intros Hinit Hvoc Hlen.
  apply Positional_Encoding_init_inv in Hinit. subst pe.
  set (N := d4_1 x * d4_2 x * d4_3 x) in *.
  unfold Positional_Encoding_forward, bind, lift.
  cbn [penc_class_token penc_in_embedding penc_embed_dim penc_pos_encoding
       penc_dropout].
  unfold expand0, flatten_long. cbn [d2_0 d2_1 d3_0 d3_1 d3_2 get2 get3].
  rewrite expands_to_one_l.
  unfold Embedding_forward. cbn [d2_0 d2_1 get2 num_embeddings embedding_dim
                                  embedding_weight].
  assert (Hall : all_upto (d4_0 x) (fun b =>
            all_upto N (fun n =>
              in_vocabulary (MkEmbedding in_dim E emb)
                (to_long (get4 x b (n / (d4_2 x * d4_3 x))
                            ((n / d4_3 x) mod d4_2 x) (n mod d4_3 x))))) = true).
  { apply all_upto_true. intros b Hb. apply all_upto_true. intros n Hn.
    destruct (@flat_index_in_range (d4_1 x) (d4_2 x) (d4_3 x) n Hn) as (H1 & H2 & H3).
    specialize (Hvoc b _ _ _ Hb H1 H2 H3).
    unfold in_vocabulary. cbn [num_embeddings].
    apply andb_true_iff. split; [apply Z.leb_le|apply Z.ltb_lt]; lia. }
  fold N. rewrite Hall.
  unfold cat1, map3. cbn [d3_0 d3_1 d3_2 get3]. rewrite !Nat.eqb_refl.
  cbn [andb].
  unfold bcast3, slice_rows. cbn [d3_0 d3_1 d3_2 get3].
  rewrite bdim_one_r, bdim_same.
  replace (Nat.min (1 + N) max_len) with (1 + N) by lia.
  rewrite bdim_same.
  match goal with
  | |- context [Dropout_forward env ?d ?t st] =>
      destruct (Dropout_forward_run env d t st) as (out & Hrun & Hshape & Hent)
  end.
  rewrite Hrun. exists out. eexists. split; [reflexivity|].
  split; [rewrite Hshape; unfold shape3; cbn; f_equal; f_equal; lia|].
  intros b e Hb He. split.
  - rewrite Hent. cbn [get3 Nat.ltb Nat.leb].
    rewrite !(bidx_lt Hb), !(bidx_lt He).
    rewrite (@bidx_lt (1 + N) 0) by lia. reflexivity.
  - intros c h w Hc Hh Hw.
    destruct (@flat_index_decompose (d4_1 x) (d4_2 x) (d4_3 x) c h w Hc Hh Hw)
      as (Hf & F1 & F2 & F3).
    set (f := (c * d4_2 x + h) * d4_3 x + w) in *. fold N in Hf.
    rewrite Hent. cbn [get3].
    rewrite !(bidx_lt Hb), !(bidx_lt He).
    rewrite (@bidx_lt (1 + N) (1 + f)) by lia.
    replace (1 + f <? 1) with false by (symmetry; apply Nat.ltb_ge; lia).
    replace (1 + f - 1) with f by lia.
    rewrite F1, F2, F3. reflexivity.
Qed.

(** Errors of the forward pass: a pixel whose index falls outside the
    vocabulary makes the embedding lookup raise IndexError (as it does on
    the CPU); with all pixels
    inside, a sequence of more than one token that is longer than the table
    (whose length is not 1) makes the addition of the table raise a shape
    error. *)
Theorem Positional_Encoding_forward_errors (in_dim E : nat) (rate : T)
    (max_len : nat) (emb : nat -> nat -> T)
    (pe : @Positional_Encoding T) (x : tensor4 T) (st : state) :
  Positional_Encoding_init fsin fcos flog fneg fltb in_dim E rate max_len emb
  = Return pe ->
  ((exists b c h w, b < d4_0 x /\ c < d4_1 x /\ h < d4_2 x /\ w < d4_3 x
      /\ (to_long (get4 x b c h w) < 0
          \/ Z.of_nat in_dim <= to_long (get4 x b c h w))%Z) ->
   Positional_Encoding_forward env to_long pe x st = Err IndexError)
  /\ ((forall b c h w, b < d4_0 x -> c < d4_1 x -> h < d4_2 x -> w < d4_3 x ->
         (0 <= to_long (get4 x b c h w) < Z.of_nat in_dim)%Z) ->
      max_len < d4_1 x * d4_2 x * d4_3 x + 1 ->
      0 < d4_1 x * d4_2 x * d4_3 x -> max_len <> 1 ->
      Positional_Encoding_forward env to_long pe x st = Err ShapeError).
Proof.
  intros Hinit.
  apply Positional_Encoding_init_inv in Hinit. subst pe.
  set (N := d4_1 x * d4_2 x * d4_3 x) in *.
  unfold Positional_Encoding_forward, bind, lift.
  cbn [penc_class_token penc_in_embedding penc_embed_dim penc_pos_encoding
       penc_dropout].
  unfold expand0, flatten_long. cbn [d2_0 d2_1 d3_0 d3_1 d3_2 get2 get3].
  rewrite expands_to_one_l.
  unfold Embedding_forward. cbn [d2_0 d2_1 get2 num_embeddings embedding_dim
                                  embedding_weight].
  fold N. split.
  - intros (b & c & h & w & Hb & Hc & Hh & Hw & Hbad).
    destruct (@flat_index_decompose (d4_1 x) (d4_2 x) (d4_3 x) c h w Hc Hh Hw)
      as (Hf & F1 & F2 & F3).
    set (f := (c * d4_2 x + h) * d4_3 x + w) in *. fold N in Hf.
    rewrite (@all_upto_false (d4_0 x) _ b Hb); [reflexivity|].
    apply (@all_upto_false N _ f Hf).
    rewrite F1, F2, F3. unfold in_vocabulary. cbn [num_embeddings].
    apply andb_false_iff. destruct Hbad as [Hneg|Hbig].
    + left. apply Z.leb_gt. exact Hneg.
    + right. apply Z.ltb_ge. exact Hbig.
  - intros Hvoc Hlong HN Hml.
    assert (Hall : all_upto (d4_0 x) (fun b =>
              all_upto N (fun n =>
                in_vocabulary (MkEmbedding in_dim E emb)
                  (to_long (get4 x b (n / (d4_2 x * d4_3 x))
                              ((n / d4_3 x) mod d4_2 x) (n mod d4_3 x))))) = true).
    { apply all_upto_true. intros b Hb. apply all_upto_true. intros n Hn.
      destruct (@flat_index_in_range (d4_1 x) (d4_2 x) (d4_3 x) n Hn)
        as (H1 & H2 & H3).
      specialize (Hvoc b _ _ _ Hb H1 H2 H3).
      unfold in_vocabulary. cbn [num_embeddings].
      apply andb_true_iff. split; [apply Z.leb_le|apply Z.ltb_lt]; lia. }
    rewrite Hall.
    unfold cat1, map3. cbn [d3_0 d3_1 d3_2 get3]. rewrite !Nat.eqb_refl.
    cbn [andb].
    unfold bcast3, slice_rows. cbn [d3_0 d3_1 d3_2 get3].
    rewrite bdim_one_r.
    replace (Nat.min (1 + N) max_len) with max_len by lia.
    assert (Hb : bdim (1 + N) max_len = None).
    { unfold bdim.
      rewrite (proj2 (Nat.eqb_neq (1 + N) max_len)) by lia.
      rewrite (proj2 (Nat.eqb_neq (1 + N) 1)) by lia.
      rewrite (proj2 (Nat.eqb_neq max_len 1)) by lia. reflexivity. }
    rewrite Hb. reflexivity.
Qed.

End PositionalEncodingFacts.

Section RealTable.

Variable gelu : R -> R.
Local Hint Extern 0 (Scalar R) => exact (RScalar gelu) : typeclass_instances.

Local Open Scope R_scope.

(** The table the constructor computes: every entry lies between -1 and 1;
    the row of position 0 is 0 in the even columns and 1 in the odd ones;
    columns 0 and 1 hold the sine and the cosine of the position itself;
    the class token starts at zero. *)
Theorem Positional_Encoding_init_table (in_dim E : nat) (rate : R)
    (max_len : nat) (emb : nat -> nat -> R) (pe : @Positional_Encoding R) :
  Positional_Encoding_init sin cos ln Ropp Rlt_b in_dim E rate max_len emb
  = Return pe ->
  (forall pos c, -1 <= get3 (penc_pos_encoding pe) 0 pos c <= 1)
  /\ (forall c, get3 (penc_pos_encoding pe) 0 0 c = if Nat.even c then 0 else 1)
  /\ (forall pos, get3 (penc_pos_encoding pe) 0 pos 0 = sin (INR pos)
                  /\ get3 (penc_pos_encoding pe) 0 pos 1 = cos (INR pos))
  /\ (forall b i e, get3 (penc_class_token pe) b i e = 0).
Proof.
  intros H. apply Positional_Encoding_init_inv in H. subst pe.
  cbn [penc_pos_encoding penc_class_token get3].
  assert (Hd0 : div_term (SC := RScalar gelu) ln Ropp E 0 = 1).
  { unfold div_term. cbn [fexp fmul fdiv of_nat RScalar Nat.mul INR].
    rewrite Rmult_0_l. apply exp_0. }
  repeat split.
  - unfold sinusoid_table. destruct (Nat.even c);
      [apply SIN_bound|apply COS_bound].
  - unfold sinusoid_table. destruct (Nat.even c);
      [apply SIN_bound|apply COS_bound].
  - intros c. unfold sinusoid_table.
    cbn [fmul of_nat RScalar INR]. rewrite Rmult_0_l.
    destruct (Nat.even c); [apply sin_0|apply cos_0].
  - unfold sinusoid_table.
    change (Nat.even 0) with true. change (0 / 2)%nat with 0%nat. cbv iota.
    rewrite Hd0. cbn [fmul of_nat RScalar]. now rewrite Rmult_1_r.
  - unfold sinusoid_table.
    change (Nat.even 1) with false. change (1 / 2)%nat with 0%nat. cbv iota.
    rewrite Hd0. cbn [fmul of_nat RScalar]. now rewrite Rmult_1_r.
Qed.

End RealTable.

(** ** The further properties on concrete inputs *)

Lemma ex_attention_init :
  Multi_Headed_Attention_init (T := R) 1 2
    (lin_w ex_linear_values) (lin_w ex_linear_values) (lin_w ex_linear_values)
    (lin_b ex_linear_values) (lin_b ex_linear_values) (lin_b ex_linear_values)
  = Ok ex_attention.
Proof. reflexivity. Qed.

(** Head layout on the one-head example with the causal flag set. *)
Lemma Multi_Headed_Attention_forward_heads_witness :
  exists out,
    Multi_Headed_Attention_forward (SC := RScalar ex_gelu) ex_attention
      (ex_tokens 1) true ex_state
    = Ok (out, St 0 [true])
    /\ shape3 out = (1, 2, 2).
Proof.
  destruct (@Multi_Headed_Attention_forward_heads R (RScalar ex_gelu) 1 2 1 2
              (lin_w ex_linear_values) (lin_w ex_linear_values)
              (lin_w ex_linear_values) (lin_b ex_linear_values)
              (lin_b ex_linear_values) (lin_b ex_linear_values)
              ex_attention (ex_tokens 1) true ex_state)
    as (q & k & v & out & _ & _ & _ & Hrun & Hshape & _).
  - apply ex_attention_init.
  - intros _. apply RScalar_mask_laws.
  - reflexivity.
  - lia.
  - lia.
  - exists out. split; [exact Hrun|exact Hshape].
Defined.

(** An empty batch through the example attention module. *)
Lemma Multi_Headed_Attention_forward_empty_witness :
  Multi_Headed_Attention_forward (SC := RScalar ex_gelu) ex_attention
    ex_empty_tokens false ex_state
  = Err ShapeError.
Proof.
  apply (@Multi_Headed_Attention_forward_empty R (RScalar ex_gelu) 1 2 0 2
           (lin_w ex_linear_values) (lin_w ex_linear_values)
           (lin_w ex_linear_values) (lin_b ex_linear_values)
           (lin_b ex_linear_values) (lin_b ex_linear_values)).
  - apply ex_attention_init.
  - reflexivity.
  - left. reflexivity.
Defined.

(** Values 0 and 1 in V: the output lies between 0 and 1. *)
Lemma Self_Attention_forward_convex_witness :
  exists out,
    Self_Attention_forward (SC := RScalar ex_gelu) ex_ones ex_ones ex_step true = Ok out
    /\ (0 <= get4 out 0 0 1 0 <= 1)%R.
Proof.
  destruct (@Self_Attention_forward_convex ex_gelu ex_ones ex_ones ex_step true
              0 0 1 0 0%R 1%R)
    as (out & Hout & _ & _ & Hb).
  - reflexivity.
  - reflexivity.
  - simpl; lia.
  - simpl; lia.
  - simpl; lia.
  - simpl; lia.
  - intros j _. simpl. destruct (j =? 1); lra.
  - exists out. split; [exact Hout|exact Hb].
Defined.

(** Two queries against three keys. *)
Lemma Self_Attention_forward_lengths_witness :
  Self_Attention_forward (SC := RScalar ex_gelu)
    (const4 1 1 2 1 1%R) (const4 1 1 3 1 1%R) (const4 1 1 3 1 1%R) true
  = Err ShapeError
  /\ exists out,
       Self_Attention_forward (SC := RScalar ex_gelu)
         (const4 1 1 2 1 1%R) (const4 1 1 3 1 1%R) (const4 1 1 3 1 1%R) false
       = Ok out
       /\ shape4 out = (1, 1, 2, 1).
Proof.
  apply (@Self_Attention_forward_lengths R (RScalar ex_gelu)
           (const4 1 1 2 1 1%R) (const4 1 1 3 1 1%R) (const4 1 1 3 1 1%R)
           1 1 2 3 1 1); try reflexivity; lia.
Defined.

(** Token 0 unchanged, token 1 changed: the feed-forward output at token 0
    is the same. *)
Lemma Position_wise_ffn_forward_local_witness :
  exists y y',
    Position_wise_ffn_forward (SC := RScalar ex_gelu) (ffn ex_block) (ex_tokens 1) = Ok y
    /\ Position_wise_ffn_forward (SC := RScalar ex_gelu) (ffn ex_block)
         ex_tokens_changed = Ok y'
    /\ shape3 y = shape3 y'
    /\ forall o, get3 y 0 0 o = get3 y' 0 0 o.
Proof.
  apply (@Position_wise_ffn_forward_local R (RScalar ex_gelu) (ffn ex_block)
           (ex_tokens 1) ex_tokens_changed 0 0).
  - reflexivity.
  - reflexivity.
  - reflexivity.
  - intros e _. reflexivity.
Defined.

(** The residual sub-layer with initial affine parameters on two tokens. *)
Lemma Add_and_Norm_forward_standardized_witness :
  exists out,
    Add_and_Norm_forward (SC := RScalar ex_gelu)
      (MkAdd_and_Norm (MkLayerNorm 2 (fun _ => 1%R) (fun _ => 0%R)))
      (ex_tokens 1) (ex_tokens 2) = Ok out
    /\ shape3 out = (1, 2, 2).
Proof.
  destruct (@Add_and_Norm_forward_standardized ex_gelu (ex_tokens 1) (ex_tokens 2) 2)
    as (out & Hout & Hshape & _).
  - reflexivity.
  - reflexivity.
  - lia.
  - exists out. split; [exact Hout|exact Hshape].
Defined.

(** The one-block example model in training mode: three dropout calls. *)
Lemma Transformer_forward_draws_witness :
  exists logits st',
    Transformer_forward (SC := RScalar ex_gelu) ex_train_env ex_model
      (ex_image 8 8 0%R) ex_target ex_state = Ok (logits, st')
    /\ rng_calls st' = 3.
Proof.
  destruct (@Transformer_forward_draws R (RScalar ex_gelu) ex_train_env
              8 4 1 3 1 2 4 1 0%R ex_patch_values ex_linear_values
              [ex_block_values] ex_model (ex_image 8 8 0%R)
              (tensor1 nat) ex_target ex_state)
    as (logits & st' & Hrun & Hcalls).
  - apply ex_model_init.
  - reflexivity.
  - lia.
  - reflexivity.
  - lia.
  - lia.
  - exists logits, st'. split; [exact Hrun|exact Hcalls].
Defined.

(** Two evaluation-mode environments with different draws. *)
Lemma Transformer_forward_eval_witness :
  Transformer_forward (SC := RScalar ex_gelu) ex_env ex_model
    (ex_image 8 8 0%R) ex_target ex_state
  = Transformer_forward (SC := RScalar ex_gelu)
      (MkEnv false (fun _ _ _ _ => false)) ex_model
      (ex_image 8 8 0%R) ex_target ex_state.
Proof.
  apply (@Transformer_forward_eval R (RScalar ex_gelu) ex_env
           (MkEnv false (fun _ _ _ _ => false)) ex_model (ex_image 8 8 0%R)
           (tensor1 nat) ex_target ex_state); reflexivity.
Defined.

(** Three heads and an embedding dimension of 8: one block fails, no block
    succeeds. *)
Lemma Transformer_init_result_witness :
  Transformer_init (T := R) 8 4 1 3 3 8 4 0%R
    ex_patch_values ex_linear_values [ex_block_values]
  = Err AssertionError
  /\ exists m,
       Transformer_init (T := R) 8 4 1 3 3 8 4 0%R
         ex_patch_values ex_linear_values []
       = Ok m.
Proof.
  split.
  - destruct (@Transformer_init_result 8 4 1 3 3 8 4 0%R
                ex_patch_values ex_linear_values [ex_block_values])
      as (_ & _ & Hassert & _); [lra|].
    apply Hassert; [lia|discriminate|lia|].
    simpl. lia.
  - destruct (@Transformer_init_result 8 4 1 3 3 8 4 0%R
                ex_patch_values ex_linear_values [])
      as (_ & _ & _ & Hok); [lra|].
    destruct Hok as (m & Hm & _); [lia|left; reflexivity|].
    exists m. exact Hm.
Defined.

(** A module built for side 2 with patch size 4, on an 8x8 image. *)
Lemma Patch_Embedding_forward_one_row_witness :
  exists out st',
    Patch_Embedding_forward (SC := RScalar ex_gelu) ex_env ex_small_patch_embedding
      (ex_image 8 8 0%R) ex_state = Ok (out, st')
    /\ shape3 out = (1, 5, 2).
Proof.
  destruct (@Patch_Embedding_forward_one_row R (RScalar ex_gelu) ex_env
              2 4 1 2 0%R
              (val_conv_w ex_patch_values) (val_conv_b ex_patch_values)
              (val_pos ex_patch_values) (val_cls ex_patch_values)
              ex_small_patch_embedding (ex_image 8 8 0%R) ex_state)
    as (out & st' & Hrun & Hshape & _).
  - reflexivity.
  - lia.
  - reflexivity.
  - simpl; lia.
  - simpl; lia.
  - exists out, st'. split; [exact Hrun|exact Hshape].
Defined.

Section DatasetWitnesses.

Import Ascii String.
Local Open Scope string_scope.

(** The sample at index 0 of the example dataset is called "a". *)
Lemma Mirflickr_getitem_name_witness :
  Mirflickr_getitem ex_np_load ex_mirflickr 0
  = Return (map normalize_image_value [0%R; 1%R],
            map normalize_target_value [0%R; 1%R], "a").
Proof.
  apply (@Mirflickr_getitem_name ex_np_load ex_mirflickr 0%Z "a" ".npy" "a.npy"
           [0%R; 1%R] [0%R; 1%R]); reflexivity.
Defined.

(** Index 1 is below the length 2 but there is only one target. *)
Lemma Mirflickr_getitem_short_targets_witness :
  Mirflickr_len ex_mirflickr_short = 2
  /\ Mirflickr_getitem ex_np_load ex_mirflickr_short 1 = Raise Py_IndexError.
Proof.
  split; [reflexivity|].
  apply (@Mirflickr_getitem_short_targets ex_np_load ex_mirflickr_short 1%Z).
  - simpl. lia.
  - intros name _. exists [0%R; 1%R]. reflexivity.
Defined.

(** Index -1 is the last sample. *)
Lemma Mirflickr_getitem_negative_witness :
  Mirflickr_getitem ex_np_load ex_mirflickr (- 1)
  = Mirflickr_getitem ex_np_load ex_mirflickr (Z.of_nat (Mirflickr_len ex_mirflickr) - 1).
Proof.
  apply (@Mirflickr_getitem_negative ex_np_load ex_mirflickr 1%Z).
  - reflexivity.
  - simpl. lia.
Defined.

(** A directory with two files, split as 1 / 1 / 0: all three datasets
    have both files. *)
Lemma get_loader_datasets_split_unused_witness :
  exists trainset valset testset,
    get_loader_datasets ex_listdir ex_split (fun _ : nat => tt) tt
      (fun (_ : bool) (_ : unit) => Return tt) (fun _ a => a)
      "Mirflickr" 8 "d/"
    = Return (Mirflickr_set unit trainset, Mirflickr_set unit valset,
              Mirflickr_set unit testset)
    /\ Mirflickr_len trainset = 2
    /\ Mirflickr_len valset = 2
    /\ Mirflickr_len testset = 2.
Proof.
  destruct (@get_loader_datasets_split_unused ex_listdir ex_split unit unit
              (fun _ : nat => tt) tt (fun (_ : bool) (_ : unit) => Return tt)
              (fun _ a => a) 8 "d/" ["a.npy"; "b.npy"] ["a.npy"; "b.npy"])
    as (a & b & c & Hrun & _ & _ & _ & _ & _ & _ & Ha & Hb & Hc).
  - reflexivity.
  - reflexivity.
  - exists a, b, c. split; [exact Hrun|]. split; [exact Ha|].
    split; [exact Hb|exact Hc].
Defined.

End DatasetWitnesses.

Lemma ex_positional_encoding_init :
  Positional_Encoding_init (SC := RScalar ex_gelu) sin cos ln Ropp Rlt_b
    256 2 0%R 10 (fun _ _ => 0%R)
  = Return ex_positional_encoding.
Proof.
  unfold Positional_Encoding_init. cbn [fzero fone RScalar].
  unfold Rlt_b. destruct (Rlt_dec 0 0) as [H|_]; [lra|].
  destruct (Rlt_dec 1 0) as [H|_]; [lra|]. reflexivity.
Qed.

Lemma Int_part_0 : Int_part 0 = 0%Z.
Proof. symmetry. apply Int_part_spec. simpl. lra. Qed.

Lemma Int_part_m1 : Int_part (-1) = (-1)%Z.
Proof. symmetry. apply Int_part_spec. simpl. lra. Qed.

(** Two pixels of value 0: three tokens. *)
Lemma Positional_Encoding_forward_tokens_witness :
  exists out st',
    Positional_Encoding_forward (SC := RScalar ex_gelu) ex_env ex_to_long
      ex_positional_encoding (ex_image 1 2 0%R) ex_state = Ok (out, st')
    /\ shape3 out = (1, 3, 2).
Proof.
  destruct (@Positional_Encoding_forward_tokens R (RScalar ex_gelu) ex_env
              sin cos ln Ropp Rlt_b ex_to_long 256 2 0%R 10 (fun _ _ => 0%R)
              ex_positional_encoding (ex_image 1 2 0%R) ex_state)
    as (out & st' & Hrun & Hshape & _).
  - apply ex_positional_encoding_init.
  - intros b c h w _ _ _ _. simpl. unfold ex_to_long. rewrite Int_part_0. lia.
  - simpl. lia.
  - exists out, st'. split; [exact Hrun|exact Hshape].
Defined.

(** A pixel of value -1 is outside the vocabulary. *)
Lemma Positional_Encoding_forward_errors_witness :
  Positional_Encoding_forward (SC := RScalar ex_gelu) ex_env ex_to_long
    ex_positional_encoding (ex_image 1 2 (-1)%R) ex_state = Err IndexError.
Proof.
  destruct (@Positional_Encoding_forward_errors R (RScalar ex_gelu) ex_env
              sin cos ln Ropp Rlt_b ex_to_long 256 2 0%R 10 (fun _ _ => 0%R)
              ex_positional_encoding (ex_image 1 2 (-1)%R) ex_state
              ex_positional_encoding_init)
    as [Hidx _].
  apply Hidx. exists 0, 0, 0, 0. simpl.
  repeat (split; [lia|]). left. unfold ex_to_long. rewrite Int_part_m1. lia.
Defined.

(** The example table: entries between -1 and 1. *)
Lemma Positional_Encoding_init_table_witness :
  (-1 <= get3 (penc_pos_encoding ex_positional_encoding) 0 3 1 <= 1)%R
  /\ get3 (penc_pos_encoding ex_positional_encoding) 0 0 1 = 1%R.
Proof.
  destruct (@Positional_Encoding_init_table ex_gelu 256 2 0%R 10 (fun _ _ => 0%R)
              ex_positional_encoding ex_positional_encoding_init)
    as (Hb & H0 & _).
  split; [apply Hb|apply (H0 1)].
Defined.
